(** * The end-to-end provisioning driver of aegis, embedded and verified

    Source: [backend/test/container/e2e-provisioning-test.py].

    The driver logs in with a password and a TOTP code, creates a tenant,
    polls its provisioning status, probes the container and asks the health
    monitor.  The embedding is shallow: bytes are 8-bit integers in [Z],
    Python values parsed from JSON are an inductive type, exceptions are
    results, and everything that touches the outside (clock, sleeps, HTTP,
    the docker command line, the console) goes through a small state and
    error monad over an explicit [world].

    Conventions of the model:
    - the clock is read in whole seconds, [clock w] being [int(time.time())],
      and a sleep advances it by its argument;
    - the backend is scripted: [backend w n] is what the [n]-th request of
      [api_call] meets, whatever the request says;
    - [hashlib], [hmac], [base64], [struct] and [urllib] are Python's own and
      are modelled after FIPS 180-4, RFC 2104, RFC 4648 and their
      documentation;
    - strings are byte strings; [lower] and [strip] treat ASCII only, and
      the text that [bytes.decode()] gives is the list of its characters,
      each kept as the bytes that encode it;
    - a printed line keeps the pieces of its f-string, so the text of
      [str(v)] for a value or an exception is never needed. *)

From Stdlib Require Import ZArith List String Ascii Bool Lia Arith PeanoNat.
From Corelib Require Import PrimFloat.
Import ListNotations.
Open Scope string_scope.
Open Scope list_scope.
Open Scope Z_scope.

(** ** Exceptions and results *)

(** The exception classes the driver can meet.  [SystemExit] is the only one
    that does not derive from [Exception]. *)
Inductive exn : Type :=
| BinasciiError (msg : string)
| ValueError (msg : string)
| StructError
| ZeroDivisionError
| IndexError
| KeyError (key : string)
| TypeError
| AttributeError
| UnicodeDecodeError
| UnboundLocalError (var : string)
| HTTPError (code : Z) (body : string)
| URLError (reason : string)
| OtherException (what : string)
| SystemExit (code : Z).

Inductive res (A : Type) : Type :=
| Ok (a : A)
| Raise (e : exn).
Arguments Ok {A} a.
Arguments Raise {A} e.

Definition res_bind {A B} (r : res A) (k : A -> res B) : res B :=
  match r with
  | Ok a => k a
  | Raise e => Raise e
  end.

Notation "'do' x <- r ; k" := (res_bind r (fun x => k))
  (at level 10, x name, r at level 100, k at level 200).

(** [isinstance(e, Exception)]. *)
Definition is_Exception (e : exn) : bool :=
  match e with
  | SystemExit _ => false
  | _ => true
  end.

(** [isinstance(e, NameError)]: [UnboundLocalError] is its only subclass here. *)
Definition is_NameError (e : exn) : bool :=
  match e with
  | UnboundLocalError _ => true
  | _ => false
  end.

(** ** Bytes *)

Definition bytes := list Z.

Definition is_byte (b : Z) : Prop := 0 <= b < 256.

(** [x.to_bytes(n, 'big')] for [0 <= x < 256^n]. *)
Fixpoint be_bytes (n : nat) (x : Z) : bytes :=
  match n with
  | O => []
  | S k => (x / 256 ^ Z.of_nat k) mod 256 :: be_bytes k x
  end.

(** [int.from_bytes(b, 'big')]. *)
Definition be_value (b : bytes) : Z :=
  fold_left (fun acc x => acc * 256 + x) b 0.

Definition string_of_bytes (b : bytes) : string :=
  string_of_list_ascii (map (fun x => ascii_of_nat (Z.to_nat x)) b).

Definition bytes_of_string (s : string) : bytes :=
  map (fun c => Z.of_N (N_of_ascii c)) (list_ascii_of_string s).

(** ** SHA-1 ([hashlib.sha1], FIPS 180-4) on 32-bit words kept in [Z] *)

Module Sha1.

Definition w32 (x : Z) : Z := x mod 2 ^ 32.

Definition add32 (x y : Z) : Z := w32 (x + y).

Definition rotl (n x : Z) : Z :=
  w32 (Z.lor (Z.shiftl x n) (Z.shiftr x (32 - n))).

Definition not32 (x : Z) : Z := Z.lxor x 0xFFFFFFFF.

Record state : Type := mkState { ha : Z; hb : Z; hc : Z; hd : Z; he : Z }.

Definition init : state :=
  mkState 0x67452301 0xEFCDAB89 0x98BADCFE 0x10325476 0xC3D2E1F0.

Definition f (t : nat) (b c d : Z) : Z :=
  if (t <? 20)%nat then Z.lor (Z.land b c) (Z.land (not32 b) d)
  else if (t <? 40)%nat then Z.lxor (Z.lxor b c) d
  else if (t <? 60)%nat then Z.lor (Z.lor (Z.land b c) (Z.land b d)) (Z.land c d)
  else Z.lxor (Z.lxor b c) d.

Definition K (t : nat) : Z :=
  if (t <? 20)%nat then 0x5A827999
  else if (t <? 40)%nat then 0x6ED9EBA1
  else if (t <? 60)%nat then 0x8F1BBCDC
  else 0xCA62C1D6.

(** The message schedule, most recent word first. *)
Fixpoint expand (n : nat) (w : list Z) : list Z :=
  match n with
  | O => w
  | S k =>
      let x := Z.lxor (Z.lxor (Z.lxor (nth 2 w 0) (nth 7 w 0)) (nth 13 w 0)) (nth 15 w 0) in
      expand k (rotl 1 x :: w)
  end.

Fixpoint words (fuel : nat) (b : bytes) : list Z :=
  match fuel with
  | O => []
  | S k =>
      match b with
      | [] => []
      | _ => be_value (firstn 4 b) :: words k (skipn 4 b)
      end
  end.

Definition schedule (block : bytes) : list Z :=
  rev (expand 64 (rev (words 16 block))).

Definition step (t : nat) (w : Z) (s : state) : state :=
  let temp := add32 (add32 (add32 (add32 (rotl 5 (ha s)) (f t (hb s) (hc s) (hd s))) (he s)) (K t)) w in
  mkState temp (ha s) (rotl 30 (hb s)) (hc s) (hd s).

Fixpoint rounds (t : nat) (ws : list Z) (s : state) : state :=
  match ws with
  | [] => s
  | w :: ws' => rounds (S t) ws' (step t w s)
  end.

Definition compress (h : state) (block : bytes) : state :=
  let s := rounds 0 (schedule block) h in
  mkState (add32 (ha h) (ha s)) (add32 (hb h) (hb s)) (add32 (hc h) (hc s))
          (add32 (hd h) (hd s)) (add32 (he h) (he s)).

Definition pad (m : bytes) : bytes :=
  let l := Z.of_nat (List.length m) in
  m ++ [0x80] ++ repeat 0 (Z.to_nat ((55 - l) mod 64)) ++ be_bytes 8 (8 * l).

Fixpoint blocks (fuel : nat) (m : bytes) : list bytes :=
  match fuel with
  | O => []
  | S k =>
      match m with
      | [] => []
      | _ => firstn 64 m :: blocks k (skipn 64 m)
      end
  end.

Definition digest_of (s : state) : bytes :=
  be_bytes 4 (ha s) ++ be_bytes 4 (hb s) ++ be_bytes 4 (hc s)
  ++ be_bytes 4 (hd s) ++ be_bytes 4 (he s).

Definition sha1 (m : bytes) : bytes :=
  let p := pad m in
  digest_of (fold_left compress (blocks (List.length p) p) init).

End Sha1.

(** ** HMAC ([hmac.new(key, msg, hashlib.sha1).digest()], RFC 2104) *)

Definition hmac_block_size : nat := 64.

Definition hmac_sha1 (key msg : bytes) : bytes :=
  let key0 := if (hmac_block_size <? List.length key)%nat then Sha1.sha1 key else key in
  let keyp := key0 ++ repeat 0 (hmac_block_size - List.length key0) in
  let inner := Sha1.sha1 (map (Z.lxor 0x36) keyp ++ msg) in
  Sha1.sha1 (map (Z.lxor 0x5C) keyp ++ inner).

(** ** [struct.pack] and [struct.unpack] for the two formats used *)

(** [struct.pack(">Q", n)]: an unsigned 64-bit big-endian integer. *)
Definition pack_Q (n : Z) : res bytes :=
  if (0 <=? n) && (n <? 2 ^ 64) then Ok (be_bytes 8 n) else Raise StructError.

(** [struct.unpack(">I", b)[0]]: the buffer must hold exactly four bytes. *)
Definition unpack_I (b : bytes) : res Z :=
  if (List.length b =? 4)%nat then Ok (be_value b) else Raise StructError.

(** ** [base64.b32decode(s, casefold=True)] *)

Module Base32.

Definition upper (c : Z) : Z := if (97 <=? c) && (c <=? 122) then c - 32 else c.

(** The reverse alphabet: [A-Z] are 0..25, [2-7] are 26..31. *)
Definition b32rev (c : Z) : option Z :=
  if (65 <=? c) && (c <=? 90) then Some (c - 65)
  else if (50 <=? c) && (c <=? 55) then Some (c - 24)
  else None.

(** [s.rstrip(b'=')], on the reversed input. *)
Fixpoint lstrip_pad (s : bytes) : bytes :=
  match s with
  | c :: s' => if c =? 61 then lstrip_pad s' else s
  | [] => []
  end.

Definition rstrip_pad (s : bytes) : bytes := rev (lstrip_pad (rev s)).

(** The inner loop [acc = (acc << 5) + b32rev[c]] over one quantum. *)
Fixpoint accumulate (acc : Z) (quanta : bytes) : res Z :=
  match quanta with
  | [] => Ok acc
  | c :: q =>
      match b32rev c with
      | Some v => accumulate (Z.shiftl acc 5 + v) q
      | None => Raise (BinasciiError "Non-base32 digit found")
      end
  end.

(** The outer loop: returns the decoded bytes and the last [acc]. *)
Fixpoint quanta_loop (fuel : nat) (s : bytes) (decoded : bytes) (acc : Z) : res (bytes * Z) :=
  match fuel with
  | O => Ok (decoded, acc)
  | S k =>
      match s with
      | [] => Ok (decoded, acc)
      | _ =>
          do acc' <- accumulate 0 (firstn 8 s);
          quanta_loop k (skipn 8 s) (decoded ++ be_bytes 5 acc') acc'
      end
  end.

Definition valid_padchars (p : nat) : bool :=
  match p with
  | 0%nat | 1%nat | 3%nat | 4%nat | 6%nat => true
  | _ => false
  end.

Definition b32decode (text : string) : res bytes :=
  let s := bytes_of_string text in
  if existsb (fun c => 128 <=? c) s
  then Raise (ValueError "string argument should contain only ASCII characters")
  else if negb (Nat.eqb (List.length s mod 8) 0)
  then Raise (BinasciiError "Incorrect padding")
  else
    let s := map upper s in
    let l := List.length s in
    let s := rstrip_pad s in
    let padchars := (l - List.length s)%nat in
    do r <- quanta_loop (List.length s) s [] 0;
    let '(decoded, acc) := r in
    if negb (valid_padchars padchars)
    then Raise (BinasciiError "Incorrect padding")
    else if negb (Nat.eqb padchars 0) && negb (Nat.eqb (List.length decoded) 0)
    then
      let acc := Z.shiftl acc (5 * Z.of_nat padchars) in
      let last := be_bytes 5 acc in
      let leftover := ((43 - 5 * padchars) / 8)%nat in
      Ok (firstn (List.length decoded - 5) decoded ++ firstn leftover last)
    else Ok decoded.

End Base32.

(** ** [str(int)] and [str.zfill] *)

Definition digit_char (d : Z) : ascii := ascii_of_nat (48 + Z.to_nat d).

Fixpoint digits_of (fuel : nat) (n : Z) (acc : string) : string :=
  match fuel with
  | O => acc
  | S k =>
      let acc' := String (digit_char (n mod 10)) acc in
      if n / 10 =? 0 then acc' else digits_of k (n / 10) acc'
  end.

(** A number below [2^(k+1)] has at most [k+1] decimal digits. *)
Definition digit_fuel (n : Z) : nat := S (Z.to_nat (Z.log2 n)).

Definition str_int (z : Z) : string :=
  if z <? 0 then String "-" (digits_of (digit_fuel (- z)) (- z) EmptyString)
  else digits_of (digit_fuel z) z EmptyString.

Fixpoint zeros (n : nat) : string :=
  match n with
  | O => EmptyString
  | S k => String "0" (zeros k)
  end.

Definition zfill (width : nat) (s : string) : string :=
  let n := String.length s in
  if (width <=? n)%nat then s
  else
    match s with
    | String c rest =>
        if (Ascii.eqb c "+" || Ascii.eqb c "-")%bool
        then String c (zeros (width - n) ++ rest)
        else zeros (width - n) ++ s
    | EmptyString => zeros (width - n)
    end.

(** ** [generate_totp]

    The body of [generate_totp] with the clock reading [int(time.time())]
    passed in as [now].  [//] is Python's floor division. *)

Definition floordiv (a b : Z) : res Z :=
  if b =? 0 then Raise ZeroDivisionError else Ok (a / b).

Definition last_byte (h : bytes) : res Z :=
  match rev h with
  | b :: _ => Ok b
  | [] => Raise IndexError
  end.

Definition slice (lo hi : Z) (h : bytes) : bytes :=
  firstn (Z.to_nat (hi - lo)) (skipn (Z.to_nat lo) h).

Definition generate_totp_at (now : Z) (secret_b32 : string) (period : Z) : res string :=
  do key <- Base32.b32decode secret_b32;
  do counter <- floordiv now period;
  do msg <- pack_Q counter;
  let h := hmac_sha1 key msg in
  do last <- last_byte h;
  let offset := Z.land last 0x0F in
  do word <- unpack_I (slice offset (offset + 4) h);
  let code := (Z.land word 0x7FFFFFFF) mod 1000000 in
  Ok (zfill 6 (str_int code)).

(** ** Python values as [json.loads] builds them *)

#[local] Set Warnings "-register-all".

Inductive json : Type :=
| JNull
| JBool (b : bool)
| JInt (n : Z)
| JFloat (f : PrimFloat.float)
| JStr (s : string)
| JList (l : list json)
| JDict (d : list (string * json)).

(** A dict is an association list read from the front. *)
Fixpoint lookup (k : string) (d : list (string * json)) : option json :=
  match d with
  | [] => None
  | (k', v) :: d' => if String.eqb k k' then Some v else lookup k d'
  end.

(** [o.get(k, default)]: only a dict has the method. *)
Definition get (o : json) (k : string) (default : json) : res json :=
  match o with
  | JDict d =>
      match lookup k d with
      | Some v => Ok v
      | None => Ok default
      end
  | _ => Raise AttributeError
  end.

(** [o[k]] with a string key. *)
Definition getitem (o : json) (k : string) : res json :=
  match o with
  | JDict d =>
      match lookup k d with
      | Some v => Ok v
      | None => Raise (KeyError k)
      end
  | _ => Raise TypeError
  end.

(** [v[:n]]. *)
Definition slice_to (n : nat) (v : json) : res json :=
  match v with
  | JStr s => Ok (JStr (substring 0 n s))
  | JList l => Ok (JList (firstn n l))
  | _ => Raise TypeError
  end.

(** [bool(v)]. *)
Definition truthy (v : json) : bool :=
  match v with
  | JNull => false
  | JBool b => b
  | JInt n => negb (n =? 0)
  | JFloat f => negb (PrimFloat.eqb f PrimFloat.zero)
  | JStr EmptyString => false
  | JStr _ => true
  | JList [] => false
  | JList _ => true
  | JDict [] => false
  | JDict _ => true
  end.

(** [v == s] for a string literal [s]. *)
Definition eq_str (v : json) (s : string) : bool :=
  match v with
  | JStr x => String.eqb x s
  | _ => false
  end.

(** ** Strings *)

Definition nl : string := String (ascii_of_nat 10) EmptyString.

Fixpoint repeat_string (s : string) (n : nat) : string :=
  match n with
  | O => EmptyString
  | S k => (s ++ repeat_string s k)%string
  end.

(** [p in s]. *)
Fixpoint contains (p s : string) : bool :=
  String.prefix p s ||
  match s with
  | EmptyString => false
  | String _ s' => contains p s'
  end.

Definition is_space (c : ascii) : bool :=
  let n := nat_of_ascii c in
  ((9 <=? n) && (n <=? 13) || (28 <=? n) && (n <=? 32))%nat.

Fixpoint drop_spaces (s : list ascii) : list ascii :=
  match s with
  | c :: s' => if is_space c then drop_spaces s' else s
  | [] => []
  end.

(** [s.strip()]. *)
Definition strip (s : string) : string :=
  string_of_list_ascii
    (rev (drop_spaces (rev (drop_spaces (list_ascii_of_string s))))).

Fixpoint split_aux (cur : list ascii) (s : list ascii) : list string :=
  match s with
  | [] => [string_of_list_ascii (rev cur)]
  | c :: s' =>
      if Ascii.eqb c (ascii_of_nat 10)
      then string_of_list_ascii (rev cur) :: split_aux [] s'
      else split_aux (c :: cur) s'
  end.

(** [s.split("\n")]. *)
Definition split_lines (s : string) : list string :=
  split_aux [] (list_ascii_of_string s).

Definition lower_char (c : ascii) : ascii :=
  let n := nat_of_ascii c in
  if ((65 <=? n) && (n <=? 90))%nat then ascii_of_nat (n + 32) else c.

(** [s.lower()]. *)
Fixpoint lower (s : string) : string :=
  match s with
  | EmptyString => EmptyString
  | String c s' => String (lower_char c) (lower s')
  end.

(** [s.replace(' ', '')]. *)
Fixpoint remove_spaces (s : string) : string :=
  match s with
  | EmptyString => EmptyString
  | String c s' => if Ascii.eqb c " " then remove_spaces s' else String c (remove_spaces s')
  end.

Fixpoint spaces (n : nat) : string :=
  match n with
  | O => EmptyString
  | S k => String " " (spaces k)
  end.

(** The format [{z:3d}]: right-aligned in a field of width three. *)
Definition fmt_3d (z : Z) : string :=
  let s := str_int z in
  (spaces (3 - String.length s) ++ s)%string.

(** ** [bytes.decode()]: strict UTF-8 *)

Definition in_range (lo hi : N) (c : ascii) : bool :=
  ((lo <=? N_of_ascii c) && (N_of_ascii c <=? hi))%N.

Definition continuation (c : ascii) : bool := in_range 128 191 c.

(** The first two bytes of a three-byte character: no overlong form
    ([E0] needs [A0..BF]) and no surrogate ([ED] needs [80..9F]). *)
Definition lead3 (a b : ascii) : bool :=
  in_range 224 224 a && in_range 160 191 b
  || in_range 225 236 a && continuation b
  || in_range 237 237 a && in_range 128 159 b
  || in_range 238 239 a && continuation b.

(** The first two bytes of a four-byte character: no overlong form
    ([F0] needs [90..BF]) and nothing above U+10FFFF ([F4] needs [80..8F]). *)
Definition lead4 (a b : ascii) : bool :=
  in_range 240 240 a && in_range 144 191 b
  || in_range 241 243 a && continuation b
  || in_range 244 244 a && in_range 128 143 b.

Definition more (c : string) (rest : option (list string)) : option (list string) :=
  match rest with
  | Some cs => Some (c :: cs)
  | None => None
  end.

(** The characters of a UTF-8 byte string, each kept as its bytes; [None]
    when the bytes are not valid UTF-8. *)
Fixpoint utf8_chars (s : string) : option (list string) :=
  match s with
  | EmptyString => Some []
  | String a s1 =>
      if in_range 0 127 a then more (String a EmptyString) (utf8_chars s1)
      else
        match s1 with
        | EmptyString => None
        | String b s2 =>
            if in_range 194 223 a then
              if continuation b
              then more (String a (String b EmptyString)) (utf8_chars s2)
              else None
            else
              match s2 with
              | EmptyString => None
              | String c s3 =>
                  if in_range 224 239 a then
                    if lead3 a b && continuation c
                    then more (String a (String b (String c EmptyString))) (utf8_chars s3)
                    else None
                  else
                    match s3 with
                    | EmptyString => None
                    | String d s4 =>
                        if lead4 a b && continuation c && continuation d
                        then more (String a (String b (String c (String d EmptyString))))
                                  (utf8_chars s4)
                        else None
                    end
              end
        end
  end.

(** [raw.decode()]. *)
Definition decode (raw : string) : res (list string) :=
  match utf8_chars raw with
  | Some chars => Ok chars
  | None => Raise UnicodeDecodeError
  end.

(** The bytes of a text. *)
Fixpoint join (chars : list string) : string :=
  match chars with
  | [] => EmptyString
  | c :: rest => (c ++ join rest)%string
  end.

(** ** The console, the clock and the network *)

(** A printed line or a URL keeps the pieces of its f-string: [Val v] stands
    for [str(v)] of a JSON value and [Exc e] for [str(e)] of an exception. *)
Inductive frag : Type :=
| Lit (s : string)
| Val (v : json)
| Exc (e : exn).

Definition text := list frag.

(** What one request of [api_call] meets: a 2xx answer whose body
    [json.loads] parsed, or an exception ([HTTPError code body] for any
    other status, [body] being the bytes [e.read()] returns, a transport or
    decoding error otherwise). *)
Inductive api_outcome : Type :=
| Replied (v : json)
| Failed (e : exn).

(** What the liveness probe meets: the final status of the answer, or a
    transport failure (connection refused, timeout, DNS failure, a URL that
    cannot be requested), raised as [URLError reason]. *)
Inductive probe_outcome : Type :=
| Answered (status : Z)
| Unreachable (reason : string).

(** What [subprocess.check_output] gives for the docker process list: its
    standard output, or a failure (command missing, non-zero exit, timeout),
    raised as [OtherException what]. *)
Inductive docker_outcome : Type :=
| Listing (output : string)
| Unavailable (what : string).

Inductive event : Type :=
| Printed (line : text)
| Slept (secs : Z)
| Requested (method : string) (url : text) (body : option json) (bearer : option json)
| DockerPs
| Probed (url : string).

(** [backend n] is the outcome of the [n]-th request; [sent] counts the
    requests made so far; [trace] holds the events, latest first. *)
Record world : Type := mkWorld {
  clock : Z;
  backend : nat -> api_outcome;
  docker : docker_outcome;
  probe : probe_outcome;
  sent : nat;
  trace : list event
}.

Definition record (e : event) (w : world) : world :=
  mkWorld (clock w) (backend w) (docker w) (probe w) (sent w) (e :: trace w).

(** The world a fresh process starts in. *)
Definition boot (now : Z) (b : nat -> api_outcome) (d : docker_outcome) (p : probe_outcome) : world :=
  mkWorld now b d p 0 [].

(** ** The monad: a state over [world] with exceptions *)

Definition M (A : Type) : Type := world -> res A * world.

Definition ret {A} (a : A) : M A := fun w => (Ok a, w).

Definition raise {A} (e : exn) : M A := fun w => (Raise e, w).

Definition lift {A} (r : res A) : M A := fun w => (r, w).

Definition bind {A B} (m : M A) (k : A -> M B) : M B :=
  fun w =>
    match m w with
    | (Ok a, w') => k a w'
    | (Raise e, w') => (Raise e, w')
    end.

Notation "x <- m ;; k" := (bind m (fun x => k))
  (at level 61, m at next level, right associativity).
Notation "m ;; k" := (bind m (fun _ => k))
  (at level 61, right associativity).

(** [try: body / except Exception as e: handler e]. *)
Definition try_except {A} (body : M A) (handler : exn -> M A) : M A :=
  fun w =>
    match body w with
    | (Raise e, w') => if is_Exception e then handler e w' else (Raise e, w')
    | r => r
    end.

(** [try: body / except urllib.error.HTTPError as e: handler e.code e.read()],
    the handler getting the bytes of the body. *)
Definition try_except_HTTPError {A} (body : M A) (handler : Z -> string -> M A) : M A :=
  fun w =>
    match body w with
    | (Raise (HTTPError code b), w') => handler code b w'
    | r => r
    end.

Definition print (line : text) : M unit :=
  fun w => (Ok tt, record (Printed line) w).

(** [time.sleep(secs)]. *)
Definition sleep (secs : Z) : M unit :=
  fun w =>
    (Ok tt, mkWorld (clock w + secs) (backend w) (docker w) (probe w) (sent w)
                    (Slept secs :: trace w)).

(** [int(time.time())]. *)
Definition time_time : M Z := fun w => (Ok (clock w), w).

(** [sys.exit(code)]. *)
Definition sys_exit {A} (code : Z) : M A := raise (SystemExit code).

(** [for i in range(n)] with a loop variable carried along: the body answers
    [inl r] to return [r] from the enclosing function, [inr a] to go on. *)
Fixpoint for_range {A R} (n : nat) (i : Z) (body : Z -> A -> M (R + A)) (a : A) : M (R + A) :=
  match n with
  | O => ret (inr a)
  | S k =>
      r <- body i a ;;
      match r with
      | inl x => ret (inl x)
      | inr a' => for_range k (i + 1) body a'
      end
  end.

(** ** The driver *)

Definition ADMIN_EMAIL : string := "admin@aegis.ai".
Definition ADMIN_PASSWORD : string := "Admin12345!@".
Definition MFA_SECRET_B32 : string := "JBSWY3DPEHPK3PXP".
Definition DEFAULT_BASE_URL : string := "http://localhost:3000".

Definition generate_totp (secret_b32 : string) (period : Z) : M string :=
  now <- time_time ;;
  lift (generate_totp_at now secret_b32 period).

(** [urllib.request.urlopen(req, timeout=30)] followed by
    [json.loads(resp.read().decode())]. *)
Definition urlopen_json (method : string) (url : text) (body bearer : option json) : M json :=
  fun w =>
    let w' := mkWorld (clock w) (backend w) (docker w) (probe w) (S (sent w))
                      (Requested method url body bearer :: trace w) in
    match backend w (sent w) with
    | Replied v => (Ok v, w')
    | Failed e => (Raise e, w')
    end.

(** [x if x else None]: the request body and the bearer token are sent for
    a truthy value only. *)
Definition present (v : json) : option json :=
  if truthy v then Some v else None.

Definition api_call (url : text) (method : string) (data token : json) : M json :=
  let bearer := present token in
  let body := present data in
  try_except_HTTPError
    (urlopen_json method url body bearer)
    (fun code raw =>
       error_body <- lift (decode raw) ;;
       print [Lit "  HTTP "; Lit (str_int code); Lit ": "; Lit (join (firstn 300 error_body))] ;;
       raise (HTTPError code raw)).

Definition authenticate (base_url : string) : M json :=
  print [Lit "1. Authenticating as platform admin..."] ;;
  api_call [Lit base_url; Lit "/api/auth/login"] "POST"
    (JDict [("email", JStr ADMIN_EMAIL); ("password", JStr ADMIN_PASSWORD)]) JNull ;;
  totp <- generate_totp MFA_SECRET_B32 30 ;;
  result <- api_call [Lit base_url; Lit "/api/auth/mfa/verify"] "POST"
    (JDict [("email", JStr ADMIN_EMAIL); ("totpCode", JStr totp)]) JNull ;;
  token <- lift (getitem result "accessToken") ;;
  shown <- lift (slice_to 20 token) ;;
  print [Lit "   Authenticated (token: "; Val shown; Lit "...)"] ;;
  ret token.

Definition create_tenant (base_url : string) (token : json) (name : string) : M json :=
  print [Lit "2. Creating tenant '"; Lit name; Lit "'..."] ;;
  result <- api_call [Lit base_url; Lit "/api/admin/tenants"] "POST"
    (JDict [("companyName", JStr name);
            ("adminEmail", JStr ("admin@" ++ remove_spaces (lower name) ++ ".test")%string);
            ("plan", JStr "enterprise");
            ("resourceLimits",
             JDict [("cpuCores", JInt 2); ("memoryMb", JInt 1024); ("diskGb", JInt 10)])])
    token ;;
  tid <- lift (getitem result "id") ;;
  print [Lit "   Created tenant: "; Val tid] ;;
  status <- lift (get result "status" (JStr "?")) ;;
  print [Lit "   Status: "; Val status] ;;
  ret tid.

Definition tenant_url (base_url : string) (tenant_id : json) : text :=
  [Lit base_url; Lit "/api/admin/tenants/"; Val tenant_id].

Definition succeeded_line : text := [Lit "   *** PROVISIONING SUCCEEDED ***"].

Definition failed_line (reason : json) : text :=
  [Lit "   *** PROVISIONING FAILED: "; Val reason; Lit " ***"].

Definition timeout_line (timeout_secs : Z) : text :=
  [Lit "   *** TIMEOUT after "; Lit (str_int timeout_secs); Lit "s ***"].

(** One turn of the loop of [poll_provisioning]. *)
Definition poll_once (base_url : string) (token tenant_id : json) (interval : Z)
    (i : Z) (_ : option json) : M (json + option json) :=
  sleep interval ;;
  t <- api_call (tenant_url base_url tenant_id) "GET" JNull token ;;
  status <- lift (get t "status" (JStr "?")) ;;
  (if eq_str status "provisioning" then
     step <- lift (get t "provisioningStep" (JStr "?")) ;;
     progress <- lift (get t "provisioningProgress" (JInt 0)) ;;
     msg <- lift (get t "provisioningMessage" (JStr EmptyString)) ;;
     print [Lit "   ["; Lit (fmt_3d ((i + 1) * interval)); Lit "s] step="; Val step;
            Lit " progress="; Val progress; Lit "% | "; Val msg]
   else
     print [Lit "   ["; Lit (fmt_3d ((i + 1) * interval)); Lit "s] status="; Val status]) ;;
  if eq_str status "active" then
    print succeeded_line ;;
    ret (inl t)
  else if eq_str status "failed" then
    reason <- lift (get t "provisioningFailedReason" (JStr "unknown")) ;;
    print (failed_line reason) ;;
    ret (inl t)
  else ret (inr (Some t)).

(** The local [t] is unbound until the loop body has run once. *)
Definition poll_provisioning (base_url : string) (token tenant_id : json)
    (timeout_secs : Z) : M json :=
  print [Lit "3. Polling provisioning status..."] ;;
  let interval := 10 in
  let iterations := timeout_secs / interval in
  r <- for_range (Z.to_nat iterations) 0 (poll_once base_url token tenant_id interval) None ;;
  match r with
  | inl t => ret t
  | inr last =>
      print (timeout_line timeout_secs) ;;
      match last with
      | Some t => ret t
      | None => raise (UnboundLocalError "t")
      end
  end.

(** [subprocess.check_output(["docker", "ps", ...], text=True, timeout=5)]. *)
Definition docker_ps : M string :=
  fun w =>
    match docker w with
    | Listing output => (Ok output, record DockerPs w)
    | Unavailable what => (Raise (OtherException what), record DockerPs w)
    end.

(** [needle in line] where [line] is a string. *)
Definition py_in (needle : json) (line : string) : res bool :=
  match needle with
  | JStr p => Ok (contains p line)
  | _ => Raise TypeError
  end.

(** The [for line in ...: if prefix in line: ... break] search. *)
Fixpoint first_match (needle : json) (lines : list string) : res (option string) :=
  match lines with
  | [] => Ok None
  | line :: rest =>
      do b <- py_in needle line;
      if b then Ok (Some line) else first_match needle rest
  end.

(** [container_url + "/"]. *)
Definition add_slash (v : json) : res string :=
  match v with
  | JStr s => Ok (s ++ "/")%string
  | _ => Raise TypeError
  end.

(** [urllib.request.urlopen(Request(url, method="GET"), timeout=5)]: a
    response comes back for a 2xx status only, any other one is raised as
    an [HTTPError]. *)
Definition urlopen_probe (url : string) : M Z :=
  fun w =>
    let w' := record (Probed url) w in
    match probe w with
    | Answered status =>
        if (200 <=? status) && (status <? 300) then (Ok status, w')
        else (Raise (HTTPError status EmptyString), w')
    | Unreachable reason => (Raise (URLError reason), w')
    end.

Definition docker_check (tenant : json) : M unit :=
  try_except
    (output <- docker_ps ;;
     tid <- lift (getitem tenant "id") ;;
     tenant_id_prefix <- lift (slice_to 8 tid) ;;
     found <- lift (first_match tenant_id_prefix (split_lines (strip output))) ;;
     match found with
     | Some line => print [Lit "   Docker: "; Lit line]
     | None => print [Lit "   WARNING: Container not found in docker ps"]
     end)
    (fun e => print [Lit "   WARNING: Could not check docker: "; Exc e]).

(** The HTTP check: [Some b] is a [return b] taken inside the [try], [None]
    falls through to the final [return True]. *)
Definition http_check (container_url : json) : M (option bool) :=
  try_except
    (url <- lift (add_slash container_url) ;;
     try_except_HTTPError
       (status <- urlopen_probe url ;;
        print [Lit "   HTTP: "; Lit (str_int status); Lit " (OK)"] ;;
        ret None)
       (fun code _ =>
          if (code =? 404) || (code =? 426) then
            print [Lit "   HTTP: "; Lit (str_int code); Lit " (expected for WebSocket gateway)"] ;;
            ret (Some true)
          else
            print [Lit "   HTTP: "; Lit (str_int code); Lit " (unexpected)"] ;;
            ret (Some false)))
    (fun e =>
       print [Lit "   ERROR: Container not responding: "; Exc e] ;;
       ret (Some false)).

Definition verify_container (tenant : json) : M bool :=
  print [Lit "4. Verifying container..."] ;;
  config <- lift (get tenant "config" (JDict [])) ;;
  container_url <- lift (get config "containerEndpoint" (JStr EmptyString)) ;;
  if negb (truthy container_url) then
    print [Lit "   ERROR: No container endpoint in tenant config"] ;;
    ret false
  else
    print [Lit "   Container URL: "; Val container_url] ;;
    docker_check tenant ;;
    r <- http_check container_url ;;
    match r with
    | Some b => ret b
    | None => ret true
    end.

Definition verify_health_monitor (base_url : string) (token tenant_id : json) : M bool :=
  print [Lit "5. Verifying health monitor status..."] ;;
  sleep 35 ;;
  t <- api_call (tenant_url base_url tenant_id) "GET" JNull token ;;
  health <- lift (get t "containerHealth" (JDict [])) ;;
  h_status <- lift (match health with
                    | JDict _ => get health "status" (JStr "?")
                    | _ => Ok (JStr "?")
                    end) ;;
  print [Lit "   Health status: "; Val h_status] ;;
  if eq_str h_status "healthy" then
    print [Lit "   *** HEALTH MONITOR OK ***"] ;;
    ret true
  else
    print [Lit "   WARNING: Health status is "; Val h_status] ;;
    ret false.

(** The parsed command line. *)
Record args : Type := mkArgs {
  base_url : string;
  tenant_name : string;
  skip_health_wait : bool
}.

Definition rule : string := repeat_string "=" 60.

Definition provisioning_verdict : text :=
  [Lit nl; Lit "FAILED: Provisioning did not complete successfully"].

Definition container_verdict : text :=
  [Lit nl; Lit "FAILED: Container verification failed"].

Definition health_warning : text :=
  [Lit nl; Lit "WARNING: Health monitor verification failed (non-fatal)"].

(** The body of the [try] block of [main] from the check of the polled
    status to its end. *)
Definition conclude (a : args) (token tenant_id tenant : json) : M unit :=
  status <- lift (get tenant "status" JNull) ;;
  (if negb (eq_str status "active") then
     print provisioning_verdict ;;
     sys_exit 1
   else ret tt) ;;
  container_ok <- verify_container tenant ;;
  (if negb container_ok then
     print container_verdict ;;
     sys_exit 1
   else ret tt) ;;
  (if negb (skip_health_wait a) then
     health_ok <- verify_health_monitor (base_url a) token tenant_id ;;
     if negb health_ok then print health_warning else ret tt
   else ret tt) ;;
  print [Lit nl; Lit rule] ;;
  print [Lit "ALL CHECKS PASSED"] ;;
  print [Lit "Tenant ID:     "; Val tenant_id] ;;
  config <- lift (get tenant "config" (JDict [])) ;;
  endpoint <- lift (get config "containerEndpoint" (JStr "?")) ;;
  print [Lit "Container URL: "; Val endpoint] ;;
  print [Lit rule; Lit nl].

Definition fatal_line (e : exn) : text := [Lit nl; Lit "FATAL ERROR: "; Exc e].

(** The handler of [main]'s [except Exception as e]. *)
Definition fatal (e : exn) : M unit :=
  print (fatal_line e) ;;
  sys_exit 1.

(** [main] from its first [print] on, [a] being what [parser.parse_args()]
    returned.  The parser itself is not embedded: what [argparse] does with
    a command line it refuses (usage on standard error, exit status 2) or
    with [--help] (help text, exit status 0) happens before this code. *)
Definition main (a : args) : M unit :=
  print [Lit nl; Lit rule] ;;
  print [Lit "E2E Provisioning Test"] ;;
  print [Lit "Base URL: "; Lit (base_url a)] ;;
  print [Lit "Tenant:   "; Lit (tenant_name a)] ;;
  print [Lit rule; Lit nl] ;;
  try_except
    (token <- authenticate (base_url a) ;;
     tenant_id <- create_tenant (base_url a) token (tenant_name a) ;;
     tenant <- poll_provisioning (base_url a) token tenant_id 240 ;;
     conclude a token tenant_id tenant)
    fatal.

(** The exit status of the process: 0 when [main] returns, the code of a
    [SystemExit], 1 for an exception that escapes. *)
Definition exit_code (r : res unit) : Z :=
  match r with
  | Ok _ => 0
  | Raise (SystemExit code) => code
  | Raise _ => 1
  end.

(** Running the script: the exit status and the events in the order they
    happened. *)
Definition run (a : args) (w : world) : Z * list event :=
  let '(r, w') := main a w in
  (exit_code r, rev (trace w')).

(** ** Vocabulary of the statements *)

(** A tenant record is a JSON object. *)
Definition is_record (t : json) : bool :=
  match t with
  | JDict _ => true
  | _ => false
  end.

(** [t.get("status", "?")] of a record. *)
Definition status_of (t : json) : json :=
  match get t "status" (JStr "?") with
  | Ok s => s
  | Raise _ => JNull
  end.

Definition terminal (t : json) : bool :=
  eq_str (status_of t) "active" || eq_str (status_of t) "failed".

(** The exception that leaves [api_call] when the request raises [e]: an
    [HTTPError] whose body is not valid UTF-8 is replaced by the
    [UnicodeDecodeError] of the handler, anything else is [e] itself. *)
Definition api_error (e : exn) : exn :=
  match e with
  | HTTPError code raw =>
      match utf8_chars raw with
      | Some _ => e
      | None => UnicodeDecodeError
      end
  | _ => e
  end.

(** A status response that leaves the poller waiting. *)
Definition pending (o : api_outcome) : Prop :=
  exists t, o = Replied t /\ is_record t = true /\ terminal t = false.

Definition is_request (e : event) : bool :=
  match e with
  | Requested _ _ _ _ => true
  | _ => false
  end.

(** The number of HTTP requests [api_call] made in a trace. *)
Definition fetches (tr : list event) : nat := List.length (filter is_request tr).

(** The three closing banners of the poller. *)
Inductive banner : Type :=
| Succeeded
| BackendFailed (reason : json)
| TimedOut (secs : string).

Definition banner_of (e : event) : option banner :=
  match e with
  | Printed [Lit s] =>
      if String.eqb s "   *** PROVISIONING SUCCEEDED ***" then Some Succeeded else None
  | Printed [Lit p; Val r; Lit q] =>
      if String.eqb p "   *** PROVISIONING FAILED: " && String.eqb q " ***"
      then Some (BackendFailed r) else None
  | Printed [Lit p; Lit n; Lit q] =>
      if String.eqb p "   *** TIMEOUT after " && String.eqb q "s ***"
      then Some (TimedOut n) else None
  | _ => None
  end.

Fixpoint banners (out : list event) : list banner :=
  match out with
  | [] => []
  | e :: out' =>
      match banner_of e with
      | Some b => b :: banners out'
      | None => banners out'
      end
  end.

(** The banner the poller prints when it returns the terminal record [t]. *)
Definition closing_banner (t : json) : text :=
  if eq_str (status_of t) "active" then succeeded_line
  else failed_line (match get t "provisioningFailedReason" (JStr "unknown") with
                    | Ok r => r
                    | Raise _ => JNull
                    end).

Definition touches_container (e : event) : bool :=
  match e with
  | DockerPs | Probed _ => true
  | _ => false
  end.

(** An event that is neither a closing banner nor a container check. *)
Definition quiet (e : event) : bool :=
  match banner_of e with
  | Some _ => false
  | None => negb (touches_container e)
  end.

(** ** RFC 4226 / RFC 6238, in the words of the specification *)

(** The counter as an 8-byte big-endian integer. *)
Definition counter_bytes (c : Z) : bytes :=
  [c / 2 ^ 56 mod 256; c / 2 ^ 48 mod 256; c / 2 ^ 40 mod 256; c / 2 ^ 32 mod 256;
   c / 2 ^ 24 mod 256; c / 2 ^ 16 mod 256; c / 2 ^ 8 mod 256; c mod 256].

(** Dynamic truncation: the low nibble of the last digest byte selects a
    4-byte big-endian window, whose bit 31 is cleared. *)
Definition dynamic_truncation (hs : bytes) : Z :=
  let offset := Z.to_nat (nth 19 hs 0 mod 16) in
  let window := nth offset hs 0 * 2 ^ 24 + nth (offset + 1) hs 0 * 2 ^ 16
                + nth (offset + 2) hs 0 * 2 ^ 8 + nth (offset + 3) hs 0 in
  Z.clearbit window 31.

(** Exactly six decimal digits, zero-padded. *)
Definition six_digits (v : Z) : string :=
  String (digit_char (v / 100000 mod 10))
 (String (digit_char (v / 10000 mod 10))
 (String (digit_char (v / 1000 mod 10))
 (String (digit_char (v / 100 mod 10))
 (String (digit_char (v / 10 mod 10))
 (String (digit_char (v mod 10)) EmptyString))))).

Definition totp_reference (key : bytes) (time period : Z) : string :=
  six_digits (dynamic_truncation (hmac_sha1 key (counter_bytes (time / period))) mod 1000000).

(** ** Vocabulary of the statements about the container and the whole run *)

(** An event that is not a closing banner. *)
Definition plain (e : event) : bool :=
  match banner_of e with
  | Some _ => false
  | None => true
  end.

(** The same world with another docker outcome. *)
Definition set_docker (d : docker_outcome) (w : world) : world :=
  mkWorld (clock w) (backend w) d (probe w) (sent w) (trace w).

Definition is_warning (line : text) : bool :=
  match line with
  | Lit s :: _ => String.prefix "   WARNING: " s
  | _ => false
  end.

(** The response-code policy of the liveness probe. *)
Definition probe_passes (p : probe_outcome) : bool :=
  match p with
  | Answered s => (200 <=? s) && (s <? 300) || (s =? 404) || (s =? 426)
  | Unreachable _ => false
  end.

(** [config.containerEndpoint] of a record, [""] when it is missing. *)
Definition endpoint_of (tenant : json) : res json :=
  do config <- get tenant "config" (JDict []);
  get config "containerEndpoint" (JStr EmptyString).

(** [containerHealth.status] as [verify_health_monitor] reads it. *)
Definition health_status (t : json) : json :=
  match get t "containerHealth" (JDict []) with
  | Ok (JDict h) =>
      match lookup "status" h with
      | Some s => s
      | None => JStr "?"
      end
  | _ => JStr "?"
  end.

Definition healthy (t : json) : bool := eq_str (health_status t) "healthy".

(** The password step and the MFA step both succeed, the latter handing out
    [token], for a process started at [now] against the scripted backend [b]. *)
Definition logs_in (now : Z) (b : nat -> api_outcome) (token : json) : Prop :=
  0 <= now < 30 * 2 ^ 64 /\
  (exists r0, b 0%nat = Replied r0) /\
  (exists r1 shown,
      b 1%nat = Replied r1 /\ getitem r1 "accessToken" = Ok token /\
      slice_to 20 token = Ok shown).

(** Tenant creation succeeds and names the tenant [tid]. *)
Definition creates_tenant (b : nat -> api_outcome) (tid : json) : Prop :=
  exists r2, b 2%nat = Replied r2 /\ getitem r2 "id" = Ok tid.

(** The first [k] polls leave the poller waiting and poll [k], within the
    budget of 24, returns the terminal record [tenant]. *)
Definition polls_until (b : nat -> api_outcome) (k : nat) (tenant : json) : Prop :=
  (k < 24)%nat /\
  (forall j, (j < k)%nat -> pending (b (3 + j)%nat)) /\
  b (3 + k)%nat = Replied tenant /\ is_record tenant = true /\ terminal tenant = true.

(** Every poll within the budget of 24 leaves the poller waiting. *)
Definition never_finishes (b : nat -> api_outcome) : Prop :=
  forall j, (j < 24)%nat -> pending (b (3 + j)%nat).

(** A backend that answers the first requests from a list and the later
    ones from [rest]. *)
Definition scripted (l : list api_outcome) (rest : nat -> api_outcome) : nat -> api_outcome :=
  fun n =>
    match nth_error l n with
    | Some o => o
    | None => rest (n - List.length l)%nat
    end.


(** What [verify_container] answers, as a function of the record and of
    what the probe meets. *)
Definition liveness_result (tenant : json) (p : probe_outcome) : res bool :=
  do url <- endpoint_of tenant;
  if negb (truthy url) then Ok false
  else
    match url with
    | JStr _ => Ok (probe_passes p)
    | _ => Ok false
    end.


(** A record without a container endpoint: [config] is missing, [config]
    has no [containerEndpoint], or the endpoint is the empty string. *)
Definition no_endpoint (t : json) : Prop :=
  exists d, t = JDict d /\
    (lookup "config" d = None \/
     (exists c, lookup "config" d = Some (JDict c) /\ lookup "containerEndpoint" c = None) \/
     (exists c, lookup "config" d = Some (JDict c) /\
                lookup "containerEndpoint" c = Some (JStr EmptyString))).

(** The closing report of a passing run. *)
Definition success_report (tenant_id endpoint : json) : list event :=
  [Printed [Lit nl; Lit rule];
   Printed [Lit "ALL CHECKS PASSED"];
   Printed [Lit "Tenant ID:     "; Val tenant_id];
   Printed [Lit "Container URL: "; Val endpoint];
   Printed [Lit rule; Lit nl]].

(** ** Concrete data for the examples *)

Definition refusing : nat -> api_outcome :=
  fun _ => Failed (URLError "connection refused").

(** A process started at [now] with nothing to talk to. *)
Definition world_at (now : Z) : world :=
  boot now refusing (Unavailable "docker: command not found")
       (Unreachable "connection refused").

Definition RFC_SECRET_B32 : string := "GEZDGNBVGY3TQOJQGEZDGNBVGY3TQOJQ".

Definition demo_args : args := mkArgs DEFAULT_BASE_URL "E2E Test 59" false.

Definition demo_token : json := JStr "eyJhbGciOiJIUzI1NiJ9.e30.c2ln".

Definition demo_id : json := JStr "0f3c9a7e-5b1d-4e2a-9c6f-7d8e9f0a1b2c".

Definition demo_created : json :=
  JDict [("id", demo_id); ("status", JStr "provisioning")].

Definition demo_provisioning : json :=
  JDict [("id", demo_id); ("status", JStr "provisioning");
         ("provisioningStep", JStr "starting_container"); ("provisioningProgress", JInt 40)].

Definition demo_active : json :=
  JDict [("id", demo_id); ("status", JStr "active");
         ("config", JDict [("containerEndpoint", JStr "http://localhost:18789")])].

Definition demo_active_bare : json :=
  JDict [("id", demo_id); ("status", JStr "active"); ("config", JDict [])].

Definition demo_failed : json :=
  JDict [("id", demo_id); ("status", JStr "failed");
         ("provisioningFailedReason", JStr "image pull failed")].

Definition demo_healthy : json :=
  JDict [("id", demo_id); ("status", JStr "active");
         ("containerHealth", JDict [("status", JStr "healthy")])].


(** Login, MFA and creation succeed, then the given polls follow. *)
Definition demo_backend (polls : list api_outcome) (rest : nat -> api_outcome)
  : nat -> api_outcome :=
  scripted ([Replied (JDict []); Replied (JDict [("accessToken", demo_token)]);
             Replied demo_created] ++ polls) rest.

Definition stuck : nat -> api_outcome := fun _ => Replied demo_provisioning.

Definition demo_docker : docker_outcome :=
  Listing ("aegis-0f3c9a7e" ++ String (ascii_of_nat 9) "Up 2 minutes" ++ nl)%string.

(** ** Vocabulary of the further properties *)

(** Whatever the backend raises is an [Exception]. *)
Definition civil (w : world) : Prop :=
  forall n e, backend w n = Failed e -> is_Exception e = true.

(** A result that [except Exception] would catch if it is raised. *)
Definition proper {A} (r : res A) : Prop :=
  match r with
  | Ok _ => True
  | Raise e => is_Exception e = true
  end.

(** A computation that leaves the oracles alone, makes at most [N] requests
    and sleeps at most [T] seconds, and whose outcome against a civil
    backend satisfies [Q]. *)
Definition within {A} (N T : nat) (Q : res A -> world -> Prop) (m : M A) : Prop :=
  forall w r w',
    m w = (r, w') ->
    backend w' = backend w /\ docker w' = docker w /\ probe w' = probe w /\
    (sent w <= sent w' <= sent w + N)%nat /\
    clock w <= clock w' <= clock w + Z.of_nat T /\
    (civil w -> Q r w').

Definition tame {A} (r : res A) (_ : world) : Prop := proper r.

(** The three lines a failing run can end with. *)
Definition failure_line (line : text) : Prop :=
  line = provisioning_verdict \/ line = container_verdict \/
  exists e, is_Exception e = true /\ line = fatal_line e.

(** How a step of [main]'s [try] block can fail: with an [Exception], or
    with [sys.exit(1)] right after a verdict. *)
Definition stopped {A} (r : res A) (w : world) : Prop :=
  match r with
  | Ok _ => True
  | Raise e =>
      is_Exception e = true \/
      (e = SystemExit 1 /\
       exists line rest, trace w = Printed line :: rest /\ failure_line line)
  end.

(** How the [try] block of [main] can end: as a step can fail, or normally
    right after the closing report. *)
Definition concluded (r : res unit) (w : world) : Prop :=
  stopped r w /\
  (forall u, r = Ok u ->
     exists tid endpoint rest, trace w = rev (success_report tid endpoint) ++ rest).

(** How [main] can end. *)
Definition reported (r : res unit) (w : world) : Prop :=
  (r = Ok tt /\
   exists tid endpoint rest, trace w = rev (success_report tid endpoint) ++ rest) \/
  (r = Raise (SystemExit 1) /\
   exists line rest, trace w = Printed line :: rest /\ failure_line line).

(** What the poller may do: print, sleep one interval, and read the tenant. *)
Definition poll_event (base : string) (token tid : json) (e : event) : Prop :=
  match e with
  | Printed _ => True
  | Slept secs => secs = 10
  | Requested method url body bearer =>
      method = "GET" /\ url = tenant_url base tid /\ body = None /\ bearer = present token
  | DockerPs | Probed _ => False
  end.

Definition is_digit (c : ascii) : bool :=
  let n := nat_of_ascii c in ((48 <=? n) && (n <=? 57))%nat.

Definition is_upper (c : ascii) : bool :=
  let n := nat_of_ascii c in ((65 <=? n) && (n <=? 90))%nat.

Fixpoint string_forallb (f : ascii -> bool) (s : string) : bool :=
  match s with
  | EmptyString => true
  | String c s' => f c && string_forallb f s'
  end.


(** The body of the tenant-creation request. *)
Definition tenant_request (name email : string) : json :=
  JDict [("companyName", JStr name);
         ("adminEmail", JStr email);
         ("plan", JStr "enterprise");
         ("resourceLimits",
          JDict [("cpuCores", JInt 2); ("memoryMb", JInt 1024); ("diskGb", JInt 10)])].


(** The byte of a character. *)
Definition byte_of (c : ascii) : Z := Z.of_N (N_of_ascii c).

(** * Checks of the model against published vectors *)

(** FIPS 180-4, SHA-1 of ["abc"]. *)
Example sha1_abc :
  Sha1.sha1 (bytes_of_string "abc") =
  [0xa9; 0x99; 0x3e; 0x36; 0x47; 0x06; 0x81; 0x6a; 0xba; 0x3e;
   0x25; 0x71; 0x78; 0x50; 0xc2; 0x6c; 0x9c; 0xd0; 0xd8; 0x9d].
Proof. vm_compute. reflexivity. Qed.

(** RFC 2202, HMAC-SHA1 test case 2: key ["Jefe"]. *)
Example hmac_sha1_rfc2202 :
  hmac_sha1 (bytes_of_string "Jefe") (bytes_of_string "what do ya want for nothing?") =
  [0xef; 0xfc; 0xdf; 0x6a; 0xe5; 0xeb; 0x2f; 0xa2; 0xd2; 0x74;
   0x16; 0xd5; 0xf1; 0x84; 0xdf; 0x9c; 0x25; 0x9a; 0x7c; 0x79].
Proof. vm_compute. reflexivity. Qed.

(** RFC 4648: ["MZXW6YTB"] is ["fooba"], ["MZXW6==="] is ["foo"]. *)
Example b32decode_rfc4648 :
  Base32.b32decode "mzxw6ytb" = Ok (bytes_of_string "fooba") /\
  Base32.b32decode "MZXW6===" = Ok (bytes_of_string "foo") /\
  Base32.b32decode "MZXW6" = Raise (BinasciiError "Incorrect padding") /\
  Base32.b32decode "MZXW6YT1" = Raise (BinasciiError "Non-base32 digit found").
Proof. vm_compute. repeat split. Qed.

(** RFC 6238, appendix B, SHA-1 rows, last six digits. *)
Example totp_rfc6238_vectors :
  map (fun t => generate_totp_at t RFC_SECRET_B32 30)
      [59; 1111111109; 1111111111; 1234567890; 2000000000; 20000000000]
  = [Ok "287082"; Ok "081804"; Ok "050471"; Ok "005924"; Ok "279037"; Ok "353130"].
Proof. vm_compute. reflexivity. Qed.

(** The scenario of a full success: three polls end "active", the probe
    answers 200, the monitor says "healthy".  Seven requests, exit code 0. *)
Example run_full_success :
  let '(code, out) :=
    run demo_args
      (boot 59 (demo_backend [Replied demo_provisioning; Replied demo_provisioning;
                              Replied demo_active; Replied demo_healthy] refusing)
         demo_docker (Answered 200)) in
  code = 0 /\ fetches out = 7%nat /\ banners out = [Succeeded] /\
  In (Printed [Lit "   Docker: ";
               Lit ("aegis-0f3c9a7e" ++ String (ascii_of_nat 9) "Up 2 minutes")]) out /\
  In (Printed [Lit "   *** HEALTH MONITOR OK ***"]) out /\
  In (Printed [Lit "   ["; Lit " 30"; Lit "s] status="; Val (JStr "active")]) out.
Proof.
  vm_compute.
  repeat split;
    repeat match goal with |- _ \/ _ => (left; reflexivity) || right end.
Qed.

(** The backend gives up at the second poll: exit code 1 after five
    requests. *)
Example run_backend_failed :
  let '(code, out) :=
    run demo_args
      (boot 59 (demo_backend [Replied demo_provisioning; Replied demo_failed] refusing)
         demo_docker (Answered 200)) in
  code = 1 /\ fetches out = 5%nat /\
  banners out = [BackendFailed (JStr "image pull failed")].
Proof. vm_compute. repeat split. Qed.

(** Login is refused with a 401: the error is printed by [api_call], then
    reported as fatal. *)
Example run_login_refused :
  run demo_args
    (boot 59 (scripted [Failed (HTTPError 401 "{}")] refusing) demo_docker (Answered 200))
  = (1, [Printed [Lit nl; Lit rule];
         Printed [Lit "E2E Provisioning Test"];
         Printed [Lit "Base URL: "; Lit DEFAULT_BASE_URL];
         Printed [Lit "Tenant:   "; Lit "E2E Test 59"];
         Printed [Lit rule; Lit nl];
         Printed [Lit "1. Authenticating as platform admin..."];
         Requested "POST" [Lit DEFAULT_BASE_URL; Lit "/api/auth/login"]
           (Some (JDict [("email", JStr ADMIN_EMAIL); ("password", JStr ADMIN_PASSWORD)]))
           None;
         Printed [Lit "  HTTP "; Lit "401"; Lit ": "; Lit "{}"];
         Printed (fatal_line (HTTPError 401 "{}"))]).
Proof. vm_compute. reflexivity. Qed.

(** Strict UTF-8, after the Unicode standard (table 3-7): one to four
    bytes per character, no overlong form, no surrogate, nothing above
    U+10FFFF, no truncated character. *)
Example utf8_chars_vectors :
  utf8_chars "abc" = Some ["a"; "b"; "c"] /\
  utf8_chars (string_of_bytes [195; 169; 226; 130; 172; 240; 159; 152; 128]) =
    Some [string_of_bytes [195; 169]; string_of_bytes [226; 130; 172];
          string_of_bytes [240; 159; 152; 128]] /\
  utf8_chars (string_of_bytes [237; 159; 191]) = Some [string_of_bytes [237; 159; 191]] /\
  utf8_chars (string_of_bytes [244; 143; 191; 191]) =
    Some [string_of_bytes [244; 143; 191; 191]] /\
  utf8_chars (string_of_bytes [255]) = None /\
  utf8_chars (string_of_bytes [128]) = None /\
  utf8_chars (string_of_bytes [192; 128]) = None /\
  utf8_chars (string_of_bytes [195; 40]) = None /\
  utf8_chars (string_of_bytes [224; 128; 128]) = None /\
  utf8_chars (string_of_bytes [237; 160; 128]) = None /\
  utf8_chars (string_of_bytes [240; 143; 191; 191]) = None /\
  utf8_chars (string_of_bytes [244; 144; 128; 128]) = None /\
  utf8_chars (string_of_bytes [97; 226; 130]) = None.
Proof. repeat split; reflexivity. Qed.

(** A 502 whose body is not UTF-8: [api_call] prints nothing and the
    [HTTPError] is replaced by the [UnicodeDecodeError] of its handler. *)
Example api_call_undecodable_body :
  api_call [Lit "http://localhost:3000/x"] "GET" JNull JNull
    (boot 0 (fun _ => Failed (HTTPError 502 (string_of_bytes [255; 254]))) demo_docker
       (Answered 200))
  = (Raise UnicodeDecodeError,
     mkWorld 0 (fun _ => Failed (HTTPError 502 (string_of_bytes [255; 254]))) demo_docker
       (Answered 200) 1 [Requested "GET" [Lit "http://localhost:3000/x"] None None]).
Proof. reflexivity. Qed.

(** The body is cut after 300 characters, not 300 bytes: 301 times the
    two-byte character U+00E9 are printed as 300 characters, 600 bytes. *)
Example api_call_cuts_characters :
  exists shown w',
    api_call [Lit "http://localhost:3000/x"] "GET" JNull JNull
      (boot 0 (fun _ => Failed (HTTPError 500
                                  (repeat_string (string_of_bytes [195; 169]) 301)))
         demo_docker (Answered 200))
    = (Raise (HTTPError 500 (repeat_string (string_of_bytes [195; 169]) 301)), w') /\
    hd_error (trace w') = Some (Printed [Lit "  HTTP "; Lit "500"; Lit ": "; Lit shown]) /\
    shown = repeat_string (string_of_bytes [195; 169]) 300 /\
    String.length shown = 600%nat.
Proof. eexists _, _. repeat split. Qed.

(** * Lemmas on the TOTP generator *)

Lemma be_bytes_length n x : List.length (be_bytes n x) = n.
Proof. induction n; simpl; congruence. Qed.

Lemma be_bytes_range n x : Forall is_byte (be_bytes n x).
Proof.
  induction n; simpl; constructor; auto.
  unfold is_byte. apply Z.mod_pos_bound. lia.
Qed.

Lemma sha1_length m : List.length (Sha1.sha1 m) = 20%nat.
Proof.
  unfold Sha1.sha1, Sha1.digest_of.
  rewrite !length_app, !be_bytes_length. reflexivity.
Qed.

Lemma sha1_range m : Forall is_byte (Sha1.sha1 m).
Proof.
  unfold Sha1.sha1, Sha1.digest_of.
  repeat (apply Forall_app; split); apply be_bytes_range.
Qed.

Lemma hmac_sha1_length key msg : List.length (hmac_sha1 key msg) = 20%nat.
Proof. apply sha1_length. Qed.

Lemma hmac_sha1_range key msg : Forall is_byte (hmac_sha1 key msg).
Proof. apply sha1_range. Qed.

Lemma pack_Q_counter c :
  0 <= c < 2 ^ 64 -> pack_Q c = Ok (counter_bytes c).
Proof.
  intros [H0 H1]. unfold pack_Q.
  destruct (Z.leb_spec 0 c); [|lia].
  destruct (Z.ltb_spec c (2 ^ 64)); [|lia].
  simpl andb. cbv iota. f_equal.
  unfold counter_bytes. cbn [be_bytes].
  change (256 ^ Z.of_nat 7) with (2 ^ 56).
  change (256 ^ Z.of_nat 6) with (2 ^ 48).
  change (256 ^ Z.of_nat 5) with (2 ^ 40).
  change (256 ^ Z.of_nat 4) with (2 ^ 32).
  change (256 ^ Z.of_nat 3) with (2 ^ 24).
  change (256 ^ Z.of_nat 2) with (2 ^ 16).
  change (256 ^ Z.of_nat 1) with (2 ^ 8).
  change (256 ^ Z.of_nat 0) with 1. rewrite Z.div_1_r. reflexivity.
Qed.

Lemma land_low31 w : 0 <= w < 2 ^ 32 -> Z.land w 0x7FFFFFFF = Z.clearbit w 31.
Proof.
  intros Hw. apply Z.bits_inj'. intros n Hn.
  change 0x7FFFFFFF with (Z.ones 31).
  rewrite Z.land_spec, Z.clearbit_eqb.
  destruct (Z.eqb_spec 31 n) as [<-|Hne].
  - change (Z.testbit (Z.ones 31) 31) with false. reflexivity.
  - destruct (Z.lt_ge_cases n 31).
    + rewrite (Z.ones_spec_low 31 n) by (split; assumption). reflexivity.
    + rewrite (Z.ones_spec_high 31 n) by (split; [discriminate|assumption]).
      rewrite andb_false_r. simpl.
      destruct (Z.eq_dec w 0) as [->|]; [now rewrite Z.bits_0|].
      rewrite Z.bits_above_log2; [reflexivity|apply Hw|].
      apply Z.log2_lt_pow2; [|apply Z.lt_le_trans with (2 ^ 32)]; try apply Hw.
      * lia.
      * apply Z.pow_le_mono_r; lia.
Qed.

Lemma digits_of_fuel f1 :
  forall f2 n acc,
    (1 <= f1)%nat -> (1 <= f2)%nat ->
    0 <= n < 10 ^ Z.of_nat f1 -> n < 10 ^ Z.of_nat f2 ->
    digits_of f1 n acc = digits_of f2 n acc.
Proof.
  induction f1 as [|a IH]; intros f2 n acc H1 H2 Hn1 Hn2; [lia|].
  destruct f2 as [|b]; [lia|].
  cbn [digits_of].
  destruct (Z.eqb_spec (n / 10) 0) as [|Hq]; [reflexivity|].
  assert (Hge : 10 <= n).
  { destruct (Z.lt_ge_cases n 10); [|assumption].
    exfalso. apply Hq. apply Z.div_small. lia. }
  rewrite Nat2Z.inj_succ, Z.pow_succ_r in Hn1, Hn2 by lia.
  assert (Ha : (1 <= a)%nat).
  { destruct a; [simpl in Hn1; lia|lia]. }
  assert (Hb : (1 <= b)%nat).
  { destruct b; [simpl in Hn2; lia|lia]. }
  apply IH; auto.
  - split; [apply Z.div_pos; lia|].
    apply Z.div_lt_upper_bound; lia.
  - apply Z.div_lt_upper_bound; lia.
Qed.

Lemma digit_fuel_enough n : 0 <= n -> n < 10 ^ Z.of_nat (digit_fuel n).
Proof.
  intros Hn. unfold digit_fuel.
  rewrite Nat2Z.inj_succ, Z2Nat.id by apply Z.log2_nonneg.
  destruct (Z.eq_dec n 0) as [->|Hne]; [reflexivity|].
  apply Z.lt_le_trans with (2 ^ Z.succ (Z.log2 n)).
  - apply Z.log2_spec. lia.
  - apply Z.pow_le_mono_l. lia.
Qed.

Lemma str_int_small v :
  0 <= v < 1000000 -> str_int v = digits_of 6 v EmptyString.
Proof.
  intros Hv. unfold str_int.
  destruct (Z.ltb_spec v 0); [lia|].
  apply digits_of_fuel.
  - unfold digit_fuel. lia.
  - lia.
  - split; [lia|]. apply digit_fuel_enough. lia.
  - change (10 ^ Z.of_nat 6) with 1000000. lia.
Qed.

Lemma digit_char_not_sign x :
  (Ascii.eqb (digit_char (x mod 10)) "+" || Ascii.eqb (digit_char (x mod 10)) "-")%bool = false.
Proof.
  assert (H : 0 <= x mod 10 < 10) by (apply Z.mod_pos_bound; lia).
  assert (C : x mod 10 = 0 \/ x mod 10 = 1 \/ x mod 10 = 2 \/ x mod 10 = 3 \/ x mod 10 = 4
              \/ x mod 10 = 5 \/ x mod 10 = 6 \/ x mod 10 = 7 \/ x mod 10 = 8 \/ x mod 10 = 9) by lia.
  repeat (destruct C as [C|C]; [rewrite C; reflexivity|]).
  rewrite C; reflexivity.
Qed.

Lemma zfill_str_int v :
  0 <= v < 1000000 -> zfill 6 (str_int v) = six_digits v.
Proof.
  intros Hv. rewrite str_int_small by assumption.
  unfold six_digits. cbn [digits_of].
  rewrite !Z.div_div by lia. change (10 * 10) with 100.
  change (100 * 10) with 1000. change (1000 * 10) with 10000.
  change (10000 * 10) with 100000.
  assert (Hz : digit_char 0 = "0"%char) by reflexivity.
  repeat match goal with
  | |- context [if ?q =? 0 then _ else _] => destruct (Z.eqb_spec q 0)
  end;
  unfold zfill; cbn [String.length Nat.leb Nat.sub zeros String.append];
  rewrite ?digit_char_not_sign; cbn [String.append];
  rewrite <- ?Hz;
  repeat (f_equal; try (f_equal; Z.div_mod_to_equations; lia)).
Qed.

Lemma window_value a b c d :
  be_value [a; b; c; d] = a * 2 ^ 24 + b * 2 ^ 16 + c * 2 ^ 8 + d.
Proof. unfold be_value. cbn [fold_left]. lia. Qed.

Lemma window_range a b c d :
  is_byte a -> is_byte b -> is_byte c -> is_byte d ->
  0 <= a * 2 ^ 24 + b * 2 ^ 16 + c * 2 ^ 8 + d < 2 ^ 32.
Proof. unfold is_byte. lia. Qed.

Ltac eval_closed f :=
  repeat match goal with
  | |- context [f ?a ?b ?c] =>
      let r := eval cbv in (f a b c) in progress change (f a b c) with r
  end.

Lemma truncation_refines h :
  List.length h = 20%nat -> Forall is_byte h ->
  (do last <- last_byte h;
   do word <- unpack_I (slice (Z.land last 0x0F) (Z.land last 0x0F + 4) h);
   Ok (Z.land word 0x7FFFFFFF)) = Ok (dynamic_truncation h).
Proof.
  intros Hlen Hb.
  do 20 (destruct h as [|? h]; [discriminate Hlen|]).
  destruct h; [|discriminate Hlen]. clear Hlen.
  repeat match goal with
  | H : Forall _ (_ :: _) |- _ => inversion H; subst; clear H
  | H : Forall _ [] |- _ => clear H
  end.
  match goal with |- context [last_byte (?l)] =>
    let r := eval cbv in (last_byte l) in change (last_byte l) with r end.
  cbn [res_bind].
  change 0x0F with (Z.ones 4). rewrite Z.land_ones by lia.
  change (2 ^ 4) with 16.
  unfold dynamic_truncation. cbn [nth].
  match goal with |- context [?x mod 16] => set (o := x mod 16);
    assert (Ho : 0 <= o < 16) by (apply Z.mod_pos_bound; lia) end.
  assert (C : o = 0 \/ o = 1 \/ o = 2 \/ o = 3 \/ o = 4 \/ o = 5 \/ o = 6 \/ o = 7
           \/ o = 8 \/ o = 9 \/ o = 10 \/ o = 11 \/ o = 12 \/ o = 13 \/ o = 14 \/ o = 15) by lia.
  clearbody o.
  repeat (destruct C as [C|C]; [rewrite C; clear C Ho|]); [..|rewrite C; clear C Ho];
    eval_closed slice; unfold unpack_I; cbn [List.length Nat.eqb res_bind];
    rewrite window_value; f_equal;
    cbn [Z.to_nat Pos.to_nat Pos.iter_op Init.Nat.add nth];
    apply land_low31; apply window_range; assumption.
Qed.

Lemma totp_refines secret key now period :
  Base32.b32decode secret = Ok key ->
  0 < period -> 0 <= now -> now / period < 2 ^ 64 ->
  generate_totp_at now secret period = Ok (totp_reference key now period).
Proof.
  intros Hkey Hp Hnow Hc.
  unfold generate_totp_at. rewrite Hkey. cbn [res_bind].
  unfold floordiv. destruct (Z.eqb_spec period 0); [lia|]. cbn [res_bind].
  rewrite pack_Q_counter by (split; [apply Z.div_pos; lia|assumption]).
  cbn [res_bind].
  set (h := hmac_sha1 key (counter_bytes (now / period))).
  pose proof (truncation_refines h (hmac_sha1_length _ _) (hmac_sha1_range _ _)) as T.
  destruct (last_byte h) as [last|]; [|discriminate T]. cbn [res_bind] in *.
  destruct (unpack_I _) as [word|]; [|discriminate T]. cbn [res_bind] in *.
  injection T as T. rewrite T. unfold totp_reference. fold h. f_equal.
  apply zfill_str_int. apply Z.mod_pos_bound. lia.
Qed.

Lemma six_digits_length v : String.length (six_digits v) = 6%nat.
Proof. reflexivity. Qed.

Lemma mfa_code_exists now :
  0 <= now < 30 * 2 ^ 64 -> exists code, generate_totp_at now MFA_SECRET_B32 30 = Ok code.
Proof.
  intros H. eexists. eapply totp_refines with (key := [72; 101; 108; 108; 111; 33; 222; 173; 190; 239]).
  - vm_compute. reflexivity.
  - lia.
  - lia.
  - apply Z.div_lt_upper_bound; lia.
Qed.

(** * Lemmas on the driver *)

(** ** The monad *)

Section MonadLaws.
Context {A B : Type}.

Lemma bind_ok (m : M A) (k : A -> M B) w a w' :
  m w = (Ok a, w') -> bind m k w = k a w'.
Proof. intros H. unfold bind. now rewrite H. Qed.

Lemma bind_raise (m : M A) (k : A -> M B) w e w' :
  m w = (Raise e, w') -> bind m k w = (Raise e, w').
Proof. intros H. unfold bind. now rewrite H. Qed.

Lemma try_except_ok (body : M A) handler w a w' :
  body w = (Ok a, w') -> try_except body handler w = (Ok a, w').
Proof. intros H. unfold try_except. now rewrite H. Qed.

Lemma try_except_caught (body : M A) handler w e w' :
  body w = (Raise e, w') -> is_Exception e = true ->
  try_except body handler w = handler e w'.
Proof. intros H He. unfold try_except. now rewrite H, He. Qed.

Lemma try_except_passed (body : M A) handler w e w' :
  body w = (Raise e, w') -> is_Exception e = false ->
  try_except body handler w = (Raise e, w').
Proof. intros H He. unfold try_except. now rewrite H, He. Qed.
End MonadLaws.

(** ** Traces *)

Lemma fetches_app e1 e2 : fetches (e1 ++ e2) = (fetches e1 + fetches e2)%nat.
Proof. unfold fetches. now rewrite filter_app, length_app. Qed.

Lemma fetches_rev e : fetches (rev e) = fetches e.
Proof.
  induction e as [|x e IH]; [reflexivity|].
  cbn [rev]. rewrite fetches_app, IH. unfold fetches. cbn [filter].
  destruct (is_request x); cbn [List.length]; lia.
Qed.

Lemma banners_app e1 e2 : banners (e1 ++ e2) = banners e1 ++ banners e2.
Proof.
  induction e1 as [|x e1 IH]; [reflexivity|].
  cbn [app banners]. destruct (banner_of x); cbn [app]; now rewrite IH.
Qed.

Lemma banners_quiet e : forallb quiet e = true -> banners e = [].
Proof.
  induction e as [|x e IH]; [reflexivity|].
  cbn [forallb banners]. intros H. apply andb_prop in H. destruct H as [Hx He].
  unfold quiet in Hx. destruct (banner_of x); [discriminate|auto].
Qed.

Lemma quiet_rev e : forallb quiet (rev e) = forallb quiet e.
Proof.
  induction e as [|x e IH]; [reflexivity|].
  cbn [rev]. rewrite forallb_app, IH. cbn [forallb].
  rewrite andb_true_r. apply andb_comm.
Qed.

(** ** [api_call] *)

Lemma api_call_replied url method data token w v :
  backend w (sent w) = Replied v ->
  api_call url method data token w =
  (Ok v, mkWorld (clock w) (backend w) (docker w) (probe w) (S (sent w))
           (Requested method url (present data) (present token) :: trace w)).
Proof.
  intros H. unfold api_call, try_except_HTTPError, urlopen_json. rewrite H. reflexivity.
Qed.

Lemma api_call_failed url method data token w e :
  backend w (sent w) = Failed e ->
  exists evs,
    api_call url method data token w =
    (Raise (api_error e),
     mkWorld (clock w) (backend w) (docker w) (probe w) (S (sent w)) (evs ++ trace w))
    /\ fetches evs = 1%nat /\ forallb quiet evs = true.
Proof.
  intros H. unfold api_call, try_except_HTTPError, urlopen_json. rewrite H.
  destruct e;
    try (exists [Requested method url (present data) (present token)];
         repeat split; reflexivity).
  unfold bind, lift, decode, print, raise, record, api_error.
  destruct (utf8_chars body) as [chars|].
  - eexists [_; _]. repeat split.
  - exists [Requested method url (present data) (present token)]. repeat split.
Qed.

Lemma api_error_is_Exception e : is_Exception e = true -> is_Exception (api_error e) = true.
Proof.
  destruct e; try (intros H; exact H). intros _. cbn [api_error].
  destruct (utf8_chars body); reflexivity.
Qed.

(** ** The polling loop *)

Lemma poll_once_pending base token tid i last w t :
  backend w (sent w) = Replied t -> is_record t = true -> terminal t = false ->
  exists line,
    quiet (Printed line) = true /\
    poll_once base token tid 10 i last w =
    (Ok (inr (Some t)),
     mkWorld (clock w + 10) (backend w) (docker w) (probe w) (S (sent w))
       (Printed line :: Requested "GET" (tenant_url base tid) None (present token)
        :: Slept 10 :: trace w)).
Proof.
  intros Hb Hr Ht. destruct t; try discriminate Hr.
  unfold terminal, status_of in Ht. apply orb_false_elim in Ht. destruct Ht as [Ha Hf].
  unfold poll_once, bind, sleep, lift. erewrite api_call_replied by exact Hb.
  cbn [clock backend docker probe sent trace].
  cbn [get] in *.
  destruct (lookup "status" d) as [st|];
    rewrite Ha, Hf;
    (destruct (eq_str _ "provisioning");
     [ destruct (lookup "provisioningStep" d), (lookup "provisioningProgress" d),
         (lookup "provisioningMessage" d) | ]);
    eexists; (split; [|reflexivity]); reflexivity.
Qed.

Lemma poll_once_terminal base token tid i last w t :
  backend w (sent w) = Replied t -> is_record t = true -> terminal t = true ->
  exists line,
    quiet (Printed line) = true /\
    poll_once base token tid 10 i last w =
    (Ok (inl t),
     mkWorld (clock w + 10) (backend w) (docker w) (probe w) (S (sent w))
       (Printed (closing_banner t) :: Printed line
        :: Requested "GET" (tenant_url base tid) None (present token)
        :: Slept 10 :: trace w)).
Proof.
  intros Hb Hr Ht. destruct t; try discriminate Hr.
  unfold terminal in Ht. unfold closing_banner.
  unfold poll_once, bind, sleep, lift. erewrite api_call_replied by exact Hb.
  cbn [clock backend docker probe sent trace].
  unfold status_of in *. cbn [get] in *.
  destruct (lookup "status" d) as [st|]; [|discriminate Ht].
  destruct (eq_str st "active") eqn:Ha.
  - destruct st; try discriminate Ha. cbn [eq_str] in Ha.
    apply String.eqb_eq in Ha. subst s. cbn.
    eexists; (split; [|reflexivity]); reflexivity.
  - cbn [orb] in Ht. rewrite Ht.
    destruct st; try discriminate Ht. cbn [eq_str] in Ht.
    apply String.eqb_eq in Ht. subst s. cbn.
    destruct (lookup "provisioningFailedReason" d);
    eexists; (split; [|reflexivity]); reflexivity.
Qed.

Lemma world_eq c c' b d p n n' tr tr' :
  c = c' -> n = n' -> tr = tr' -> mkWorld c b d p n tr = mkWorld c' b d p n' tr'.
Proof. now intros -> -> ->. Qed.

Lemma result_eq {A} (r : res A) (w w' : world) : w = w' -> (r, w) = (r, w').
Proof. now intros ->. Qed.

Lemma loop_pending base token tid :
  forall n i last w,
    (forall j, (j < n)%nat -> pending (backend w (j + sent w))) ->
    exists evs last',
      for_range n i (poll_once base token tid 10) last w =
      (Ok (inr last'),
       mkWorld (clock w + 10 * Z.of_nat n) (backend w) (docker w) (probe w)
               (n + sent w) (evs ++ trace w))
      /\ fetches evs = n /\ forallb quiet evs = true
      /\ match n with
         | O => last' = last
         | S m => exists t, backend w (m + sent w) = Replied t /\ last' = Some t
         end.
Proof.
  induction n as [|n IH]; intros i last w Hp.
  - exists [], last. cbn [for_range app]. unfold ret. split; [|repeat split].
    destruct w as [c b d p s tr]; cbn [clock backend docker probe sent trace Nat.add app].
    apply result_eq, world_eq; [lia|reflexivity|reflexivity].
  - destruct (Hp 0%nat ltac:(lia)) as (t & Hb & Hr & Ht). cbn [Nat.add] in Hb.
    destruct (poll_once_pending base token tid i last w t Hb Hr Ht) as (line & Hq & Hstep).
    cbn [for_range]. rewrite (bind_ok _ _ _ _ _ Hstep).
    match goal with |- context [for_range n _ _ _ ?w1] => set (w1' := w1) end.
    destruct (IH (i + 1) (Some t) w1') as (evs & last' & Hrun & Hf & Hquiet & Hlast).
    { intros j Hj. subst w1'. cbn [backend sent].
      rewrite Nat.add_succ_r. apply (Hp (S j)). lia. }
    exists (evs ++ [Printed line;
                    Requested "GET" (tenant_url base tid) None (present token); Slept 10]), last'.
    rewrite Hrun. subst w1'. cbn [clock backend docker probe sent trace].
    split; [|split; [|split]].
    + apply result_eq, world_eq; [lia|lia|now rewrite <- app_assoc].
    + rewrite fetches_app, Hf. cbn. lia.
    + rewrite forallb_app, Hquiet. cbn [forallb]. rewrite Hq. reflexivity.
    + destruct n as [|m].
      * exists t. subst last'. split; [exact Hb|reflexivity].
      * destruct Hlast as (t' & Hb' & ->). exists t'. split; [|reflexivity].
        cbn [backend sent] in Hb'. rewrite Nat.add_succ_r in Hb'. exact Hb'.
Qed.

Lemma loop_terminal base token tid t :
  forall k n i last w,
    (k < n)%nat ->
    (forall j, (j < k)%nat -> pending (backend w (j + sent w))) ->
    backend w (k + sent w) = Replied t -> is_record t = true -> terminal t = true ->
    exists evs,
      for_range n i (poll_once base token tid 10) last w =
      (Ok (inl t),
       mkWorld (clock w + 10 * Z.of_nat (S k)) (backend w) (docker w) (probe w)
               (S k + sent w) (Printed (closing_banner t) :: evs ++ trace w))
      /\ fetches evs = S k /\ forallb quiet evs = true.
Proof.
  induction k as [|k IH]; intros n i last w Hk Hp Hb Hr Ht;
    (destruct n as [|n]; [lia|]); cbn [for_range].
  - cbn [Nat.add] in Hb.
    destruct (poll_once_terminal base token tid i last w t Hb Hr Ht) as (line & Hq & Hstep).
    rewrite (bind_ok _ _ _ _ _ Hstep).
    exists [Printed line; Requested "GET" (tenant_url base tid) None (present token); Slept 10].
    cbn [app]. unfold ret. split; [|split].
    + apply result_eq, world_eq; [lia|lia|reflexivity].
    + reflexivity.
    + cbn [forallb]. rewrite Hq. reflexivity.
  - destruct (Hp 0%nat ltac:(lia)) as (t0 & Hb0 & Hr0 & Ht0). cbn [Nat.add] in Hb0.
    destruct (poll_once_pending base token tid i last w t0 Hb0 Hr0 Ht0) as (line & Hq & Hstep).
    rewrite (bind_ok _ _ _ _ _ Hstep).
    match goal with |- context [for_range n _ _ _ ?w1] => set (w1' := w1) end.
    destruct (IH n (i + 1) (Some t0) w1') as (evs & Hrun & Hf & Hquiet).
    { lia. }
    { intros j Hj. subst w1'. cbn [backend sent].
      rewrite Nat.add_succ_r. apply (Hp (S j)). lia. }
    { subst w1'. cbn [backend sent]. rewrite Nat.add_succ_r. exact Hb. }
    { exact Hr. }
    { exact Ht. }
    exists (evs ++ [Printed line;
                    Requested "GET" (tenant_url base tid) None (present token); Slept 10]).
    rewrite Hrun. subst w1'. cbn [clock backend docker probe sent trace].
    split; [|split].
    + apply result_eq, world_eq; [lia|lia|now rewrite <- app_assoc].
    + rewrite fetches_app, Hf. cbn. lia.
    + rewrite forallb_app, Hquiet. cbn [forallb]. rewrite Hq. reflexivity.
Qed.

(** ** [poll_provisioning] *)

Lemma poll_provisioning_unbound base token tid timeout w :
  timeout < 10 ->
  poll_provisioning base token tid timeout w =
  (Raise (UnboundLocalError "t"),
   record (Printed (timeout_line timeout))
     (record (Printed [Lit "3. Polling provisioning status..."]) w)).
Proof.
  intros H. unfold poll_provisioning.
  assert (Hn : Z.to_nat (timeout / 10) = 0%nat).
  { assert (timeout / 10 <= 0) by (apply Z.lt_succ_r, Z.div_lt_upper_bound; lia). lia. }
  rewrite Hn. reflexivity.
Qed.

Lemma poll_provisioning_timeout base token tid timeout w :
  10 <= timeout ->
  (forall j, (j < Z.to_nat (timeout / 10))%nat -> pending (backend w (j + sent w))) ->
  exists evs t,
    backend w (Z.to_nat (timeout / 10) - 1 + sent w) = Replied t /\
    poll_provisioning base token tid timeout w =
    (Ok t,
     mkWorld (clock w + 10 * (timeout / 10)) (backend w) (docker w) (probe w)
             (Z.to_nat (timeout / 10) + sent w)
             (Printed (timeout_line timeout) :: evs ++ trace w)) /\
    fetches evs = Z.to_nat (timeout / 10) /\ forallb quiet evs = true.
Proof.
  intros H Hp.
  assert (Hq : 1 <= timeout / 10) by (apply Z.div_le_lower_bound; lia).
  assert (Hn : Z.of_nat (Z.to_nat (timeout / 10)) = timeout / 10) by (apply Z2Nat.id; lia).
  unfold poll_provisioning.
  remember (Z.to_nat (timeout / 10)) as n eqn:En.
  destruct (loop_pending base token tid n 0 None
              (record (Printed [Lit "3. Polling provisioning status..."]) w) Hp)
    as (evs & last' & Hrun & Hf & Hquiet & Hlast).
  destruct n as [|m]; [lia|].
  destruct Hlast as (t & Hb & ->).
  exists (evs ++ [Printed [Lit "3. Polling provisioning status..."]]), t.
  split; [|split; [|split]].
  - cbn [backend sent record] in Hb. now replace (S m - 1)%nat with m by lia.
  - unfold bind at 1. unfold print at 1.
    rewrite (bind_ok _ _ _ _ _ Hrun).
    cbn [record clock backend docker probe sent trace]. unfold bind, print, ret.
    cbn [record clock backend docker probe sent trace].
    apply result_eq, world_eq; cbn [clock backend docker probe sent trace]; [lia|reflexivity|now rewrite <- app_assoc].
  - rewrite fetches_app, Hf. cbn. lia.
  - rewrite forallb_app, Hquiet. reflexivity.
Qed.

Lemma poll_provisioning_terminal base token tid timeout w k t :
  (k < Z.to_nat (timeout / 10))%nat ->
  (forall j, (j < k)%nat -> pending (backend w (j + sent w))) ->
  backend w (k + sent w) = Replied t -> is_record t = true -> terminal t = true ->
  exists evs,
    poll_provisioning base token tid timeout w =
    (Ok t,
     mkWorld (clock w + 10 * Z.of_nat (S k)) (backend w) (docker w) (probe w)
             (S k + sent w) (Printed (closing_banner t) :: evs ++ trace w)) /\
    fetches evs = S k /\ forallb quiet evs = true.
Proof.
  intros Hk Hp Hb Hr Ht.
  destruct (loop_terminal base token tid t k (Z.to_nat (timeout / 10)) 0 None
              (record (Printed [Lit "3. Polling provisioning status..."]) w) Hk Hp Hb Hr Ht)
    as (evs & Hrun & Hf & Hquiet).
  exists (evs ++ [Printed [Lit "3. Polling provisioning status..."]]).
  split; [|split].
  - unfold poll_provisioning.
    unfold bind at 1. unfold print at 1.
    rewrite (bind_ok _ _ _ _ _ Hrun). unfold ret.
    cbn [record clock backend docker probe sent trace].
    apply result_eq, world_eq; [reflexivity|reflexivity|now rewrite <- app_assoc].
  - rewrite fetches_app, Hf. cbn. lia.
  - rewrite forallb_app, Hquiet. reflexivity.
Qed.

(** ** [authenticate] and [create_tenant] *)

Lemma authenticate_ok base w r0 r1 token shown :
  0 <= clock w < 30 * 2 ^ 64 ->
  backend w (sent w) = Replied r0 ->
  backend w (S (sent w)) = Replied r1 ->
  getitem r1 "accessToken" = Ok token ->
  slice_to 20 token = Ok shown ->
  exists evs,
    authenticate base w =
    (Ok token,
     mkWorld (clock w) (backend w) (docker w) (probe w) (2 + sent w) (evs ++ trace w)) /\
    fetches evs = 2%nat /\ forallb quiet evs = true.
Proof.
  intros Hc H0 H1 Htok Hshown.
  destruct (mfa_code_exists (clock w) Hc) as (code & Hcode).
  unfold authenticate, generate_totp. unfold bind, print, time_time, lift, ret.
  erewrite api_call_replied by exact H0.
  cbn [record clock backend docker probe sent trace].
  rewrite Hcode.
  erewrite api_call_replied by exact H1.
  rewrite Htok, Hshown.
  cbn [record clock backend docker probe sent trace].
  eexists [_; _; _; _]. split; [reflexivity|]. split; reflexivity.
Qed.

Lemma create_tenant_ok base token name w r tid :
  backend w (sent w) = Replied r ->
  getitem r "id" = Ok tid ->
  exists evs,
    create_tenant base token name w =
    (Ok tid,
     mkWorld (clock w) (backend w) (docker w) (probe w) (1 + sent w) (evs ++ trace w)) /\
    fetches evs = 1%nat /\ forallb quiet evs = true.
Proof.
  intros H0 Hid.
  unfold create_tenant, bind, print, lift, ret.
  erewrite api_call_replied by exact H0.
  rewrite Hid.
  destruct r; try discriminate Hid. cbn [get].
  destruct (lookup "status" d);
    cbn [record clock backend docker probe sent trace];
    eexists [_; _; _; _]; (split; [reflexivity|]); split; reflexivity.
Qed.

(** ** [verify_container] *)

Lemma quiet_plain e : quiet e = true -> plain e = true.
Proof. unfold quiet, plain. destruct (banner_of e); [discriminate|reflexivity]. Qed.

Lemma forallb_quiet_plain evs : forallb quiet evs = true -> forallb plain evs = true.
Proof.
  induction evs as [|e evs IH]; [reflexivity|].
  cbn [forallb]. intros H. apply andb_prop in H. destruct H as [He Hevs].
  now rewrite (quiet_plain e He), IH.
Qed.

Lemma banners_plain e : forallb plain e = true -> banners e = [].
Proof.
  induction e as [|x e IH]; [reflexivity|].
  cbn [forallb banners]. intros H. apply andb_prop in H. destruct H as [Hx He].
  unfold plain in Hx. destruct (banner_of x); [discriminate|auto].
Qed.

Lemma getitem_raises o k e : getitem o k = Raise e -> is_Exception e = true.
Proof.
  unfold getitem. destruct o; try (intros [= <-]; reflexivity).
  destruct (lookup k d); [discriminate|]. intros [= <-]. reflexivity.
Qed.

Lemma get_raises o k v e : get o k v = Raise e -> is_Exception e = true.
Proof.
  unfold get. destruct o; try (intros [= <-]; reflexivity).
  destruct (lookup k d); discriminate.
Qed.

Lemma slice_to_raises n v e : slice_to n v = Raise e -> is_Exception e = true.
Proof. destruct v; cbn; try discriminate; intros [= <-]; reflexivity. Qed.

Lemma first_match_raises needle lines e :
  first_match needle lines = Raise e -> is_Exception e = true.
Proof.
  induction lines as [|l ls IH]; cbn [first_match]; [discriminate|].
  destruct needle; cbn [py_in res_bind]; try (intros [= <-]; reflexivity).
  destruct (contains s l); [discriminate|exact IH].
Qed.

Lemma docker_check_total tenant w :
  exists line,
    docker_check tenant w = (Ok tt, record (Printed line) (record DockerPs w)) /\
    (is_warning line = true \/ exists entry, line = [Lit "   Docker: "; Lit entry]).
Proof.
  unfold docker_check, try_except, docker_ps. unfold bind, lift, print.
  destruct (docker w) as [output|what].
  - destruct (getitem tenant "id") as [tid|e] eqn:Hid.
    + destruct (slice_to 8 tid) as [prefix|e] eqn:Hs.
      * destruct (first_match prefix (split_lines (strip output))) as [[entry|]|e] eqn:Hm.
        -- eexists; split; [reflexivity|]. right. now exists entry.
        -- eexists; split; [reflexivity|]. now left.
        -- rewrite (first_match_raises _ _ _ Hm).
           eexists; split; [reflexivity|]. now left.
      * rewrite (slice_to_raises _ _ _ Hs).
        eexists; split; [reflexivity|]. now left.
    + rewrite (getitem_raises _ _ _ Hid).
      eexists; split; [reflexivity|]. now left.
  - eexists; split; [reflexivity|]. now left.
Qed.

Lemma http_check_string url w :
  exists evs r,
    http_check (JStr url) w =
    (Ok r, mkWorld (clock w) (backend w) (docker w) (probe w) (sent w)
             (evs ++ [Probed (url ++ "/")] ++ trace w)) /\
    match r with Some b => b | None => true end = probe_passes (probe w) /\
    fetches evs = 0%nat /\ forallb quiet evs = true.
Proof.
  unfold http_check, try_except, try_except_HTTPError, urlopen_probe.
  unfold bind, lift, print, ret, record. cbn [add_slash]. unfold probe_passes.
  cbn [clock backend docker probe sent trace].
  destruct (probe w) as [s|reason].
  - destruct ((200 <=? s) && (s <? 300)) eqn:H2.
    + eexists [_], _. split; [reflexivity|]. repeat split.
    + cbn [orb]. destruct ((s =? 404) || (s =? 426)) eqn:H4.
      * eexists [_], _. split; [reflexivity|]. repeat split.
      * eexists [_], _. split; [reflexivity|]. repeat split.
  - cbn [is_Exception]. eexists [_], _. split; [reflexivity|]. repeat split.
Qed.

Lemma http_check_other v w :
  (forall s, v <> JStr s) ->
  http_check v w =
  (Ok (Some false),
   record (Printed [Lit "   ERROR: Container not responding: "; Exc TypeError]) w).
Proof.
  intros H. unfold http_check, try_except. unfold bind, lift, print, ret.
  destruct v; try reflexivity. now destruct (H s).
Qed.

Lemma warning_plain line : is_warning line = true -> plain (Printed line) = true.
Proof.
  intros Hw. unfold plain, banner_of.
  destruct line as [|[s|v|e] rest]; try discriminate Hw. cbn [is_warning] in Hw.
  destruct (String.eqb_spec s "   *** PROVISIONING SUCCEEDED ***") as [->|]; [discriminate Hw|].
  destruct (String.eqb_spec s "   *** PROVISIONING FAILED: ") as [->|]; [discriminate Hw|].
  destruct (String.eqb_spec s "   *** TIMEOUT after ") as [->|]; [discriminate Hw|].
  destruct rest as [|[?|?|?] [|[?|?|?] [|? ?]]]; reflexivity.
Qed.

Lemma verify_container_spec tenant w :
  exists evs,
    verify_container tenant w =
    (liveness_result tenant (probe w),
     mkWorld (clock w) (backend w) (docker w) (probe w) (sent w) (evs ++ trace w)) /\
    fetches evs = 0%nat /\ forallb plain evs = true /\
    (forall v, endpoint_of tenant = Ok v -> truthy v = false -> forallb quiet evs = true) /\
    (forall url, endpoint_of tenant = Ok (JStr url) -> url <> EmptyString ->
                 In (Probed (url ++ "/")) evs).
Proof.
  unfold verify_container, liveness_result, endpoint_of.
  unfold bind at 1. unfold print at 1. unfold bind at 1. unfold lift at 1.
  destruct (get tenant "config" (JDict [])) as [config|e] eqn:Hc; cbn [res_bind].
  2:{ exists [Printed [Lit "4. Verifying container..."]].
      split; [destruct w; reflexivity|]. repeat split; try reflexivity; discriminate. }
  unfold bind at 1. unfold lift at 1.
  destruct (get config "containerEndpoint" (JStr EmptyString)) as [v|e] eqn:Hv; cbn [res_bind].
  2:{ exists [Printed [Lit "4. Verifying container..."]].
      split; [destruct w; reflexivity|]. repeat split; try reflexivity; discriminate. }
  destruct (truthy v) eqn:Htr; cbn [negb].
  - unfold bind at 1. unfold print at 1. unfold bind at 1.
    match goal with |- context [docker_check tenant ?w1] =>
      destruct (docker_check_total tenant w1) as (line & Hd & Hline); rewrite Hd end.
    unfold bind at 1.
    assert (Hplain : plain (Printed line) = true).
    { destruct Hline as [Hw|(entry & ->)]; [now apply warning_plain|reflexivity]. }
    destruct v as [| | | |url| |];
      try (rewrite http_check_other by discriminate; unfold ret, record;
           cbn [clock backend docker probe sent trace];
           eexists [_; _; _; _; _]; split; [reflexivity|];
           cbn [forallb]; rewrite Hplain;
           repeat split; try reflexivity; try discriminate; congruence).
    match goal with |- context [http_check (JStr url) ?w2] =>
      destruct (http_check_string url w2) as (evs & r & Hh & Hr & Hf & Hq); rewrite Hh end.
    unfold record in *. cbn [clock backend docker probe sent trace] in *.
    exists (evs ++ [Probed (url ++ "/"); Printed line; DockerPs;
                    Printed [Lit "   Container URL: "; Val (JStr url)];
                    Printed [Lit "4. Verifying container..."]]).
    split; [|split; [|split; [|split]]].
    + rewrite <- Hr. rewrite <- app_assoc.
      destruct r as [b|]; reflexivity.
    + rewrite fetches_app, Hf. reflexivity.
    + rewrite forallb_app, (forallb_quiet_plain _ Hq). cbn [forallb].
      rewrite Hplain. reflexivity.
    + intros v' [= <-] Hfalse. congruence.
    + intros url' [= <-] _. apply in_or_app. right. now left.
  - unfold bind, print, ret, record. cbn [clock backend docker probe sent trace].
    eexists [_; _]. split; [reflexivity|].
    repeat split; try reflexivity. intros url [= ->] Hne. destruct url; [congruence|discriminate].
Qed.

(** ** [verify_health_monitor] *)




(** ** [main] up to the end of the poll *)

Lemma try_except_ext {A} (body body' : M A) handler w w' :
  body w = body' w' -> try_except body handler w = try_except body' handler w'.
Proof. intros H. unfold try_except. now rewrite H. Qed.

Lemma main_polled a now b d p token tid k tenant :
  logs_in now b token -> creates_tenant b tid -> polls_until b k tenant ->
  exists evs,
    forallb quiet evs = true /\ fetches evs = (k + 4)%nat /\
    main a (boot now b d p) =
    try_except (conclude a token tid tenant) fatal
      (mkWorld (now + 10 * Z.of_nat (S k)) b d p (k + 4)
               (Printed (closing_banner tenant) :: evs)).
Proof.
  intros (Hnow & (r0 & H0) & (r1 & shown & H1 & Htok & Hshown)) (r2 & H2 & Hid)
         (Hk & Hwait & Hfin & Hrec & Hterm).
  unfold main. unfold boot.
  do 5 (unfold bind at 1; unfold print at 1). unfold record.
  cbn [clock backend docker probe sent trace].
  match goal with |- context [try_except _ _ ?w] => set (w1 := w) end.
  destruct (authenticate_ok (base_url a) w1 r0 r1 token shown Hnow H0 H1 Htok Hshown)
    as (e1 & Hauth & Hf1 & Hq1).
  match type of Hauth with _ = (_, ?w) => set (w2 := w) in * end.
  destruct (create_tenant_ok (base_url a) token (tenant_name a) w2 r2 tid H2 Hid)
    as (e2 & Hcreate & Hf2 & Hq2).
  match type of Hcreate with _ = (_, ?w) => set (w3 := w) in * end.
  assert (Hwait' : forall j, (j < k)%nat -> pending (b (j + 3)%nat)).
  { intros j Hj. rewrite Nat.add_comm. now apply Hwait. }
  rewrite Nat.add_comm in Hfin.
  destruct (poll_provisioning_terminal (base_url a) token tid 240 w3 k tenant Hk Hwait' Hfin Hrec Hterm)
    as (e3 & Hpoll & Hf3 & Hq3).
  exists (e3 ++ e2 ++ e1 ++ trace w1).
  split; [|split].
  - rewrite !forallb_app, Hq1, Hq2, Hq3. reflexivity.
  - rewrite !fetches_app, Hf1, Hf2, Hf3. cbn. lia.
  - apply try_except_ext.
    rewrite (bind_ok _ _ _ _ _ Hauth), (bind_ok _ _ _ _ _ Hcreate), (bind_ok _ _ _ _ _ Hpoll).
    apply (f_equal (conclude a token tid tenant)).
    subst w3 w2 w1. cbn [clock backend docker probe sent trace].
    apply world_eq; [reflexivity|lia|].
    reflexivity.
Qed.

Lemma main_timed_out a now b d p token tid :
  logs_in now b token -> creates_tenant b tid ->
  never_finishes b ->
  exists evs tenant,
    b 26%nat = Replied tenant /\
    forallb quiet evs = true /\ fetches evs = 27%nat /\
    main a (boot now b d p) =
    try_except (conclude a token tid tenant) fatal
      (mkWorld (now + 240) b d p 27 (Printed (timeout_line 240) :: evs)).
Proof.
  intros (Hnow & (r0 & H0) & (r1 & shown & H1 & Htok & Hshown)) (r2 & H2 & Hid) Hwait.
  unfold main. unfold boot.
  do 5 (unfold bind at 1; unfold print at 1). unfold record.
  cbn [clock backend docker probe sent trace].
  match goal with |- context [try_except _ _ ?w] => set (w1 := w) end.
  destruct (authenticate_ok (base_url a) w1 r0 r1 token shown Hnow H0 H1 Htok Hshown)
    as (e1 & Hauth & Hf1 & Hq1).
  match type of Hauth with _ = (_, ?w) => set (w2 := w) in * end.
  destruct (create_tenant_ok (base_url a) token (tenant_name a) w2 r2 tid H2 Hid)
    as (e2 & Hcreate & Hf2 & Hq2).
  match type of Hcreate with _ = (_, ?w) => set (w3 := w) in * end.
  assert (Hwait' : forall j, (j < 24)%nat -> pending (b (j + 3)%nat)).
  { intros j Hj. rewrite Nat.add_comm. now apply Hwait. }
  destruct (poll_provisioning_timeout (base_url a) token tid 240 w3 ltac:(lia) Hwait')
    as (e3 & tenant & Hlast & Hpoll & Hf3 & Hq3).
  exists (e3 ++ e2 ++ e1 ++ trace w1), tenant.
  split; [exact Hlast|]. split; [|split].
  - rewrite !forallb_app, Hq1, Hq2, Hq3. reflexivity.
  - rewrite !fetches_app, Hf1, Hf2, Hf3. reflexivity.
  - apply try_except_ext.
    rewrite (bind_ok _ _ _ _ _ Hauth), (bind_ok _ _ _ _ _ Hcreate), (bind_ok _ _ _ _ _ Hpoll).
    apply (f_equal (conclude a token tid tenant)).
    subst w3 w2 w1. cbn [clock backend docker probe sent trace].
    apply world_eq; [reflexivity|reflexivity|].
    reflexivity.
Qed.

(** ** The end of [main] *)

Lemma status_not_active tenant :
  is_record tenant = true -> eq_str (status_of tenant) "active" = false ->
  exists s, get tenant "status" JNull = Ok s /\ eq_str s "active" = false.
Proof.
  intros Hr Hs. destruct tenant; try discriminate Hr.
  unfold status_of in Hs. cbn [get] in *.
  destruct (lookup "status" d) as [s|]; eexists; split; try reflexivity; assumption.
Qed.

Lemma status_active tenant :
  is_record tenant = true -> eq_str (status_of tenant) "active" = true ->
  exists s, get tenant "status" JNull = Ok s /\ eq_str s "active" = true.
Proof.
  intros Hr Hs. destruct tenant; try discriminate Hr.
  unfold status_of in Hs. cbn [get] in *.
  destruct (lookup "status" d) as [s|]; [|discriminate Hs].
  eexists; split; try reflexivity; assumption.
Qed.

Lemma conclude_not_active a token tid tenant w :
  is_record tenant = true -> eq_str (status_of tenant) "active" = false ->
  conclude a token tid tenant w =
  (Raise (SystemExit 1), record (Printed provisioning_verdict) w).
Proof.
  intros Hr Hs. destruct (status_not_active tenant Hr Hs) as (s & Hg & Hn).
  unfold conclude. unfold bind at 1. unfold lift at 1. rewrite Hg.
  unfold bind at 1. rewrite Hn. reflexivity.
Qed.

Lemma conclude_container_failed a token tid tenant w :
  is_record tenant = true -> eq_str (status_of tenant) "active" = true ->
  liveness_result tenant (probe w) = Ok false ->
  exists evs,
    conclude a token tid tenant w =
    (Raise (SystemExit 1),
     mkWorld (clock w) (backend w) (docker w) (probe w) (sent w)
             (Printed container_verdict :: evs ++ trace w)) /\
    fetches evs = 0%nat /\ forallb plain evs = true /\
    (forall v, endpoint_of tenant = Ok v -> truthy v = false -> forallb quiet evs = true).
Proof.
  intros Hr Hs Hl. destruct (status_active tenant Hr Hs) as (s & Hg & Hn).
  destruct (verify_container_spec tenant w) as (evs & Hv & Hf & Hp & Hq & _).
  rewrite Hl in Hv.
  unfold conclude. unfold bind at 1. unfold lift at 1. rewrite Hg.
  unfold bind at 1. rewrite Hn. cbn [negb]. unfold ret at 1.
  rewrite (bind_ok _ _ _ _ _ Hv). cbn [negb].
  exists evs. split; [reflexivity|]. auto.
Qed.

Lemma endpoint_shown tenant url :
  endpoint_of tenant = Ok (JStr url) -> url <> EmptyString ->
  exists config,
    get tenant "config" (JDict []) = Ok config /\
    get config "containerEndpoint" (JStr "?") = Ok (JStr url).
Proof.
  unfold endpoint_of. intros H Hne.
  destruct (get tenant "config" (JDict [])) as [config|]; [|discriminate H].
  cbn [res_bind] in H. exists config. split; [reflexivity|].
  destruct config; try discriminate H. cbn [get] in *.
  destruct (lookup "containerEndpoint" d); [exact H|].
  injection H as H. congruence.
Qed.

Lemma liveness_passes tenant url p :
  endpoint_of tenant = Ok (JStr url) -> url <> EmptyString ->
  liveness_result tenant p = Ok (probe_passes p).
Proof.
  intros H Hne. unfold liveness_result. rewrite H. cbn [res_bind].
  destruct url; [congruence|reflexivity].
Qed.



(** * The claims *)

(** ** The TOTP generator *)

Lemma outcome_eq {A} (r r' : res A) (w : world) : r = r' -> (r, w) = (r', w).
Proof. now intros ->. Qed.

Lemma generate_totp_run secret period w :
  generate_totp secret period w = (generate_totp_at (clock w) secret period, w).
Proof. reflexivity. Qed.

(** C1, as amended: for every valid base32 secret and every clock reading
    whose counter fits 64 bits, [generate_totp] returns the RFC 4226/6238
    code: HMAC-SHA1 of the 8-byte big-endian counter [floor(time/period)]
    under the decoded secret, dynamically truncated, bit 31 cleared, reduced
    modulo 1,000,000 and written with exactly six digits.  For the RFC 6238
    reference secret, the 32 characters [GEZDGNBVGY3TQOJQGEZDGNBVGY3TQOJQ],
    at Unix time 59 the code is ["287082"]. *)
Theorem generate_totp_is_rfc6238 :
  (forall secret key period w,
      Base32.b32decode secret = Ok key ->
      0 < period -> 0 <= clock w -> clock w / period < 2 ^ 64 ->
      generate_totp secret period w = (Ok (totp_reference key (clock w) period), w) /\
      String.length (totp_reference key (clock w) period) = 6%nat) /\
  (forall b d p,
      generate_totp RFC_SECRET_B32 30 (boot 59 b d p) = (Ok "287082", boot 59 b d p)).
Proof.
  split.
  - intros secret key period w Hkey Hp Hnow Hc. split.
    + rewrite generate_totp_run. apply outcome_eq. now apply totp_refines.
    + apply six_digits_length.
  - intros b d p. rewrite generate_totp_run. apply outcome_eq.
    vm_compute. reflexivity.
Qed.

Lemma generate_totp_is_rfc6238_witness :
  generate_totp MFA_SECRET_B32 30 (world_at 59) =
  (Ok (totp_reference [72; 101; 108; 108; 111; 33; 222; 173; 190; 239] 59 30), world_at 59) /\
  String.length (totp_reference [72; 101; 108; 108; 111; 33; 222; 173; 190; 239] 59 30) = 6%nat.
Proof.
  apply (proj1 generate_totp_is_rfc6238 MFA_SECRET_B32
           [72; 101; 108; 108; 111; 33; 222; 173; 190; 239] 30 (world_at 59)).
  - vm_compute. reflexivity.
  - lia.
  - simpl. lia.
  - vm_compute. reflexivity.
Defined.

(** C1 as stated fails: with the 16-character secret [GEZDGNBVGY3TQOJQ] the
    code at Unix time 59 is ["263420"], not ["287082"]. *)
Lemma short_secret_code_at_59 :
  generate_totp "GEZDGNBVGY3TQOJQ" 30 (world_at 59) = (Ok "263420", world_at 59).
Proof. rewrite generate_totp_run. apply outcome_eq. vm_compute. reflexivity. Qed.

(** C7, as amended: for every valid base32 secret and every two clock
    readings in the same window ([floor(t1/period) = floor(t2/period)]),
    [generate_totp] returns the same code; the codes of two adjacent
    windows may differ (RFC secret, times 59 and 60) or coincide (RFC
    secret, times 27322139 and 27322140). *)
Theorem generate_totp_constant_in_window :
  (forall secret key period w1 w2,
      Base32.b32decode secret = Ok key ->
      0 < period -> 0 <= clock w1 -> clock w1 / period < 2 ^ 64 ->
      clock w1 / period = clock w2 / period ->
      exists code,
        generate_totp secret period w1 = (Ok code, w1) /\
        generate_totp secret period w2 = (Ok code, w2)) /\
  fst (generate_totp RFC_SECRET_B32 30 (world_at 59))
    <> fst (generate_totp RFC_SECRET_B32 30 (world_at 60)) /\
  (27322139 / 30 + 1 = 27322140 / 30 /\
   fst (generate_totp RFC_SECRET_B32 30 (world_at 27322139))
     = fst (generate_totp RFC_SECRET_B32 30 (world_at 27322140))).
Proof.
  split; [|split; [|split]].
  - intros secret key period w1 w2 Hkey Hp Hnow Hc Hsame.
    exists (totp_reference key (clock w1) period). split.
    + rewrite generate_totp_run. apply outcome_eq. now apply totp_refines.
    + rewrite generate_totp_run. apply outcome_eq.
      unfold generate_totp_at. rewrite Hkey. cbn [res_bind].
      unfold floordiv. destruct (Z.eqb_spec period 0); [lia|]. cbn [res_bind].
      rewrite <- Hsame.
      pose proof (totp_refines secret key (clock w1) period Hkey Hp Hnow Hc) as R.
      unfold generate_totp_at in R. rewrite Hkey in R. cbn [res_bind] in R.
      unfold floordiv in R. destruct (Z.eqb_spec period 0); [lia|]. exact R.
  - vm_compute. discriminate.
  - reflexivity.
  - vm_compute. reflexivity.
Qed.

Lemma generate_totp_constant_in_window_witness :
  exists code,
    generate_totp MFA_SECRET_B32 30 (world_at 30) = (Ok code, world_at 30) /\
    generate_totp MFA_SECRET_B32 30 (world_at 59) = (Ok code, world_at 59).
Proof.
  apply (proj1 generate_totp_constant_in_window MFA_SECRET_B32
           [72; 101; 108; 108; 111; 33; 222; 173; 190; 239] 30 (world_at 30) (world_at 59)).
  - vm_compute. reflexivity.
  - lia.
  - simpl. lia.
  - vm_compute. reflexivity.
  - vm_compute. reflexivity.
Defined.

(** C7 as stated fails: with the driver's own secret the code does not
    change at the window boundary between 1806080549 and 1806080550. *)
Lemma same_code_across_boundary :
  1806080549 / 30 + 1 = 1806080550 / 30 /\
  generate_totp MFA_SECRET_B32 30 (world_at 1806080549) = (Ok "010312", world_at 1806080549) /\
  generate_totp MFA_SECRET_B32 30 (world_at 1806080550) = (Ok "010312", world_at 1806080550).
Proof.
  split; [reflexivity|].
  split; rewrite generate_totp_run; apply outcome_eq; vm_compute; reflexivity.
Qed.

(** ** The poller *)







(** C9: called with [timeout_secs] below the interval of 10 seconds, the
    loop of [poll_provisioning] runs zero times, no request is made, and the
    final [return t] raises [UnboundLocalError], a [NameError], instead of
    returning a record. *)
Theorem poll_provisioning_unbound_local base token tid timeout w :
  timeout < 10 ->
  Z.to_nat (timeout / 10) = 0%nat /\
  exists e w',
    poll_provisioning base token tid timeout w = (Raise e, w') /\
    e = UnboundLocalError "t" /\ is_NameError e = true /\
    sent w' = sent w /\ fetches (trace w') = fetches (trace w).
Proof.
  intros H. split.
  - assert (timeout / 10 <= 0) by (apply Z.lt_succ_r, Z.div_lt_upper_bound; lia). lia.
  - eexists _, _. split; [now apply poll_provisioning_unbound|].
    repeat split.
Qed.

Lemma poll_provisioning_unbound_local_witness :
  Z.to_nat (9 / 10) = 0%nat /\
  exists e w',
    poll_provisioning DEFAULT_BASE_URL demo_token demo_id 9 (world_at 59) = (Raise e, w') /\
    e = UnboundLocalError "t" /\ is_NameError e = true /\
    sent w' = sent (world_at 59) /\ fetches (trace w') = fetches (trace (world_at 59)).
Proof.
  apply (poll_provisioning_unbound_local DEFAULT_BASE_URL demo_token demo_id 9 (world_at 59)).
  lia.
Defined.

(** ** The container check *)

(** C5: for a tenant record whose [config.containerEndpoint] is a
    non-empty string, [verify_container] probes that endpoint and maps what
    it meets as follows: a 2xx response passes, the HTTP error statuses 404
    and 426 pass, any other status (500, say) fails, and so does any
    transport failure. *)
Theorem verify_container_probe_policy tenant url w :
  endpoint_of tenant = Ok (JStr url) -> url <> EmptyString ->
  In (Probed (url ++ "/")) (trace (snd (verify_container tenant w))) /\
  (forall s, probe w = Answered s -> 200 <= s < 300 ->
             fst (verify_container tenant w) = Ok true) /\
  (forall s, probe w = Answered s -> s = 404 \/ s = 426 ->
             fst (verify_container tenant w) = Ok true) /\
  (forall s, probe w = Answered s -> ~ 200 <= s < 300 -> s <> 404 -> s <> 426 ->
             fst (verify_container tenant w) = Ok false) /\
  (probe w = Answered 500 -> fst (verify_container tenant w) = Ok false) /\
  (forall reason, probe w = Unreachable reason ->
                  fst (verify_container tenant w) = Ok false).
Proof.
  intros He Hne.
  destruct (verify_container_spec tenant w) as (evs & Hv & _ & _ & _ & Hin).
  rewrite Hv, (liveness_passes tenant url _ He Hne). cbn [fst snd trace].
  split; [apply in_or_app; left; now apply Hin|].
  split; [|split; [|split; [|split]]].
  - intros s -> Hs. cbn [probe_passes].
    destruct (Z.leb_spec 200 s); [|lia]. destruct (Z.ltb_spec s 300); [|lia]. reflexivity.
  - intros s -> [->| ->]; reflexivity.
  - intros s -> Hs H404 H426. cbn [probe_passes].
    destruct (Z.eqb_spec s 404); [lia|]. destruct (Z.eqb_spec s 426); [lia|].
    destruct (Z.leb_spec 200 s); [|reflexivity].
    destruct (Z.ltb_spec s 300); [lia|reflexivity].
  - intros ->. reflexivity.
  - intros reason ->. reflexivity.
Qed.

Lemma verify_container_probe_policy_witness :
  In (Probed "http://localhost:18789/")
     (trace (snd (verify_container demo_active (boot 59 stuck demo_docker (Answered 426))))) /\
  fst (verify_container demo_active (boot 59 stuck demo_docker (Answered 426))) = Ok true.
Proof.
  pose proof (verify_container_probe_policy demo_active "http://localhost:18789"
                (boot 59 stuck demo_docker (Answered 426)) eq_refl) as H.
  assert (Hne : "http://localhost:18789" <> EmptyString) by discriminate.
  destruct (H Hne) as (Hin & _ & H4 & _).
  split; [exact Hin|].
  apply (H4 426); [reflexivity|right; reflexivity].
Defined.

(** C8: the docker process-list check inside [verify_container] is
    best-effort.  It never raises and prints exactly one line: the matching
    entry, or a warning when the command fails (not installed, non-zero
    exit, timeout) and when no entry contains the first 8 characters of the
    tenant id.  What [verify_container] returns is the same whatever the
    docker command does. *)
Theorem docker_check_is_best_effort :
  (forall tenant w what,
      docker w = Unavailable what ->
      docker_check tenant w =
      (Ok tt, record (Printed [Lit "   WARNING: Could not check docker: ";
                               Exc (OtherException what)])
                (record DockerPs w))) /\
  (forall tenant w output tid prefix,
      docker w = Listing output ->
      getitem tenant "id" = Ok tid -> slice_to 8 tid = Ok prefix ->
      first_match prefix (split_lines (strip output)) = Ok None ->
      docker_check tenant w =
      (Ok tt, record (Printed [Lit "   WARNING: Container not found in docker ps"])
                (record DockerPs w))) /\
  (forall tenant w,
      exists line,
        docker_check tenant w = (Ok tt, record (Printed line) (record DockerPs w)) /\
        (is_warning line = true \/ exists entry, line = [Lit "   Docker: "; Lit entry])) /\
  (forall tenant w d d',
      fst (verify_container tenant (set_docker d w)) =
      fst (verify_container tenant (set_docker d' w))).
Proof.
  split; [|split; [|split]].
  - intros tenant w what H. unfold docker_check, try_except, docker_ps, bind.
    rewrite H. reflexivity.
  - intros tenant w output tid prefix H Hid Hp Hm.
    unfold docker_check, try_except, docker_ps, bind, lift.
    rewrite H, Hid, Hp, Hm. reflexivity.
  - apply docker_check_total.
  - intros tenant w d d'.
    destruct (verify_container_spec tenant (set_docker d w)) as (e1 & H1 & _).
    destruct (verify_container_spec tenant (set_docker d' w)) as (e2 & H2 & _).
    now rewrite H1, H2.
Qed.

(** C10: for a tenant record without a container endpoint ([config]
    missing, [containerEndpoint] missing, or the empty string),
    [verify_container] prints its error and returns [False] at once, with no
    docker inspection and no HTTP probe; and when the poller returns such a
    record with status "active", the process reports the failed container
    verification and exits with code 1. *)
Theorem missing_endpoint_is_a_hard_failure :
  (forall tenant w,
      no_endpoint tenant ->
      verify_container tenant w =
      (Ok false,
       record (Printed [Lit "   ERROR: No container endpoint in tenant config"])
         (record (Printed [Lit "4. Verifying container..."]) w))) /\
  (forall a now b d p token tid k tenant,
      logs_in now b token -> creates_tenant b tid -> polls_until b k tenant ->
      eq_str (status_of tenant) "active" = true ->
      no_endpoint tenant ->
      exists out,
        run a (boot now b d p) = (1, out) /\
        existsb touches_container out = false /\
        last out (Printed []) = Printed container_verdict /\
        fetches out = (k + 4)%nat).
Proof.
  assert (E : forall tenant, no_endpoint tenant ->
              exists v, endpoint_of tenant = Ok v /\ truthy v = false).
  { intros tenant (dd & -> & H). unfold endpoint_of. cbn [get].
    destruct H as [H|[(c & H & Hc)|(c & H & Hc)]]; rewrite H; cbn [res_bind get lookup].
    - now exists (JStr EmptyString).
    - rewrite Hc. now exists (JStr EmptyString).
    - rewrite Hc. now exists (JStr EmptyString). }
  split.
  - intros tenant w Hno. destruct (E tenant Hno) as (v & Hv & Htr).
    unfold endpoint_of in Hv.
    unfold verify_container. unfold bind at 1. unfold print at 1.
    unfold bind at 1. unfold lift at 1.
    destruct (get tenant "config" (JDict [])) as [config|]; [|discriminate Hv].
    cbn [res_bind] in Hv. unfold bind at 1. unfold lift at 1. rewrite Hv, Htr.
    reflexivity.
  - intros a now b d p token tid k tenant Hlog Hcr Hpoll Hact Hno.
    destruct (E tenant Hno) as (v & Hv & Htr).
    destruct (main_polled a now b d p token tid k tenant Hlog Hcr Hpoll)
      as (evs & Hq & Hf & Hmain).
    destruct Hpoll as (_ & _ & _ & Hrec & _).
    match type of Hmain with _ = try_except _ _ ?w3 =>
      destruct (conclude_container_failed a token tid tenant w3 Hrec Hact) as
        (e2 & Hc & Hf2 & _ & Hq2) end.
    { unfold liveness_result. rewrite Hv. cbn [res_bind]. now rewrite Htr. }
    rewrite (try_except_passed _ _ _ _ _ Hc eq_refl) in Hmain.
    unfold run. rewrite Hmain. cbn [exit_code trace].
    eexists. split; [reflexivity|]. split; [|split].
    + replace (existsb touches_container
                 (rev (Printed container_verdict :: e2 ++ Printed (closing_banner tenant) :: evs)))
        with (negb (forallb (fun e => negb (touches_container e))
                      (rev (Printed container_verdict :: e2 ++ Printed (closing_banner tenant) :: evs)))).
      2:{ generalize (rev (Printed container_verdict :: e2 ++ Printed (closing_banner tenant) :: evs)).
          intros l. induction l as [|x l IH]; [reflexivity|].
          cbn [forallb existsb]. rewrite <- IH. now destruct (touches_container x), (forallb _ l). }
      assert (Q : forall l, forallb quiet l = true ->
                            forallb (fun e => negb (touches_container e)) l = true).
      { intros l. induction l as [|x l IH]; [reflexivity|].
        cbn [forallb]. intros H. apply andb_prop in H. destruct H as [Hx Hl].
        rewrite (IH Hl). unfold quiet in Hx. destruct (banner_of x); [discriminate|].
        now rewrite Hx. }
      cbn [rev]. rewrite rev_app_distr. cbn [rev]. rewrite !forallb_app. cbn [forallb].
      rewrite (Q (rev evs)) by now rewrite quiet_rev.
      rewrite (Q (rev e2)) by (rewrite quiet_rev; now apply (Hq2 v)).
      unfold closing_banner. rewrite Hact. reflexivity.
    + cbn [rev]. apply last_last.
    + cbn [rev]. rewrite rev_app_distr. cbn [rev]. rewrite !fetches_app, !fetches_rev, Hf, Hf2.
      cbn. lia.
Qed.

Lemma docker_check_is_best_effort_witness :
  docker_check demo_active (world_at 59) =
  (Ok tt, record (Printed [Lit "   WARNING: Could not check docker: ";
                           Exc (OtherException "docker: command not found")])
            (record DockerPs (world_at 59))).
Proof.
  apply (proj1 docker_check_is_best_effort demo_active (world_at 59)
           "docker: command not found").
  reflexivity.
Defined.

Lemma logs_in_demo polls rest : logs_in 59 (demo_backend polls rest) demo_token.
Proof.
  split; [lia|]. split.
  - now exists (JDict []).
  - exists (JDict [("accessToken", demo_token)]), (JStr "eyJhbGciOiJIUzI1NiJ9").
    repeat split.
Qed.

Lemma creates_tenant_demo polls rest : creates_tenant (demo_backend polls rest) demo_id.
Proof. exists demo_created. split; reflexivity. Qed.

Lemma missing_endpoint_is_a_hard_failure_witness :
  exists out,
    run demo_args
      (boot 59 (demo_backend [Replied demo_provisioning; Replied demo_active_bare] stuck)
         demo_docker (Answered 200)) = (1, out) /\
    existsb touches_container out = false /\
    last out (Printed []) = Printed container_verdict /\
    fetches out = 5%nat.
Proof.
  apply (proj2 missing_endpoint_is_a_hard_failure demo_args 59
           (demo_backend [Replied demo_provisioning; Replied demo_active_bare] stuck)
           demo_docker (Answered 200) demo_token demo_id 1%nat demo_active_bare).
  - split; [lia|]. split.
    + now exists (JDict []).
    + exists (JDict [("accessToken", demo_token)]), (JStr "eyJhbGciOiJIUzI1NiJ9").
      repeat split.
  - exists demo_created. split; reflexivity.
  - split; [lia|]. split; [|repeat split].
    intros j Hj. exists demo_provisioning.
    destruct j as [|j]; [|lia]. repeat split.
  - reflexivity.
  - exists [("id", demo_id); ("status", JStr "active"); ("config", JDict [])].
    split; [reflexivity|]. right. left. exists []. split; reflexivity.
Defined.

(** ** The orchestrator *)

Lemma run_of_main a w r w' :
  main a w = (r, w') -> run a w = (exit_code r, rev (trace w')).
Proof. intros H. unfold run. now rewrite H. Qed.




(** C6, as amended: when login and tenant creation succeed and every poll
    within the budget of 24 leaves the tenant non-terminal ("provisioning"),
    the process exits with code 1 after 27 requests, its last line being
    [FAILED: Provisioning did not complete successfully]: the same line and
    the same exit code as when the poller returns a record with status
    "failed".  [main] has one verdict for every record that is not "active";
    the two outcomes are told apart only by the banner that the poller
    prints just before it, [*** TIMEOUT after 240s ***] against
    [*** PROVISIONING FAILED: reason ***]. *)
Theorem timeout_differs_by_the_poller_banner_only a now b d p token tid :
  logs_in now b token -> creates_tenant b tid -> never_finishes b ->
  (exists out,
      run a (boot now b d p) =
      (1, out ++ [Printed (timeout_line 240); Printed provisioning_verdict]) /\
      banners out = [] /\
      fetches out = 27%nat) /\
  (forall b' k tenant,
      logs_in now b' token -> creates_tenant b' tid -> polls_until b' k tenant ->
      eq_str (status_of tenant) "failed" = true ->
      exists out reason,
        run a (boot now b' d p) =
        (1, out ++ [Printed (failed_line reason); Printed provisioning_verdict]) /\
        banners out = [] /\
        get tenant "provisioningFailedReason" (JStr "unknown") = Ok reason) /\
  (forall tenant w,
      is_record tenant = true -> eq_str (status_of tenant) "active" = false ->
      conclude a token tid tenant w =
      (Raise (SystemExit 1), record (Printed provisioning_verdict) w)).
Proof.
  intros Hlog Hcr Hnever. split; [|split].
  - destruct (main_timed_out a now b d p token tid Hlog Hcr Hnever)
      as (evs & tenant & Hlast & Hq & Hf & Hmain).
    destruct (Hnever 23%nat ltac:(lia)) as (t' & Hb & Hrec & Hterm).
    cbn [Nat.add] in Hb. rewrite Hlast in Hb. injection Hb as <-.
    unfold terminal in Hterm. apply orb_false_elim in Hterm. destruct Hterm as [Hna _].
    rewrite (try_except_passed _ _ _ _ _
               (conclude_not_active a token tid tenant _ Hrec Hna) eq_refl) in Hmain.
    rewrite (run_of_main _ _ _ _ Hmain). cbn [exit_code trace record rev].
    exists (rev evs). split; [now rewrite <- app_assoc|]. split.
    + apply banners_quiet. now rewrite quiet_rev.
    + now rewrite fetches_rev.
  - intros b' k tenant Hlog' Hcr' Hpoll Hfailed.
    destruct (main_polled a now b' d p token tid k tenant Hlog' Hcr' Hpoll)
      as (evs & Hq & Hf & Hmain).
    destruct Hpoll as (_ & _ & _ & Hrec & _).
    assert (Hna : eq_str (status_of tenant) "active" = false).
    { destruct (status_of tenant); try reflexivity. cbn [eq_str] in *.
      apply String.eqb_eq in Hfailed. subst s. reflexivity. }
    rewrite (try_except_passed _ _ _ _ _
               (conclude_not_active a token tid tenant _ Hrec Hna) eq_refl) in Hmain.
    rewrite (run_of_main _ _ _ _ Hmain). cbn [exit_code trace record rev].
    destruct tenant as [| | | | | |dd]; try discriminate Hrec.
    exists (rev evs).
    exists (match lookup "provisioningFailedReason" dd with
            | Some r => r
            | None => JStr "unknown"
            end).
    split; [|split].
    + rewrite <- app_assoc. unfold closing_banner. rewrite Hna. cbn [get app].
      destruct (lookup "provisioningFailedReason" dd); reflexivity.
    + apply banners_quiet. now rewrite quiet_rev.
    + cbn [get]. destruct (lookup "provisioningFailedReason" dd); reflexivity.
  - intros tenant w Hrec Hna. now apply conclude_not_active.
Qed.

Lemma never_finishes_stuck : never_finishes (demo_backend [] stuck).
Proof.
  intros j Hj. exists demo_provisioning. split; [|split; reflexivity].
  unfold demo_backend, scripted. cbn [app nth_error Nat.add].
  destruct j; reflexivity.
Qed.

Lemma timeout_differs_by_the_poller_banner_only_witness :
  exists out,
    run demo_args (boot 59 (demo_backend [] stuck) demo_docker (Answered 200))
    = (1, out ++ [Printed (timeout_line 240); Printed provisioning_verdict]) /\
    banners out = [] /\
    fetches out = 27%nat.
Proof.
  apply (proj1 (timeout_differs_by_the_poller_banner_only demo_args 59 (demo_backend [] stuck)
                  demo_docker (Answered 200) demo_token demo_id
                  (logs_in_demo _ _) (creates_tenant_demo _ _) never_finishes_stuck)).
Defined.

(** C6 as stated fails: the verdict of the orchestrator is the same for a
    timeout and for a failed tenant.  A run whose 24 polls all answer
    "provisioning" and a run whose second poll answers "failed" exit with
    the same code and end with the same line, and [main]'s step after the
    poll gives the same result for the record of a timeout as for a failed
    record. *)
Lemma orchestrator_verdict_is_the_same :
  fst (run demo_args (boot 59 (demo_backend [] stuck) demo_docker (Answered 200)))
  = fst (run demo_args
           (boot 59 (demo_backend [Replied demo_provisioning; Replied demo_failed] stuck)
              demo_docker (Answered 200))) /\
  last (snd (run demo_args (boot 59 (demo_backend [] stuck) demo_docker (Answered 200))))
       (Printed [])
  = last (snd (run demo_args
                 (boot 59 (demo_backend [Replied demo_provisioning; Replied demo_failed] stuck)
                    demo_docker (Answered 200))))
         (Printed []) /\
  conclude demo_args demo_token demo_id demo_provisioning (world_at 59)
  = conclude demo_args demo_token demo_id demo_failed (world_at 59).
Proof. vm_compute. repeat split. Qed.

(** * Further properties *)

(** ** The TOTP generator: errors, shape and case *)

Lemma totp_refines_counter secret key now period :
  Base32.b32decode secret = Ok key ->
  period <> 0 -> 0 <= now / period < 2 ^ 64 ->
  generate_totp_at now secret period = Ok (totp_reference key now period).
Proof.
  intros Hkey Hp Hc.
  unfold generate_totp_at. rewrite Hkey. cbn [res_bind].
  unfold floordiv. destruct (Z.eqb_spec period 0); [contradiction|]. cbn [res_bind].
  rewrite pack_Q_counter by assumption. cbn [res_bind].
  set (h := hmac_sha1 key (counter_bytes (now / period))).
  pose proof (truncation_refines h (hmac_sha1_length _ _) (hmac_sha1_range _ _)) as T.
  destruct (last_byte h) as [last|]; [|discriminate T]. cbn [res_bind] in *.
  destruct (unpack_I _) as [word|]; [|discriminate T]. cbn [res_bind] in *.
  injection T as T. rewrite T. unfold totp_reference. fold h. f_equal.
  apply zfill_str_int. apply Z.mod_pos_bound. lia.
Qed.

Lemma generate_totp_at_cases now secret period :
  generate_totp_at now secret period =
  match Base32.b32decode secret with
  | Raise e => Raise e
  | Ok key =>
      if period =? 0 then Raise ZeroDivisionError
      else if (0 <=? now / period) && (now / period <? 2 ^ 64)
           then Ok (totp_reference key now period)
           else Raise StructError
  end.
Proof.
  destruct (Base32.b32decode secret) as [key|e] eqn:Hkey.
  - destruct (Z.eqb_spec period 0) as [->|Hp].
    + unfold generate_totp_at. rewrite Hkey. reflexivity.
    + destruct ((0 <=? now / period) && (now / period <? 2 ^ 64)) eqn:Hc.
      * apply totp_refines_counter; try assumption.
        apply andb_prop in Hc. destruct Hc as [H0 H1].
        apply Z.leb_le in H0. apply Z.ltb_lt in H1. now split.
      * unfold generate_totp_at. rewrite Hkey. cbn [res_bind].
        unfold floordiv. destruct (Z.eqb_spec period 0); [contradiction|]. cbn [res_bind].
        unfold pack_Q. rewrite Hc. reflexivity.
  - unfold generate_totp_at. rewrite Hkey. reflexivity.
Qed.

(** X1: [generate_totp] fails in exactly three ways and in this order: the
    secret does not decode (the error of [b32decode]), the period is zero
    ([ZeroDivisionError]), the counter does not fit an unsigned 64-bit
    field ([struct.error]); in every other case it returns the RFC code.
    The digest is never too short for the window, and the clock is read
    without any other effect. *)
Theorem generate_totp_outcomes secret period w :
  generate_totp secret period w =
  (match Base32.b32decode secret with
   | Raise e => Raise e
   | Ok key =>
       if period =? 0 then Raise ZeroDivisionError
       else if (0 <=? clock w / period) && (clock w / period <? 2 ^ 64)
            then Ok (totp_reference key (clock w) period)
            else Raise StructError
   end, w).
Proof.
  rewrite generate_totp_run. apply outcome_eq. apply generate_totp_at_cases.
Qed.

Lemma digit_char_is_digit x : is_digit (digit_char (x mod 10)) = true.
Proof.
  assert (H : 0 <= x mod 10 < 10) by (apply Z.mod_pos_bound; lia).
  assert (C : x mod 10 = 0 \/ x mod 10 = 1 \/ x mod 10 = 2 \/ x mod 10 = 3 \/ x mod 10 = 4
              \/ x mod 10 = 5 \/ x mod 10 = 6 \/ x mod 10 = 7 \/ x mod 10 = 8 \/ x mod 10 = 9) by lia.
  repeat (destruct C as [C|C]; [rewrite C; reflexivity|]).
  rewrite C; reflexivity.
Qed.

(** X2: whenever [generate_totp] returns, for any secret, clock and period,
    the code is a string of exactly six decimal digits. *)
Theorem generate_totp_six_decimal_digits secret period w code :
  fst (generate_totp secret period w) = Ok code ->
  String.length code = 6%nat /\ string_forallb is_digit code = true.
Proof.
  rewrite generate_totp_run, generate_totp_at_cases. cbn [fst].
  destruct (Base32.b32decode secret) as [key|]; [|discriminate].
  destruct (period =? 0); [discriminate|].
  destruct ((0 <=? clock w / period) && (clock w / period <? 2 ^ 64)); [|discriminate].
  intros [= <-]. unfold totp_reference, six_digits. split; [reflexivity|].
  cbn [string_forallb]. rewrite !digit_char_is_digit. reflexivity.
Qed.

Lemma generate_totp_six_decimal_digits_witness :
  String.length "287082" = 6%nat /\ string_forallb is_digit "287082" = true.
Proof.
  apply (generate_totp_six_decimal_digits RFC_SECRET_B32 30 (world_at 59) "287082").
  vm_compute. reflexivity.
Defined.

Lemma lower_char_folds c :
  Base32.upper (byte_of (lower_char c)) = Base32.upper (byte_of c) /\
  (128 <=? byte_of (lower_char c)) = (128 <=? byte_of c).
Proof.
  destruct c as [[] [] [] [] [] [] [] []]; vm_compute; split; reflexivity.
Qed.

Lemma bytes_of_lower s :
  map Base32.upper (bytes_of_string (lower s)) = map Base32.upper (bytes_of_string s) /\
  existsb (fun c => 128 <=? c) (bytes_of_string (lower s))
  = existsb (fun c => 128 <=? c) (bytes_of_string s) /\
  List.length (bytes_of_string (lower s)) = List.length (bytes_of_string s).
Proof.
  unfold bytes_of_string.
  induction s as [|c s (IH1 & IH2 & IH3)]; [repeat split|].
  cbn [lower list_ascii_of_string map existsb List.length].
  destruct (lower_char_folds c) as [Hu Hb]. unfold byte_of in *.
  rewrite Hu, Hb, IH1, IH2, IH3. repeat split.
Qed.

(** X3: the secret is case-insensitive ([casefold=True]): lower-casing it
    changes neither the code nor the error. *)
Theorem generate_totp_ignores_case secret period w :
  generate_totp (lower secret) period w = generate_totp secret period w.
Proof.
  rewrite !generate_totp_run. apply outcome_eq.
  unfold generate_totp_at.
  replace (Base32.b32decode (lower secret)) with (Base32.b32decode secret); [reflexivity|].
  unfold Base32.b32decode.
  destruct (bytes_of_lower secret) as (Hu & Hb & Hl).
  rewrite Hb, Hl, Hu. reflexivity.
Qed.

(** ** [api_call], [authenticate], [create_tenant] *)

Lemma more_some c rest cs :
  more c rest = Some cs -> exists cs', rest = Some cs' /\ cs = c :: cs'.
Proof. destruct rest as [cs'|]; [|discriminate]. intros [= <-]. now exists cs'. Qed.

Lemma utf8_chars_join_upto n : forall s chars,
  (String.length s <= n)%nat -> utf8_chars s = Some chars -> join chars = s.
Proof.
  induction n as [|n IH]; intros s chars Hn H.
  - destruct s; [|cbn in Hn; lia]. injection H as <-. reflexivity.
  - destruct s as [|a s1]; [injection H as <-; reflexivity|].
    cbn [String.length] in Hn. cbn [utf8_chars] in H.
    destruct (in_range 0 127 a).
    { apply more_some in H. destruct H as (cs & H & ->). cbn [join append].
      f_equal. apply IH; [lia|exact H]. }
    destruct s1 as [|b s2]; [discriminate|]. cbn [String.length] in Hn.
    destruct (in_range 194 223 a).
    { destruct (continuation b); [|discriminate].
      apply more_some in H. destruct H as (cs & H & ->). cbn [join append].
      do 2 f_equal. apply IH; [lia|exact H]. }
    destruct s2 as [|c s3]; [discriminate|]. cbn [String.length] in Hn.
    destruct (in_range 224 239 a).
    { destruct (lead3 a b && continuation c); [|discriminate].
      apply more_some in H. destruct H as (cs & H & ->). cbn [join append].
      do 3 f_equal. apply IH; [lia|exact H]. }
    destruct s3 as [|d s4]; [discriminate|]. cbn [String.length] in Hn.
    destruct (lead4 a b && continuation c && continuation d); [|discriminate].
    apply more_some in H. destruct H as (cs & H & ->). cbn [join append].
    do 4 f_equal. apply IH; [lia|exact H].
Qed.

Lemma utf8_chars_join s chars : utf8_chars s = Some chars -> join chars = s.
Proof. apply (utf8_chars_join_upto (String.length s)). lia. Qed.

(** X4: [api_call] makes exactly one request.  A 2xx answer is returned
    and nothing is printed.  An [HTTPError] whose body is valid UTF-8 is
    printed once, with the first 300 characters of the body, and raised
    again unchanged.  An [HTTPError] whose body is not valid UTF-8 is
    masked: the [UnicodeDecodeError] of the handler leaves [api_call]
    instead and nothing is printed.  Any other exception passes through
    unprinted. *)
Theorem api_call_outcomes url method data token w :
  let sent_w := mkWorld (clock w) (backend w) (docker w) (probe w) (S (sent w))
                        (Requested method url (present data) (present token) :: trace w) in
  match backend w (sent w) with
  | Replied v => api_call url method data token w = (Ok v, sent_w)
  | Failed (HTTPError code body) =>
      match utf8_chars body with
      | Some chars =>
          join chars = body /\
          api_call url method data token w =
          (Raise (HTTPError code body),
           record (Printed [Lit "  HTTP "; Lit (str_int code); Lit ": ";
                            Lit (join (firstn 300 chars))]) sent_w)
      | None => api_call url method data token w = (Raise UnicodeDecodeError, sent_w)
      end
  | Failed e => api_call url method data token w = (Raise e, sent_w)
  end.
Proof.
  unfold api_call, try_except_HTTPError, urlopen_json.
  destruct (backend w (sent w)) as [v|e]; [reflexivity|].
  destruct e; try reflexivity.
  unfold bind, lift, decode.
  destruct (utf8_chars body) as [chars|] eqn:Hd; [|reflexivity].
  split; [exact (utf8_chars_join _ _ Hd)|reflexivity].
Qed.



(** X6: [authenticate] fails fast.  When the password login raises, what
    leaves [api_call] leaves [authenticate]: no code is generated and no
    second request is made; when the MFA step raises, exactly two requests
    were made; when the MFA answer has no [accessToken], [KeyError] is
    raised.  No step is retried. *)
Theorem authenticate_fails_fast base w :
  (forall e, backend w (sent w) = Failed e ->
     exists w', authenticate base w = (Raise (api_error e), w') /\
                sent w' = S (sent w) /\ fetches (trace w') = S (fetches (trace w))) /\
  (forall r0 e, 0 <= clock w < 30 * 2 ^ 64 ->
     backend w (sent w) = Replied r0 -> backend w (S (sent w)) = Failed e ->
     exists w', authenticate base w = (Raise (api_error e), w') /\
                sent w' = S (S (sent w)) /\ fetches (trace w') = S (S (fetches (trace w)))) /\
  (forall r0 d, 0 <= clock w < 30 * 2 ^ 64 ->
     backend w (sent w) = Replied r0 -> backend w (S (sent w)) = Replied (JDict d) ->
     lookup "accessToken" d = None ->
     exists w', authenticate base w = (Raise (KeyError "accessToken"), w') /\
                sent w' = S (S (sent w))).
Proof.
  split; [|split].
  - intros e He. unfold authenticate.
    unfold bind at 1. unfold print at 1.
    match goal with |- context [bind (api_call ?u ?m ?dt ?tk) _ ?w1] =>
      destruct (api_call_failed u m dt tk w1 e He) as (evs & Hcall & Hf & Hq);
      rewrite (bind_raise _ _ _ _ _ Hcall) end.
    eexists. split; [reflexivity|]. cbn [sent trace record]. split; [reflexivity|].
    change (evs ++ Printed [Lit "1. Authenticating as platform admin..."] :: trace w)
      with (evs ++ [Printed [Lit "1. Authenticating as platform admin..."]] ++ trace w).
    rewrite !fetches_app, Hf. reflexivity.
  - intros r0 e Hc H0 He.
    destruct (mfa_code_exists (clock w) Hc) as (code & Hcode).
    unfold authenticate, generate_totp.
    unfold bind at 1. unfold print at 1. unfold bind at 1.
    erewrite api_call_replied by exact H0.
    unfold bind at 1. unfold bind at 1. unfold time_time at 1. unfold lift at 1.
    cbn [record clock backend docker probe sent trace]. rewrite Hcode.
    match goal with |- context [bind (api_call ?u ?m ?dt ?tk) _ ?w1] =>
      destruct (api_call_failed u m dt tk w1 e He) as (evs & Hcall & Hf & Hq);
      rewrite (bind_raise _ _ _ _ _ Hcall) end.
    eexists. split; [reflexivity|]. cbn [sent trace record]. split; [reflexivity|].
    match goal with |- fetches (evs ++ ?a :: ?b :: trace w) = _ =>
      change (evs ++ a :: b :: trace w) with (evs ++ [a; b] ++ trace w) end.
    rewrite !fetches_app, Hf. reflexivity.
  - intros r0 d Hc H0 H1 Hno.
    destruct (mfa_code_exists (clock w) Hc) as (code & Hcode).
    unfold authenticate, generate_totp. unfold bind, print, time_time, lift, ret.
    erewrite api_call_replied by exact H0.
    cbn [record clock backend docker probe sent trace]. rewrite Hcode.
    erewrite api_call_replied by exact H1.
    cbn [getitem]. rewrite Hno.
    eexists. split; reflexivity.
Qed.

Lemma authenticate_fails_fast_witness :
  exists w',
    authenticate DEFAULT_BASE_URL (world_at 59) = (Raise (URLError "connection refused"), w') /\
    sent w' = 1%nat /\ fetches (trace w') = 1%nat.
Proof.
  apply (proj1 (authenticate_fails_fast DEFAULT_BASE_URL (world_at 59))
           (URLError "connection refused")).
  reflexivity.
Defined.

Lemma remove_spaces_lower_clean name :
  string_forallb (fun c => negb (Ascii.eqb c " ") && negb (is_upper c))
                 (remove_spaces (lower name)) = true.
Proof.
  induction name as [|c name IH]; [reflexivity|].
  cbn [lower remove_spaces].
  destruct (Ascii.eqb (lower_char c) " ") eqn:Hsp; [exact IH|].
  cbn [string_forallb]. rewrite Hsp, IH. cbn [negb andb].
  rewrite andb_true_r.
  destruct c as [[] [] [] [] [] [] [] []]; reflexivity.
Qed.

(** X7: [create_tenant] sends one POST carrying the session token, with the
    company name as given, the fixed plan and resource limits, and an admin
    address [admin@<name>.test] whose middle part is the name with no space
    and no upper-case ASCII letter left; this whatever the backend answers. *)
Theorem create_tenant_request base token name w :
  exists domain,
    In (Requested "POST" [Lit base; Lit "/api/admin/tenants"]
          (Some (tenant_request name ("admin@" ++ domain ++ ".test")))
          (present token))
       (trace (snd (create_tenant base token name w))) /\
    string_forallb (fun c => negb (Ascii.eqb c " ") && negb (is_upper c)) domain = true /\
    sent (snd (create_tenant base token name w)) = S (sent w).
Proof.
  exists (remove_spaces (lower name)).
  split; [|split; [apply remove_spaces_lower_clean|]].
  - unfold create_tenant. unfold bind at 1. unfold print at 1. unfold bind at 1.
    unfold api_call, try_except_HTTPError, urlopen_json.
    cbn [record clock backend docker probe sent trace].
    destruct (backend w (sent w)) as [r|e].
    + unfold bind, lift, print, ret, record.
      destruct (getitem r "id"); [|cbn; now left].
      destruct (get r "status" (JStr "?")); cbn; auto.
    + destruct e; try (cbn; auto; fail).
      unfold bind, lift, decode. destruct (utf8_chars body); cbn; auto.
  - unfold create_tenant. unfold bind at 1. unfold print at 1. unfold bind at 1.
    unfold api_call, try_except_HTTPError, urlopen_json.
    cbn [record clock backend docker probe sent trace].
    destruct (backend w (sent w)) as [r|e].
    + unfold bind, lift, print, ret, record.
      destruct (getitem r "id"); [|reflexivity].
      destruct (get r "status" (JStr "?")); reflexivity.
    + destruct e; try reflexivity.
      unfold bind, lift, decode. destruct (utf8_chars body); reflexivity.
Qed.

(** ** The poller against any backend *)

Lemma poll_once_failed base token tid i last w e :
  backend w (sent w) = Failed e ->
  exists evs,
    poll_once base token tid 10 i last w =
    (Raise (api_error e),
     mkWorld (clock w + 10) (backend w) (docker w) (probe w) (S (sent w))
       (evs ++ Requested "GET" (tenant_url base tid) None (present token)
        :: Slept 10 :: trace w)) /\
    (evs = [] \/ exists line, evs = [Printed line] /\ quiet (Printed line) = true).
Proof.
  intros Hb. unfold poll_once. unfold bind at 1. unfold sleep at 1.
  unfold bind at 1. unfold api_call, try_except_HTTPError, urlopen_json.
  cbn [clock backend docker probe sent trace]. rewrite Hb.
  destruct e; try (exists []; split; [reflexivity|now left]).
  unfold bind, lift, decode, api_error.
  destruct (utf8_chars body); [|exists []; split; [reflexivity|now left]].
  eexists [_]. split; [reflexivity|]. right. eexists. split; reflexivity.
Qed.

Lemma poll_once_not_a_record base token tid i last w t :
  backend w (sent w) = Replied t -> is_record t = false ->
  poll_once base token tid 10 i last w =
  (Raise AttributeError,
   mkWorld (clock w + 10) (backend w) (docker w) (probe w) (S (sent w))
     (Requested "GET" (tenant_url base tid) None (present token)
      :: Slept 10 :: trace w)).
Proof.
  intros Hb Hr. unfold poll_once, bind, sleep, lift.
  erewrite api_call_replied by exact Hb.
  destruct t; try reflexivity. discriminate Hr.
Qed.

(** One turn of the loop, whatever the backend does. *)
Lemma poll_once_any base token tid i last w :
  exists evs r,
    poll_once base token tid 10 i last w =
    (r, mkWorld (clock w + 10) (backend w) (docker w) (probe w) (S (sent w))
          (evs ++ Requested "GET" (tenant_url base tid) None (present token)
           :: Slept 10 :: trace w)) /\
    Forall (fun e => exists line, e = Printed line) evs /\
    match r with
    | Ok (inl t) =>
        backend w (sent w) = Replied t /\ is_record t = true /\ terminal t = true
    | Ok (inr x) =>
        exists t, x = Some t /\ pending (backend w (sent w)) /\
                  backend w (sent w) = Replied t
    | Raise e =>
        (exists e0, backend w (sent w) = Failed e0 /\ e = api_error e0) \/
        exists t, backend w (sent w) = Replied t /\ is_record t = false /\
                  e = AttributeError
    end.
Proof.
  destruct (backend w (sent w)) as [t|e] eqn:Hb.
  - destruct (is_record t) eqn:Hr.
    + destruct (terminal t) eqn:Ht.
      * destruct (poll_once_terminal base token tid i last w t Hb Hr Ht) as (line & _ & H).
        eexists [_; _], _. split; [exact H|]. split; [|auto].
        repeat constructor; eexists; reflexivity.
      * destruct (poll_once_pending base token tid i last w t Hb Hr Ht) as (line & _ & H).
        eexists [_], _. split; [exact H|]. split.
        -- repeat constructor; eexists; reflexivity.
        -- exists t. split; [reflexivity|]. split; [|reflexivity].
           exists t. auto.
    + exists [], (@Raise (json + option json) AttributeError).
      split; [exact (poll_once_not_a_record base token tid i last w t Hb Hr)|]. split; [constructor|].
      right. exists t. auto.
  - destruct (poll_once_failed base token tid i last w e Hb) as (evs & H & Hevs).
    exists evs, (@Raise (json + option json) (api_error e)).
    split; [exact H|]. split; [|left; now exists e].
    destruct Hevs as [->|(line & -> & _)]; repeat constructor. now exists line.
Qed.

Lemma printed_is_poll_event base token tid evs :
  Forall (fun e => exists line, e = Printed line) evs ->
  Forall (poll_event base token tid) evs /\ fetches evs = 0%nat.
Proof.
  induction 1 as [|e evs (line & ->) _ (IH1 & IH2)]; [split; [constructor|reflexivity]|].
  split; [constructor; [exact I|exact IH1]|exact IH2].
Qed.

(** The loop, whatever the backend does: it stops after [k] turns, [k]
    within the range, all but the last of which met a waiting record. *)
Lemma loop_any base token tid :
  forall n i last w,
  exists k evs r,
    for_range n i (poll_once base token tid 10) last w =
    (r, mkWorld (clock w + 10 * Z.of_nat k) (backend w) (docker w) (probe w)
          (k + sent w) (evs ++ trace w)) /\
    (k <= n)%nat /\ fetches evs = k /\ Forall (poll_event base token tid) evs /\
    (forall j, (S j < k)%nat -> pending (backend w (j + sent w))) /\
    match r with
    | Ok (inl t) =>
        exists m, k = S m /\ backend w (m + sent w) = Replied t /\
                  is_record t = true /\ terminal t = true
    | Ok (inr x) =>
        k = n /\
        match n with
        | O => x = last
        | S m => exists t, x = Some t /\ pending (backend w (m + sent w)) /\
                           backend w (m + sent w) = Replied t
        end
    | Raise e =>
        exists m, k = S m /\
          ((exists e0, backend w (m + sent w) = Failed e0 /\ e = api_error e0) \/
           exists t, backend w (m + sent w) = Replied t /\ is_record t = false /\
                     e = AttributeError)
    end.
Proof.
  induction n as [|n IH]; intros i last w.
  - exists 0%nat, [], (@Ok (json + option json) (inr last)). cbn [for_range app]. unfold ret.
    split; [|split; [lia|split; [reflexivity|split; [constructor|split; [intros; lia|auto]]]]].
    destruct w as [c b d p s tr]; cbn [clock backend docker probe sent trace Nat.add].
    apply result_eq, world_eq; [lia|reflexivity|reflexivity].
  - destruct (poll_once_any base token tid i last w) as (e1 & r1 & H1 & Hp1 & Hr1).
    destruct (printed_is_poll_event base token tid e1 Hp1) as (Hpe1 & Hf1).
    assert (Hev1 : Forall (poll_event base token tid)
                     (e1 ++ [Requested "GET" (tenant_url base tid) None (present token);
                             Slept 10])).
    { apply Forall_app. split; [exact Hpe1|]. repeat constructor. }
    assert (Hfe1 : fetches (e1 ++ [Requested "GET" (tenant_url base tid) None (present token);
                                   Slept 10]) = 1%nat).
    { rewrite fetches_app, Hf1. reflexivity. }
    cbn [for_range]. unfold bind at 1. rewrite H1.
    destruct r1 as [[t|x]|e].
    + exists 1%nat, (e1 ++ [Requested "GET" (tenant_url base tid) None (present token);
                            Slept 10]), (@Ok (json + option json) (inl t)).
      unfold ret. split; [|split; [lia|split; [exact Hfe1|split; [exact Hev1|split]]]].
      * apply result_eq, world_eq; [lia|reflexivity|now rewrite <- app_assoc].
      * intros j Hj. lia.
      * exists 0%nat. cbn [Nat.add]. auto.
    + destruct Hr1 as (t & -> & Hpend & Hb).
      match goal with |- context [for_range n _ _ _ ?w1] => set (w1' := w1) end.
      destruct (IH (i + 1) (Some t) w1') as (k & evs & r & Hrun & Hk & Hf & Hev & Hbefore & Hr).
      exists (S k), (evs ++ e1 ++ [Requested "GET" (tenant_url base tid) None (present token);
                                   Slept 10]), r.
      rewrite Hrun. subst w1'. cbn [clock backend docker probe sent trace] in *.
      split; [|split; [lia|split; [|split; [|split]]]].
      * apply result_eq, world_eq; [lia|lia|now rewrite <- !app_assoc].
      * rewrite fetches_app, Hf, Hfe1. lia.
      * apply Forall_app. split; assumption.
      * intros j Hj. destruct j as [|j]; [exact Hpend|].
        specialize (Hbefore j ltac:(lia)). now rewrite Nat.add_succ_r in Hbefore.
      * destruct r as [[t'|x]|e].
        -- destruct Hr as (m & -> & Hbm & Hrm & Htm). exists (S m).
           rewrite Nat.add_succ_r in Hbm. auto.
        -- destruct Hr as (-> & Hn). split; [reflexivity|].
           destruct n as [|m].
           ++ subst x. exists t. auto.
           ++ destruct Hn as (t' & -> & Hpm & Hbm). exists t'.
              rewrite Nat.add_succ_r in Hpm, Hbm. auto.
        -- destruct Hr as (m & -> & Hm). exists (S m). split; [reflexivity|].
           rewrite Nat.add_succ_r in Hm. exact Hm.
    + exists 1%nat, (e1 ++ [Requested "GET" (tenant_url base tid) None (present token);
                            Slept 10]), (@Raise (json + option json) e).
      split; [|split; [lia|split; [exact Hfe1|split; [exact Hev1|split]]]].
      * apply result_eq, world_eq; [lia|reflexivity|now rewrite <- app_assoc].
      * intros j Hj. lia.
      * exists 0%nat. cbn [Nat.add]. auto.
Qed.

(** [poll_provisioning], whatever the backend does. *)
Lemma poll_provisioning_any base token tid timeout w :
  exists k evs r,
    poll_provisioning base token tid timeout w =
    (r, mkWorld (clock w + 10 * Z.of_nat k) (backend w) (docker w) (probe w)
          (k + sent w) (evs ++ trace w)) /\
    (k <= Z.to_nat (timeout / 10))%nat /\ fetches evs = k /\
    Forall (poll_event base token tid) evs /\
    (forall j, (S j < k)%nat -> pending (backend w (j + sent w))) /\
    match r with
    | Ok t =>
        exists m, k = S m /\ backend w (m + sent w) = Replied t /\ is_record t = true /\
                  (terminal t = true \/
                   terminal t = false /\ k = Z.to_nat (timeout / 10))
    | Raise e =>
        (k = 0%nat /\ Z.to_nat (timeout / 10) = 0%nat /\ e = UnboundLocalError "t") \/
        exists m, k = S m /\
          ((exists e0, backend w (m + sent w) = Failed e0 /\ e = api_error e0) \/
           exists t, backend w (m + sent w) = Replied t /\ is_record t = false /\
                     e = AttributeError)
    end.
Proof.
  unfold poll_provisioning. unfold bind at 1. unfold print at 1.
  destruct (loop_any base token tid (Z.to_nat (timeout / 10)) 0 None
              (record (Printed [Lit "3. Polling provisioning status..."]) w))
    as (k & evs & r & Hrun & Hk & Hf & Hev & Hbefore & Hr).
  unfold bind at 1. rewrite Hrun.
  unfold record in *. cbn [clock backend docker probe sent trace] in *.
  destruct r as [[t|x]|e].
  - destruct Hr as (m & -> & Hb & Hrec & Hterm).
    exists (S m), (evs ++ [Printed [Lit "3. Polling provisioning status..."]]), (@Ok json t).
    unfold ret. split; [|split; [exact Hk|split; [|split; [|split; [exact Hbefore|]]]]].
    + apply result_eq, world_eq; [reflexivity|reflexivity|now rewrite <- app_assoc].
    + rewrite fetches_app, Hf. cbn. lia.
    + apply Forall_app. split; [exact Hev|]. repeat constructor.
    + exists m. repeat split; auto.
  - destruct Hr as (-> & Hn). unfold bind, print, record.
    cbn [clock backend docker probe sent trace].
    destruct (Z.to_nat (timeout / 10)) as [|m] eqn:En.
    + subst x.
      exists 0%nat, (Printed (timeout_line timeout) :: evs
                     ++ [Printed [Lit "3. Polling provisioning status..."]]),
             (@Raise json (UnboundLocalError "t")).
      unfold raise. split; [|split; [lia|split; [|split; [|split; [exact Hbefore|]]]]].
      * apply result_eq, world_eq; [reflexivity|reflexivity|].
        cbn [app]. now rewrite <- app_assoc.
      * change (Printed (timeout_line timeout) :: evs ++ [Printed [Lit "3. Polling provisioning status..."]])
          with ([Printed (timeout_line timeout)] ++ evs ++ [Printed [Lit "3. Polling provisioning status..."]]).
        rewrite !fetches_app, Hf. reflexivity.
      * constructor; [exact I|]. apply Forall_app. split; [exact Hev|]. repeat constructor.
      * left. repeat split; auto.
    + destruct Hn as (t & -> & Hpend & Hb).
      exists (S m), (Printed (timeout_line timeout) :: evs
                     ++ [Printed [Lit "3. Polling provisioning status..."]]), (@Ok json t).
      unfold ret. split; [|split; [lia|split; [|split; [|split; [exact Hbefore|]]]]].
      * apply result_eq, world_eq; [reflexivity|reflexivity|].
        cbn [app]. now rewrite <- app_assoc.
      * change (Printed (timeout_line timeout) :: evs ++ [Printed [Lit "3. Polling provisioning status..."]])
          with ([Printed (timeout_line timeout)] ++ evs ++ [Printed [Lit "3. Polling provisioning status..."]]).
        rewrite !fetches_app, Hf. cbn. lia.
      * constructor; [exact I|]. apply Forall_app. split; [exact Hev|]. repeat constructor.
      * exists m. destruct Hpend as (t' & Hb' & Hrec & Hterm).
        rewrite Hb in Hb'. injection Hb' as <-. repeat split; auto.
  - destruct Hr as (m & -> & Hm).
    exists (S m), (evs ++ [Printed [Lit "3. Polling provisioning status..."]]), (@Raise json e).
    split; [|split; [exact Hk|split; [|split; [|split; [exact Hbefore|]]]]].
    + apply result_eq, world_eq; [reflexivity|reflexivity|now rewrite <- app_assoc].
    + rewrite fetches_app, Hf. cbn. lia.
    + apply Forall_app. split; [exact Hev|]. repeat constructor.
    + right. exists m. split; [reflexivity|exact Hm].
Qed.

(** X8: whatever the backend answers, [poll_provisioning] stays within its
    budget: it makes [k <= floor(timeout_secs / 10)] requests (none for a
    negative timeout), sleeps exactly 10 seconds before each, and does
    nothing but print, sleep and GET the tenant's URL with the session
    token and no body.  It never writes to the backend. *)
Theorem poll_provisioning_stays_in_budget base token tid timeout w :
  exists k evs,
    (k <= Z.to_nat (timeout / 10))%nat /\
    sent (snd (poll_provisioning base token tid timeout w)) = (k + sent w)%nat /\
    clock (snd (poll_provisioning base token tid timeout w)) = clock w + 10 * Z.of_nat k /\
    trace (snd (poll_provisioning base token tid timeout w)) = evs ++ trace w /\
    fetches evs = k /\
    Forall (poll_event base token tid) evs.
Proof.
  destruct (poll_provisioning_any base token tid timeout w)
    as (k & evs & r & Hrun & Hk & Hf & Hev & _).
  exists k, evs. rewrite Hrun. cbn [snd sent clock trace]. repeat split; auto.
Qed.

Lemma pending_replied t : pending (Replied t) -> is_record t = true /\ terminal t = false.
Proof. intros (t' & [= <-] & H). exact H. Qed.

Lemma pending_failed e : ~ pending (Failed e).
Proof. intros (t' & H & _). discriminate H. Qed.

(** X9: the poller retries nothing.  If, after [k] waiting polls and within
    the budget, a fetch raises (an HTTP error, a transport failure), then
    what leaves [api_call] leaves [poll_provisioning] at once, after exactly
    [k + 1] requests; if the answer is not a JSON object it raises
    [AttributeError]. *)
Theorem poll_provisioning_aborts_on_error base token tid timeout w k :
  (k < Z.to_nat (timeout / 10))%nat ->
  (forall j, (j < k)%nat -> pending (backend w (j + sent w))) ->
  (forall e, backend w (k + sent w) = Failed e ->
     fst (poll_provisioning base token tid timeout w) = Raise (api_error e) /\
     sent (snd (poll_provisioning base token tid timeout w)) = (S k + sent w)%nat) /\
  (forall t, backend w (k + sent w) = Replied t -> is_record t = false ->
     fst (poll_provisioning base token tid timeout w) = Raise AttributeError /\
     sent (snd (poll_provisioning base token tid timeout w)) = (S k + sent w)%nat).
Proof.
  intros Hk Hp.
  destruct (poll_provisioning_any base token tid timeout w)
    as (k' & evs & r & Hrun & Hk' & Hf & Hev & Hbefore & Hr).
  rewrite Hrun. cbn [fst snd sent].
  assert (Stop : forall o, backend w (k + sent w) = o ->
                 (forall t, o = Replied t -> is_record t = false) ->
                 exists m, k' = S m /\ m = k /\
                   match r with
                   | Ok _ => False
                   | Raise e => (exists e0, o = Failed e0 /\ e = api_error e0) \/
                                exists t, o = Replied t /\ is_record t = false /\
                                          e = AttributeError
                   end).
  { intros o Ho Hrecs.
    assert (Hno : ~ pending o).
    { intros (t & -> & Hrec & _). rewrite (Hrecs t eq_refl) in Hrec. discriminate. }
    assert (Hlast : forall m, k' = S m ->
              ~ pending (backend w (m + sent w)) -> m = k).
    { intros m -> Hnp.
      destruct (Nat.lt_trichotomy m k) as [Hlt|[Heq|Hgt]]; [|exact Heq|].
      - destruct Hnp. now apply Hp.
      - destruct Hno. rewrite <- Ho. apply Hbefore. lia. }
    destruct r as [t|e].
    - exfalso. destruct Hr as (m & -> & Hb & Hrec & [Hterm|(Hterm & Hbud)]).
      + assert (m = k).
        { apply Hlast; [reflexivity|]. rewrite Hb. intros Hpd.
          apply pending_replied in Hpd. destruct Hpd. congruence. }
        subst m. rewrite Ho in Hb. rewrite (Hrecs t Hb) in Hrec. discriminate.
      + apply Hno. rewrite <- Ho.
        destruct (Nat.eq_dec m k) as [->|Hne].
        * rewrite Hb. exists t. auto.
        * apply Hbefore. lia.
    - destruct Hr as [(-> & Hz & _)|(m & -> & Hm)]; [lia|].
      assert (m = k).
      { apply Hlast; [reflexivity|].
        destruct Hm as [(e0 & Hb & _)|(t & Hb & Hrec & _)]; rewrite Hb.
        - apply pending_failed.
        - intros Hpd. apply pending_replied in Hpd. destruct Hpd. congruence. }
      subst m. exists k. split; [reflexivity|split; [reflexivity|]].
      rewrite <- Ho. exact Hm. }
  split.
  - intros e He.
    destruct (Stop (Failed e) He ltac:(discriminate)) as (m & -> & -> & Hr').
    destruct r as [t|e']; [contradiction|].
    destruct Hr' as [(e0 & [= <-] & ->)|(t & H & _)]; [auto|discriminate H].
  - intros t Ht Hrec.
    destruct (Stop (Replied t) Ht) as (m & -> & -> & Hr').
    { intros t' [= <-]. exact Hrec. }
    destruct r as [t'|e']; [contradiction|].
    destruct Hr' as [(e0 & H & _)|(t' & _ & _ & ->)]; [discriminate H|auto].
Qed.

Lemma poll_provisioning_aborts_on_error_witness :
  fst (poll_provisioning DEFAULT_BASE_URL demo_token demo_id 240
         (boot 59 (scripted [Replied demo_provisioning;
                             Failed (HTTPError 502 "Bad Gateway")] stuck)
            demo_docker (Answered 200)))
  = Raise (HTTPError 502 "Bad Gateway") /\
  sent (snd (poll_provisioning DEFAULT_BASE_URL demo_token demo_id 240
               (boot 59 (scripted [Replied demo_provisioning;
                                   Failed (HTTPError 502 "Bad Gateway")] stuck)
                  demo_docker (Answered 200)))) = 2%nat.
Proof.
  assert (Hk : (1 < Z.to_nat (240 / 10))%nat) by (vm_compute; lia).
  assert (Hp : forall j, (j < 1)%nat ->
            pending (backend (boot 59 (scripted [Replied demo_provisioning;
                                                 Failed (HTTPError 502 "Bad Gateway")] stuck)
                                demo_docker (Answered 200))
                       (j + sent (boot 59 (scripted [Replied demo_provisioning;
                                                     Failed (HTTPError 502 "Bad Gateway")] stuck)
                                    demo_docker (Answered 200))))).
  { intros j Hj. exists demo_provisioning. destruct j; [repeat split|lia]. }
  exact (proj1 (poll_provisioning_aborts_on_error DEFAULT_BASE_URL demo_token demo_id 240
                  _ 1%nat Hk Hp) (HTTPError 502 "Bad Gateway") eq_refl).
Defined.

(** X10: a record that [poll_provisioning] returns is always one the
    backend sent, within the budget, after only waiting answers; it is a
    JSON object and it is terminal unless it is the answer to the last poll
    of the budget. *)
Theorem poll_provisioning_returns_a_fetched_record base token tid timeout w t :
  fst (poll_provisioning base token tid timeout w) = Ok t ->
  exists m,
    (m < Z.to_nat (timeout / 10))%nat /\
    backend w (m + sent w) = Replied t /\ is_record t = true /\
    (forall j, (j < m)%nat -> pending (backend w (j + sent w))) /\
    (terminal t = true \/ terminal t = false /\ S m = Z.to_nat (timeout / 10)).
Proof.
  destruct (poll_provisioning_any base token tid timeout w)
    as (k & evs & r & Hrun & Hk & Hf & Hev & Hbefore & Hr).
  rewrite Hrun. cbn [fst]. intros ->.
  destruct Hr as (m & -> & Hb & Hrec & Hterm).
  exists m. split; [lia|]. split; [exact Hb|]. split; [exact Hrec|]. split.
  - intros j Hj. apply Hbefore. lia.
  - destruct Hterm as [H|[H1 H2]]; auto.
Qed.

Lemma poll_provisioning_returns_a_fetched_record_witness :
  exists m,
    (m < Z.to_nat (240 / 10))%nat /\
    backend (boot 59 (scripted [Replied demo_provisioning; Replied demo_failed] stuck)
               demo_docker (Answered 200))
            (m + 0)%nat = Replied demo_failed /\
    is_record demo_failed = true /\
    (forall j, (j < m)%nat ->
       pending (backend (boot 59 (scripted [Replied demo_provisioning; Replied demo_failed] stuck)
                           demo_docker (Answered 200)) (j + 0)%nat)) /\
    (terminal demo_failed = true \/
     terminal demo_failed = false /\ S m = Z.to_nat (240 / 10)).
Proof.
  apply (poll_provisioning_returns_a_fetched_record DEFAULT_BASE_URL demo_token demo_id 240
           (boot 59 (scripted [Replied demo_provisioning; Replied demo_failed] stuck)
              demo_docker (Answered 200)) demo_failed).
  vm_compute. reflexivity.
Defined.

(** ** The container and health checks: edges *)

(** X11: an endpoint that is truthy but not a string (a number, a list, an
    object) is never probed: the docker check still runs, then
    [container_url + "/"] raises [TypeError] inside the [try], the error is
    printed and [verify_container] returns [False]. *)
Theorem verify_container_rejects_non_string_endpoint tenant v w :
  endpoint_of tenant = Ok v -> truthy v = true -> (forall s, v <> JStr s) ->
  exists line,
    verify_container tenant w =
    (Ok false,
     record (Printed [Lit "   ERROR: Container not responding: "; Exc TypeError])
       (record (Printed line)
          (record DockerPs
             (record (Printed [Lit "   Container URL: "; Val v])
                (record (Printed [Lit "4. Verifying container..."]) w))))).
Proof.
  unfold endpoint_of. intros He Htr Hns.
  unfold verify_container. unfold bind at 1. unfold print at 1.
  unfold bind at 1. unfold lift at 1.
  destruct (get tenant "config" (JDict [])) as [config|]; [|discriminate He].
  cbn [res_bind] in He. unfold bind at 1. unfold lift at 1. rewrite He, Htr. cbn [negb].
  unfold bind at 1. unfold print at 1. unfold bind at 1.
  match goal with |- context [docker_check tenant ?w1] =>
    destruct (docker_check_total tenant w1) as (line & Hd & _); rewrite Hd end.
  unfold bind at 1. rewrite (http_check_other v _ Hns).
  exists line. reflexivity.
Qed.

Lemma verify_container_rejects_non_string_endpoint_witness :
  exists line,
    verify_container (JDict [("id", demo_id); ("config", JDict [("containerEndpoint", JInt 18789)])])
      (world_at 59) =
    (Ok false,
     record (Printed [Lit "   ERROR: Container not responding: "; Exc TypeError])
       (record (Printed line)
          (record DockerPs
             (record (Printed [Lit "   Container URL: "; Val (JInt 18789)])
                (record (Printed [Lit "4. Verifying container..."]) (world_at 59)))))).
Proof.
  apply (verify_container_rejects_non_string_endpoint
           (JDict [("id", demo_id); ("config", JDict [("containerEndpoint", JInt 18789)])])
           (JInt 18789) (world_at 59)).
  - reflexivity.
  - reflexivity.
  - discriminate.
Defined.

(** X12: the default of [tenant.get("config", {})] covers a missing key
    only.  A record whose [config] is present but not an object ([null],
    say) makes [verify_container] raise [AttributeError] before any check,
    and a run whose poll ends with such an "active" record is reported as a
    fatal error with exit code 1. *)
Theorem non_object_config_is_fatal :
  (forall d c w,
      lookup "config" d = Some c -> is_record c = false ->
      verify_container (JDict d) w =
      (Raise AttributeError, record (Printed [Lit "4. Verifying container..."]) w)) /\
  (forall a now b dk p token tid k d c,
      logs_in now b token -> creates_tenant b tid -> polls_until b k (JDict d) ->
      eq_str (status_of (JDict d)) "active" = true ->
      lookup "config" d = Some c -> is_record c = false ->
      exists out,
        run a (boot now b dk p) = (1, out ++ [Printed (fatal_line AttributeError)]) /\
        existsb touches_container out = false /\
        fetches out = (k + 4)%nat).
Proof.
  assert (V : forall d c w,
      lookup "config" d = Some c -> is_record c = false ->
      verify_container (JDict d) w =
      (Raise AttributeError, record (Printed [Lit "4. Verifying container..."]) w)).
  { intros d c w Hc Hr. unfold verify_container, bind, print, lift.
    cbn [get]. rewrite Hc. destruct c; try reflexivity. discriminate Hr. }
  split; [exact V|].
  intros a now b dk p token tid k d c Hlog Hcr Hpoll Hact Hc Hr.
  destruct (main_polled a now b dk p token tid k (JDict d) Hlog Hcr Hpoll)
    as (evs & Hq & Hf & Hmain).
  destruct (status_active (JDict d) eq_refl Hact) as (s & Hg & Hn).
  match type of Hmain with _ = try_except _ _ ?w3 =>
    assert (Hc3 : conclude a token tid (JDict d) w3 =
                  (Raise AttributeError,
                   record (Printed [Lit "4. Verifying container..."]) w3)) end.
  { unfold conclude. unfold bind at 1. unfold lift at 1. rewrite Hg.
    unfold bind at 1. rewrite Hn. cbn [negb]. unfold ret at 1.
    unfold bind at 1. rewrite (V d c _ Hc Hr). reflexivity. }
  rewrite (try_except_caught _ _ _ _ _ Hc3 eq_refl) in Hmain.
  unfold fatal, bind, print, sys_exit, raise, record in Hmain.
  cbn [clock backend docker probe sent trace] in Hmain.
  rewrite (run_of_main _ _ _ _ Hmain). cbn [exit_code trace rev].
  eexists. split; [reflexivity|]. split.
  - rewrite !existsb_app. cbn [existsb touches_container orb].
    rewrite ?orb_false_r.
    clear - Hq. rewrite <- quiet_rev in Hq. induction (rev evs) as [|x l IH]; [reflexivity|].
    cbn [forallb existsb] in *. apply andb_prop in Hq. destruct Hq as [Hx Hl].
    rewrite (IH Hl). unfold quiet in Hx. destruct (banner_of x); [discriminate|].
    now destruct (touches_container x).
  - rewrite !fetches_app, fetches_rev, Hf. cbn. lia.
Qed.

Lemma non_object_config_is_fatal_witness :
  verify_container (JDict [("status", JStr "active"); ("config", JNull)]) (world_at 59) =
  (Raise AttributeError, record (Printed [Lit "4. Verifying container..."]) (world_at 59)).
Proof.
  apply (proj1 non_object_config_is_fatal
           [("status", JStr "active"); ("config", JNull)] JNull (world_at 59)).
  - reflexivity.
  - reflexivity.
Defined.







(** ** The runs that reach the container *)

Lemma plain_rev e : forallb plain (rev e) = forallb plain e.
Proof.
  induction e as [|x e IH]; [reflexivity|].
  cbn [rev]. rewrite forallb_app, IH. cbn [forallb].
  now destruct (forallb plain e), (plain x).
Qed.

Lemma banners_of_polled evs tenant e2 :
  forallb quiet evs = true -> eq_str (status_of tenant) "active" = true ->
  forallb plain e2 = true ->
  banners ((rev evs ++ [Printed (closing_banner tenant)]) ++ rev e2) = [Succeeded].
Proof.
  intros Hq Hact Hp. rewrite !banners_app.
  rewrite (banners_quiet (rev evs)) by now rewrite quiet_rev.
  rewrite (banners_plain (rev e2)) by now rewrite plain_rev.
  unfold closing_banner. rewrite Hact. reflexivity.
Qed.

Lemma conclude_probe_failed a token tid tenant url w :
  is_record tenant = true -> eq_str (status_of tenant) "active" = true ->
  endpoint_of tenant = Ok (JStr url) -> url <> EmptyString ->
  probe_passes (probe w) = false ->
  exists evs,
    conclude a token tid tenant w =
    (Raise (SystemExit 1),
     mkWorld (clock w) (backend w) (docker w) (probe w) (sent w)
             (Printed container_verdict :: evs ++ trace w)) /\
    fetches evs = 0%nat /\ forallb plain evs = true /\ In (Probed (url ++ "/")) evs.
Proof.
  intros Hr Hs He Hne Hp. destruct (status_active tenant Hr Hs) as (s & Hg & Hn).
  destruct (verify_container_spec tenant w) as (evs & Hv & Hf & Hpl & _ & Hin).
  rewrite (liveness_passes tenant url _ He Hne), Hp in Hv.
  unfold conclude. unfold bind at 1. unfold lift at 1. rewrite Hg.
  unfold bind at 1. rewrite Hn. cbn [negb]. unfold ret at 1.
  rewrite (bind_ok _ _ _ _ _ Hv). cbn [negb].
  exists evs. split; [reflexivity|]. auto.
Qed.

Lemma conclude_skip a token tid tenant url w :
  skip_health_wait a = true ->
  is_record tenant = true -> eq_str (status_of tenant) "active" = true ->
  endpoint_of tenant = Ok (JStr url) -> url <> EmptyString ->
  probe_passes (probe w) = true ->
  exists evs,
    conclude a token tid tenant w =
    (Ok tt,
     mkWorld (clock w) (backend w) (docker w) (probe w) (sent w)
             (rev (success_report tid (JStr url)) ++ evs ++ trace w)) /\
    fetches evs = 0%nat /\ forallb plain evs = true.
Proof.
  intros Hskip Hr Hs He Hne Hp.
  destruct (status_active tenant Hr Hs) as (s & Hg & Hn).
  destruct (verify_container_spec tenant w) as (e1 & Hv & Hf1 & Hp1 & _ & _).
  rewrite (liveness_passes tenant url _ He Hne), Hp in Hv.
  destruct (endpoint_shown tenant url He Hne) as (config & Hc & Hu).
  unfold conclude. unfold bind at 1. unfold lift at 1. rewrite Hg.
  unfold bind at 1. rewrite Hn. cbn [negb]. unfold ret at 1.
  rewrite (bind_ok _ _ _ _ _ Hv). cbn [negb].
  unfold bind at 1. unfold ret at 1. rewrite Hskip. cbn [negb].
  unfold bind at 1. unfold ret at 1.
  do 3 (unfold bind at 1; unfold print at 1).
  unfold bind at 1. unfold lift at 1. rewrite Hc.
  unfold bind at 1. unfold lift at 1. rewrite Hu.
  unfold bind at 1. unfold print at 1. unfold print, record.
  cbn [clock backend docker probe sent trace].
  exists e1. split; [|split; assumption].
  apply result_eq, world_eq; reflexivity.
Qed.

Lemma verify_health_monitor_healthy base token tid w t :
  backend w (sent w) = Replied t -> is_record t = true -> healthy t = true ->
  exists evs,
    verify_health_monitor base token tid w =
    (Ok true,
     mkWorld (clock w + 35) (backend w) (docker w) (probe w) (1 + sent w)
             (Printed [Lit "   *** HEALTH MONITOR OK ***"] :: evs ++ trace w)) /\
    fetches evs = 1%nat /\ forallb quiet evs = true.
Proof.
  intros Hb Hr Hh. destruct t; try discriminate Hr.
  unfold healthy, health_status in Hh.
  unfold verify_health_monitor.
  unfold bind, print, sleep, lift, ret, record.
  cbn [clock backend docker probe sent trace].
  erewrite api_call_replied by exact Hb.
  cbn [clock backend docker probe sent trace get] in *.
  destruct (lookup "containerHealth" d) as [h|]; [|discriminate Hh].
  destruct h; try discriminate Hh. cbn [get].
  destruct (lookup "status" d0) as [s|]; [|discriminate Hh].
  rewrite Hh. eexists [_; _; _; _]. split; [reflexivity|]. split; reflexivity.
Qed.

Lemma conclude_healthy a token tid tenant url w t :
  skip_health_wait a = false ->
  is_record tenant = true -> eq_str (status_of tenant) "active" = true ->
  endpoint_of tenant = Ok (JStr url) -> url <> EmptyString ->
  probe_passes (probe w) = true ->
  backend w (sent w) = Replied t -> is_record t = true -> healthy t = true ->
  exists evs,
    conclude a token tid tenant w =
    (Ok tt,
     mkWorld (clock w + 35) (backend w) (docker w) (probe w) (1 + sent w)
             (rev (success_report tid (JStr url))
              ++ Printed [Lit "   *** HEALTH MONITOR OK ***"] :: evs ++ trace w)) /\
    fetches evs = 1%nat /\ forallb plain evs = true.
Proof.
  intros Hskip Hr Hs He Hne Hp Hb Hrt Hh.
  destruct (status_active tenant Hr Hs) as (s & Hg & Hn).
  destruct (verify_container_spec tenant w) as (e1 & Hv & Hf1 & Hp1 & _ & _).
  rewrite (liveness_passes tenant url _ He Hne), Hp in Hv.
  destruct (endpoint_shown tenant url He Hne) as (config & Hc & Hu).
  unfold conclude. unfold bind at 1. unfold lift at 1. rewrite Hg.
  unfold bind at 1. rewrite Hn. cbn [negb]. unfold ret at 1.
  rewrite (bind_ok _ _ _ _ _ Hv). cbn [negb].
  unfold bind at 1. unfold ret at 1. rewrite Hskip. cbn [negb].
  match goal with |- context [verify_health_monitor ?u ?tk ?i] =>
    match goal with |- context [bind _ _ ?w2] =>
      destruct (verify_health_monitor_healthy u tk i w2 t Hb Hrt Hh) as (e2 & Hm & Hf2 & Hq2)
    end
  end.
  unfold bind at 1. rewrite (bind_ok _ _ _ _ _ Hm). cbn [negb]. unfold ret at 1.
  do 3 (unfold bind at 1; unfold print at 1).
  unfold bind at 1. unfold lift at 1. rewrite Hc.
  unfold bind at 1. unfold lift at 1. rewrite Hu.
  unfold bind at 1. unfold print at 1. unfold print, record.
  cbn [clock backend docker probe sent trace].
  exists (e2 ++ e1). split; [|split].
  - apply result_eq, world_eq; [reflexivity|reflexivity|].
    cbn [success_report rev app]. now rewrite <- app_assoc.
  - rewrite fetches_app, Hf1, Hf2. reflexivity.
  - rewrite forallb_app, Hp1, (forallb_quiet_plain _ Hq2). reflexivity.
Qed.

Lemma polls_until_demo k tenant rest :
  is_record tenant = true -> terminal tenant = true -> (k < 24)%nat ->
  polls_until (demo_backend (repeat (Replied demo_provisioning) k ++ Replied tenant :: rest) stuck)
              k tenant.
Proof.
  intros Hr Ht Hk. unfold demo_backend, scripted.
  split; [exact Hk|]. split; [|split; [|split; assumption]].
  - intros j Hj. exists demo_provisioning. split; [|split; reflexivity].
    change (3 + j)%nat with (S (S (S j))). cbn [nth_error app].
    rewrite nth_error_app1 by (rewrite repeat_length; exact Hj).
    now rewrite (nth_error_repeat _ Hj).
  - change (3 + k)%nat with (S (S (S k))). cbn [nth_error app].
    rewrite nth_error_app2 by (rewrite repeat_length; lia).
    rewrite repeat_length, Nat.sub_diag. reflexivity.
Qed.

(** X15: a failed liveness probe is a hard failure.  When login, creation
    and the poll succeed, the record is "active" and names an endpoint, but
    the probe of that endpoint meets a status outside the policy or no
    answer at all, the run probes [endpoint + "/"], prints the container
    verdict as its last line and exits with code 1 without re-fetching the
    tenant for the health monitor: [k + 4] requests in all. *)
Theorem failed_probe_is_a_hard_failure a now b d p token tid k tenant url :
  logs_in now b token -> creates_tenant b tid -> polls_until b k tenant ->
  eq_str (status_of tenant) "active" = true ->
  endpoint_of tenant = Ok (JStr url) -> url <> EmptyString ->
  probe_passes p = false ->
  exists out,
    run a (boot now b d p) = (1, out ++ [Printed container_verdict]) /\
    In (Probed (url ++ "/")) out /\
    banners out = [Succeeded] /\
    fetches out = (k + 4)%nat.
Proof.
  intros Hlog Hcr Hpoll Hact He Hne Hp.
  destruct (main_polled a now b d p token tid k tenant Hlog Hcr Hpoll)
    as (evs & Hq & Hf & Hmain).
  destruct Hpoll as (_ & _ & _ & Hrec & _).
  match type of Hmain with _ = try_except _ _ ?w3 =>
    destruct (conclude_probe_failed a token tid tenant url w3 Hrec Hact He Hne Hp)
      as (e2 & Hc & Hf2 & Hp2 & Hin) end.
  rewrite (try_except_passed _ _ _ _ _ Hc eq_refl) in Hmain.
  rewrite (run_of_main _ _ _ _ Hmain). cbn [exit_code trace rev].
  rewrite rev_app_distr. cbn [rev].
  exists ((rev evs ++ [Printed (closing_banner tenant)]) ++ rev e2).
  split; [reflexivity|]. split; [|split].
  - apply in_or_app. right. now apply in_rev in Hin.
  - now apply banners_of_polled.
  - rewrite !fetches_app, !fetches_rev, Hf, Hf2. cbn. lia.
Qed.

Lemma failed_probe_is_a_hard_failure_witness :
  exists out,
    run demo_args
      (boot 59 (demo_backend [Replied demo_provisioning; Replied demo_active] stuck)
         demo_docker (Answered 500))
    = (1, out ++ [Printed container_verdict]) /\
    In (Probed "http://localhost:18789/") out /\
    banners out = [Succeeded] /\
    fetches out = 5%nat.
Proof.
  assert (Hne : "http://localhost:18789" <> EmptyString) by discriminate.
  apply (failed_probe_is_a_hard_failure demo_args 59
           (demo_backend [Replied demo_provisioning; Replied demo_active] stuck)
           demo_docker (Answered 500) demo_token demo_id 1%nat demo_active
           "http://localhost:18789"
           (logs_in_demo _ _) (creates_tenant_demo _ _)
           (polls_until_demo 1 demo_active [] eq_refl eq_refl ltac:(lia))
           eq_refl eq_refl Hne eq_refl).
Defined.

(** X16: with [--skip-health-wait] a run whose container answers the probe
    passes without the health monitor: it exits with code 0 on the success
    report after [k + 4] requests, none of them a health re-fetch, and has
    slept for the [k + 1] polling intervals only. *)
Theorem skip_health_wait_skips_the_monitor a now b d p token tid k tenant url :
  skip_health_wait a = true ->
  logs_in now b token -> creates_tenant b tid -> polls_until b k tenant ->
  eq_str (status_of tenant) "active" = true ->
  endpoint_of tenant = Ok (JStr url) -> url <> EmptyString ->
  probe_passes p = true ->
  exists out,
    run a (boot now b d p) = (0, out ++ success_report tid (JStr url)) /\
    banners out = [Succeeded] /\
    fetches out = (k + 4)%nat /\
    clock (snd (main a (boot now b d p))) = now + 10 * Z.of_nat (S k).
Proof.
  intros Hskip Hlog Hcr Hpoll Hact He Hne Hp.
  destruct (main_polled a now b d p token tid k tenant Hlog Hcr Hpoll)
    as (evs & Hq & Hf & Hmain).
  destruct Hpoll as (_ & _ & _ & Hrec & _).
  match type of Hmain with _ = try_except _ _ ?w3 =>
    destruct (conclude_skip a token tid tenant url w3 Hskip Hrec Hact He Hne Hp)
      as (e2 & Hc & Hf2 & Hp2) end.
  rewrite (try_except_ok _ _ _ _ _ Hc) in Hmain.
  rewrite (run_of_main _ _ _ _ Hmain), Hmain. cbn [exit_code trace snd clock].
  rewrite rev_app_distr, rev_involutive, rev_app_distr. cbn [rev].
  exists ((rev evs ++ [Printed (closing_banner tenant)]) ++ rev e2).
  split; [|split; [|split]].
  - first [reflexivity | apply f_equal; now rewrite <- !app_assoc].
  - now apply banners_of_polled.
  - rewrite !fetches_app, !fetches_rev, Hf, Hf2. cbn. lia.
  - reflexivity.
Qed.

Lemma skip_health_wait_skips_the_monitor_witness :
  exists out,
    run (mkArgs DEFAULT_BASE_URL "E2E Test 59" true)
      (boot 59 (demo_backend [Replied demo_provisioning; Replied demo_active] stuck)
         demo_docker (Answered 426))
    = (0, out ++ success_report demo_id (JStr "http://localhost:18789")) /\
    banners out = [Succeeded] /\
    fetches out = 5%nat /\
    clock (snd (main (mkArgs DEFAULT_BASE_URL "E2E Test 59" true)
                  (boot 59 (demo_backend [Replied demo_provisioning; Replied demo_active] stuck)
                     demo_docker (Answered 426))))
    = 59 + 10 * Z.of_nat 2.
Proof.
  assert (Hne : "http://localhost:18789" <> EmptyString) by discriminate.
  apply (skip_health_wait_skips_the_monitor (mkArgs DEFAULT_BASE_URL "E2E Test 59" true) 59
           (demo_backend [Replied demo_provisioning; Replied demo_active] stuck)
           demo_docker (Answered 426) demo_token demo_id 1%nat demo_active
           "http://localhost:18789"
           eq_refl (logs_in_demo _ _) (creates_tenant_demo _ _)
           (polls_until_demo 1 demo_active [] eq_refl eq_refl ltac:(lia))
           eq_refl eq_refl Hne eq_refl).
Defined.

(** X17: the passing run.  When everything up to the liveness probe
    succeeds and the record re-fetched after the 35-second wait reports
    [containerHealth.status] "healthy", the run prints
    [*** HEALTH MONITOR OK ***] followed by the success report, exits with
    code 0, has made [k + 5] requests and has slept [10 (k + 1) + 35]
    seconds. *)
Theorem healthy_run_passes a now b d p token tid k tenant url t :
  skip_health_wait a = false ->
  logs_in now b token -> creates_tenant b tid -> polls_until b k tenant ->
  eq_str (status_of tenant) "active" = true ->
  endpoint_of tenant = Ok (JStr url) -> url <> EmptyString ->
  probe_passes p = true ->
  b (4 + k)%nat = Replied t -> is_record t = true -> healthy t = true ->
  exists out,
    run a (boot now b d p) =
    (0, out ++ Printed [Lit "   *** HEALTH MONITOR OK ***"]
            :: success_report tid (JStr url)) /\
    banners out = [Succeeded] /\
    fetches out = (k + 5)%nat /\
    clock (snd (main a (boot now b d p))) = now + 10 * Z.of_nat (S k) + 35.
Proof.
  intros Hskip Hlog Hcr Hpoll Hact He Hne Hp Hb Hrt Hh.
  destruct (main_polled a now b d p token tid k tenant Hlog Hcr Hpoll)
    as (evs & Hq & Hf & Hmain).
  destruct Hpoll as (_ & _ & _ & Hrec & _).
  match type of Hmain with _ = try_except _ _ ?w3 =>
    destruct (conclude_healthy a token tid tenant url w3 t Hskip Hrec Hact He Hne Hp)
      as (e2 & Hc & Hf2 & Hp2) end; try assumption.
  { cbn [backend sent]. now rewrite Nat.add_comm. }
  rewrite (try_except_ok _ _ _ _ _ Hc) in Hmain.
  rewrite (run_of_main _ _ _ _ Hmain), Hmain. cbn [exit_code trace snd clock].
  rewrite rev_app_distr, rev_involutive. cbn [rev]. rewrite rev_app_distr.
  cbn [rev].
  exists ((rev evs ++ [Printed (closing_banner tenant)]) ++ rev e2).
  split; [|split; [|split]].
  - first [reflexivity | apply f_equal; now rewrite <- !app_assoc].
  - now apply banners_of_polled.
  - rewrite !fetches_app, !fetches_rev, Hf, Hf2. cbn. lia.
  - reflexivity.
Qed.

Lemma healthy_run_passes_witness :
  exists out,
    run demo_args
      (boot 59 (demo_backend [Replied demo_provisioning; Replied demo_active;
                              Replied demo_healthy] stuck)
         demo_docker (Answered 200))
    = (0, out ++ Printed [Lit "   *** HEALTH MONITOR OK ***"]
              :: success_report demo_id (JStr "http://localhost:18789")) /\
    banners out = [Succeeded] /\
    fetches out = 6%nat /\
    clock (snd (main demo_args
                  (boot 59 (demo_backend [Replied demo_provisioning; Replied demo_active;
                                          Replied demo_healthy] stuck)
                     demo_docker (Answered 200))))
    = 59 + 10 * Z.of_nat 2 + 35.
Proof.
  assert (Hne : "http://localhost:18789" <> EmptyString) by discriminate.
  apply (healthy_run_passes demo_args 59
           (demo_backend [Replied demo_provisioning; Replied demo_active;
                          Replied demo_healthy] stuck)
           demo_docker (Answered 200) demo_token demo_id 1%nat demo_active
           "http://localhost:18789" demo_healthy
           eq_refl (logs_in_demo _ _) (creates_tenant_demo _ _)
           (polls_until_demo 1 demo_active [Replied demo_healthy] eq_refl eq_refl ltac:(lia))
           eq_refl eq_refl Hne eq_refl eq_refl eq_refl eq_refl).
Defined.

(** ** The runs that end before the poll *)

Lemma authenticate_refused base w e :
  backend w (sent w) = Failed e ->
  exists evs,
    authenticate base w =
    (Raise (api_error e),
     mkWorld (clock w) (backend w) (docker w) (probe w) (S (sent w)) (evs ++ trace w)) /\
    fetches evs = 1%nat.
Proof.
  intros He. unfold authenticate.
  unfold bind at 1. unfold print at 1.
  match goal with |- context [bind (api_call ?u ?m ?dt ?tk) _ ?w1] =>
    destruct (api_call_failed u m dt tk w1 e He) as (evs & Hcall & Hf & Hq);
    rewrite (bind_raise _ _ _ _ _ Hcall) end.
  exists (evs ++ [Printed [Lit "1. Authenticating as platform admin..."]]).
  split.
  - apply result_eq, world_eq; [reflexivity|reflexivity|].
    cbn [trace record]. now rewrite <- app_assoc.
  - rewrite fetches_app, Hf. reflexivity.
Qed.

Lemma create_tenant_refused base token name w e :
  backend w (sent w) = Failed e ->
  exists evs,
    create_tenant base token name w =
    (Raise (api_error e),
     mkWorld (clock w) (backend w) (docker w) (probe w) (S (sent w)) (evs ++ trace w)) /\
    fetches evs = 1%nat.
Proof.
  intros He. unfold create_tenant.
  unfold bind at 1. unfold print at 1.
  match goal with |- context [bind (api_call ?u ?m ?dt ?tk) _ ?w1] =>
    destruct (api_call_failed u m dt tk w1 e He) as (evs & Hcall & Hf & Hq);
    rewrite (bind_raise _ _ _ _ _ Hcall) end.
  exists (evs ++ [Printed [Lit "2. Creating tenant '"; Lit name; Lit "'..."]]).
  split.
  - apply result_eq, world_eq; [reflexivity|reflexivity|].
    cbn [trace record]. now rewrite <- app_assoc.
  - rewrite fetches_app, Hf. reflexivity.
Qed.

(** X18: a failure before the poll ends the run at once.  When the password
    login raises an [Exception], the run makes that one request, creates no
    tenant, prints [FATAL ERROR:] with the exception that leaves [api_call]
    as its last line and exits with code 1; when login succeeds and tenant
    creation raises, the same happens after three requests, and nothing is
    polled. *)
Theorem setup_failure_is_fatal a now b d p :
  (forall e,
      b 0%nat = Failed e -> is_Exception e = true ->
      exists out,
        run a (boot now b d p) = (1, out ++ [Printed (fatal_line (api_error e))]) /\
        fetches out = 1%nat) /\
  (forall token e,
      logs_in now b token -> b 2%nat = Failed e -> is_Exception e = true ->
      exists out,
        run a (boot now b d p) = (1, out ++ [Printed (fatal_line (api_error e))]) /\
        fetches out = 3%nat).
Proof.
  split.
  - intros e Hb Hexn.
    destruct (main a (boot now b d p)) as [r w'] eqn:Hmain.
    pose proof (run_of_main _ _ _ _ Hmain) as Hrun.
    unfold main, boot in Hmain.
    do 5 (unfold bind at 1 in Hmain; unfold print at 1 in Hmain). unfold record in Hmain.
    cbn [clock backend docker probe sent trace] in Hmain.
    match type of Hmain with try_except _ _ ?w = _ => set (w1 := w) in * end.
    destruct (authenticate_refused (base_url a) w1 e Hb) as (e1 & Hauth & Hf1).
    rewrite (try_except_caught _ _ _ _ _ (bind_raise _ _ _ _ _ Hauth)
               (api_error_is_Exception e Hexn)) in Hmain.
    unfold fatal, bind, print, sys_exit, raise, record in Hmain.
    cbn [clock backend docker probe sent trace] in Hmain. injection Hmain as <- <-.
    rewrite Hrun. cbn [exit_code trace rev].
    eexists. split; [reflexivity|].
    rewrite fetches_rev, fetches_app, Hf1. reflexivity.
  - intros token e (Hnow & (r0 & H0) & (r1 & shown & H1 & Htok & Hshown)) Hb Hexn.
    destruct (main a (boot now b d p)) as [r w'] eqn:Hmain.
    pose proof (run_of_main _ _ _ _ Hmain) as Hrun.
    unfold main, boot in Hmain.
    do 5 (unfold bind at 1 in Hmain; unfold print at 1 in Hmain). unfold record in Hmain.
    cbn [clock backend docker probe sent trace] in Hmain.
    match type of Hmain with try_except _ _ ?w = _ => set (w1 := w) in * end.
    destruct (authenticate_ok (base_url a) w1 r0 r1 token shown Hnow H0 H1 Htok Hshown)
      as (e1 & Hauth & Hf1 & _).
    match type of Hauth with _ = (_, ?w) => set (w2 := w) in * end.
    destruct (create_tenant_refused (base_url a) token (tenant_name a) w2 e Hb)
      as (e2 & Hcreate & Hf2).
    unfold try_except in Hmain.
    rewrite (bind_ok _ _ _ _ _ Hauth), (bind_raise _ _ _ _ _ Hcreate),
      (api_error_is_Exception e Hexn) in Hmain.
    unfold fatal, bind, print, sys_exit, raise, record in Hmain.
    cbn [clock backend docker probe sent trace] in Hmain. injection Hmain as <- <-.
    rewrite Hrun. cbn [exit_code trace rev].
    eexists. split; [reflexivity|].
    subst w2 w1. cbn [trace].
    rewrite fetches_rev, !fetches_app, Hf1, Hf2. reflexivity.
Qed.

Lemma setup_failure_is_fatal_witness :
  exists out,
    run demo_args (world_at 59)
    = (1, out ++ [Printed (fatal_line (URLError "connection refused"))]) /\
    fetches out = 1%nat.
Proof.
  apply (proj1 (setup_failure_is_fatal demo_args 59 refusing
                  (Unavailable "docker: command not found")
                  (Unreachable "connection refused"))
           (URLError "connection refused")).
  - reflexivity.
  - reflexivity.
Defined.

(** ** A small program logic: frame, budget and outcome *)

Lemma civil_frame w w' : backend w' = backend w -> civil w -> civil w'.
Proof. intros H C n e. rewrite H. apply C. Qed.

Ltac framed tac :=
  let eqs := first [reflexivity | congruence | cbn; congruence] in
  split; [eqs|split; [eqs|split; [eqs|
  split; [cbn in *; lia|split; [cbn in *; lia|tac]]]]].

Lemma within_weaken {A} N T N' T' (Q Q' : res A -> world -> Prop) (m : M A) :
  (N <= N')%nat -> (T <= T')%nat -> (forall r w, Q r w -> Q' r w) ->
  within N T Q m -> within N' T' Q' m.
Proof.
  intros HN HT HQ H w r w' E.
  destruct (H w r w' E) as (Hb & Hd & Hp & Hs & Hc & Hq).
  framed ltac:(intros C; auto).
Qed.

Lemma within_bind {A B} N1 T1 N2 T2 (Q1 : res A -> world -> Prop)
      (Q : res B -> world -> Prop) (m : M A) (k : A -> M B) :
  within N1 T1 Q1 m -> (forall a, within N2 T2 Q (k a)) ->
  (forall e w, Q1 (Raise e) w -> Q (Raise e) w) ->
  within (N1 + N2) (T1 + T2) Q (bind m k).
Proof.
  intros Hm Hk Hraise w r w' E. unfold bind in E.
  destruct (m w) as [[a|e] w1] eqn:Em.
  - destruct (Hm w _ _ Em) as (Hb & Hd & Hp & Hs & Hc & Hq).
    destruct (Hk a w1 r w' E) as (Hb' & Hd' & Hp' & Hs' & Hc' & Hq').
    framed ltac:(intros C; apply Hq'; now apply (civil_frame w)).
  - injection E as <- <-.
    destruct (Hm w _ _ Em) as (Hb & Hd & Hp & Hs & Hc & Hq).
    framed ltac:(intros C; apply Hraise; auto).
Qed.

Lemma within_bind_tame {A B} N1 T1 N2 T2 (m : M A) (k : A -> M B) :
  within N1 T1 tame m -> (forall a, within N2 T2 tame (k a)) ->
  within (N1 + N2) (T1 + T2) tame (bind m k).
Proof. intros Hm Hk. apply (within_bind _ _ _ _ tame); auto. Qed.

Lemma within_ret {A} (a : A) : within 0 0 tame (ret a).
Proof. intros w r w' [= <- <-]. framed ltac:(intros _; exact I). Qed.

Lemma within_lift {A} (r : res A) : proper r -> within 0 0 tame (lift r).
Proof. intros H w r' w' [= <- <-]. framed ltac:(intros _; exact H). Qed.

Lemma within_raise {A} e : is_Exception e = true -> within 0 0 tame (@raise A e).
Proof. intros H w r' w' [= <- <-]. framed ltac:(intros _; exact H). Qed.

Lemma within_print line : within 0 0 (fun r _ => r = Ok tt) (print line).
Proof. intros w r w' [= <- <-]. framed ltac:(intros _; reflexivity). Qed.

Lemma within_print_tame line : within 0 0 tame (print line).
Proof. intros w r w' [= <- <-]. framed ltac:(intros _; exact I). Qed.

Lemma within_sleep T : within 0 T tame (sleep (Z.of_nat T)).
Proof. intros w r w' [= <- <-]. framed ltac:(intros _; exact I). Qed.

Lemma within_try_except {A} N1 T1 N2 T2 (body : M A) handler :
  within N1 T1 tame body -> (forall e, within N2 T2 tame (handler e)) ->
  within (N1 + N2) (T1 + T2) tame (try_except body handler).
Proof.
  intros Hb Hh w r w' E. unfold try_except in E.
  destruct (body w) as [[a|e] w1] eqn:Eb.
  - injection E as <- <-.
    destruct (Hb w _ _ Eb) as (H1 & H2 & H3 & H4 & H5 & H6).
    framed ltac:(intros _; exact I).
  - destruct (Hb w _ _ Eb) as (H1 & H2 & H3 & H4 & H5 & H6).
    destruct (is_Exception e) eqn:He.
    + destruct (Hh e w1 r w' E) as (H1' & H2' & H3' & H4' & H5' & H6').
      framed ltac:(intros C; apply H6'; now apply (civil_frame w)).
    + injection E as <- <-.
      framed ltac:(intros C; apply H6, C).
Qed.

Lemma within_try_except_HTTPError {A} N1 T1 N2 T2 (body : M A) handler :
  within N1 T1 tame body -> (forall c b, within N2 T2 tame (handler c b)) ->
  within (N1 + N2) (T1 + T2) tame (try_except_HTTPError body handler).
Proof.
  intros Hb Hh w r w' E. unfold try_except_HTTPError in E.
  destruct (body w) as [[a|e] w1] eqn:Eb.
  - injection E as <- <-.
    destruct (Hb w _ _ Eb) as (H1 & H2 & H3 & H4 & H5 & H6).
    framed ltac:(intros _; exact I).
  - destruct (Hb w _ _ Eb) as (H1 & H2 & H3 & H4 & H5 & H6).
    destruct e;
      try (injection E as <- <-; framed ltac:(exact H6)).
    destruct (Hh code body0 w1 r w' E) as (H1' & H2' & H3' & H4' & H5' & H6').
    framed ltac:(intros C; apply H6'; now apply (civil_frame w)).
Qed.

Lemma within_for_range {A R} (body : Z -> A -> M (R + A)) :
  (forall i a, within 1 10 tame (body i a)) ->
  forall n i a, within n (10 * n) tame (for_range n i body a).
Proof.
  intros Hbody. induction n as [|n IH]; intros i a.
  - apply within_ret.
  - cbn [for_range].
    apply (within_weaken (1 + n) (10 + 10 * n) _ _ tame tame); [lia|lia|auto|].
    apply within_bind_tame; [apply Hbody|].
    intros [x|a']; [|apply IH].
    apply (within_weaken 0 0 _ _ tame tame); [lia|lia|auto|apply within_ret].
Qed.

(** Closing a composition: the sums it leaves are within the stated budget. *)
Ltac budget := eapply (within_weaken _ _ _ _ tame tame); [ | | | ]; cycle 3.

(** ** What each function of the driver stays within *)

Lemma get_proper o k v : proper (get o k v).
Proof. destruct (get o k v) eqn:H; [exact I|]. exact (get_raises _ _ _ _ H). Qed.

Lemma getitem_proper o k : proper (getitem o k).
Proof. destruct (getitem o k) eqn:H; [exact I|]. exact (getitem_raises _ _ _ H). Qed.

Lemma slice_to_proper n v : proper (slice_to n v).
Proof. destruct (slice_to n v) eqn:H; [exact I|]. exact (slice_to_raises _ _ _ H). Qed.

Lemma first_match_proper p l : proper (first_match p l).
Proof. destruct (first_match p l) eqn:H; [exact I|]. exact (first_match_raises _ _ _ H). Qed.

Lemma add_slash_proper v : proper (add_slash v).
Proof. destruct v; exact I || reflexivity. Qed.

Lemma accumulate_proper q : forall acc, proper (Base32.accumulate acc q).
Proof.
  induction q as [|c q IH]; intros acc; cbn [Base32.accumulate]; [exact I|].
  destruct (Base32.b32rev c); [apply IH|reflexivity].
Qed.

Lemma quanta_loop_proper fuel : forall s decoded acc,
  proper (Base32.quanta_loop fuel s decoded acc).
Proof.
  induction fuel as [|fuel IH]; intros s decoded acc; cbn [Base32.quanta_loop]; [exact I|].
  destruct s as [|c s]; [exact I|].
  pose proof (accumulate_proper (firstn 8 (c :: s)) 0) as H.
  destruct (Base32.accumulate 0 (firstn 8 (c :: s))); [apply IH|exact H].
Qed.

Lemma b32decode_proper s : proper (Base32.b32decode s).
Proof.
  unfold Base32.b32decode.
  destruct (existsb _ _); [reflexivity|].
  destruct (negb _); [reflexivity|].
  match goal with |- context [Base32.quanta_loop ?f ?x ?d ?a] =>
    pose proof (quanta_loop_proper f x d a) as H;
    destruct (Base32.quanta_loop f x d a) as [[decoded acc]|e] end; [|exact H].
  cbn [res_bind]. destruct (negb _); [reflexivity|].
  destruct (_ && _)%bool; exact I.
Qed.

Lemma generate_totp_at_proper now secret period :
  proper (generate_totp_at now secret period).
Proof.
  unfold generate_totp_at.
  pose proof (b32decode_proper secret) as H.
  destruct (Base32.b32decode secret) as [key|]; [|exact H]. cbn [res_bind].
  unfold floordiv. destruct (period =? 0); [reflexivity|]. cbn [res_bind].
  unfold pack_Q. destruct (_ && _)%bool; [|reflexivity]. cbn [res_bind].
  unfold last_byte. destruct (rev _); [reflexivity|]. cbn [res_bind].
  unfold unpack_I. destruct (_ =? _)%nat; [exact I|reflexivity].
Qed.

Lemma within_generate_totp secret period : within 0 0 tame (generate_totp secret period).
Proof.
  intros w r w' E. rewrite generate_totp_run in E. injection E as <- <-.
  framed ltac:(intros _; apply generate_totp_at_proper).
Qed.

Lemma within_api_call url method data token : within 1 0 tame (api_call url method data token).
Proof.
  intros w r w' E. unfold api_call, try_except_HTTPError, urlopen_json in E.
  destruct (backend w (sent w)) as [v|e] eqn:Hb.
  - injection E as <- <-. framed ltac:(intros _; exact I).
  - assert (P : civil w -> is_Exception e = true) by (intros C; exact (C _ _ Hb)).
    destruct e; try (injection E as <- <-; framed ltac:(exact P)).
    unfold bind, lift, decode, print, raise, record in E.
    destruct (utf8_chars body); injection E as <- <-;
      framed ltac:(intros _; reflexivity).
Qed.

Lemma within_authenticate base : within 2 0 tame (authenticate base).
Proof.
  unfold authenticate. budget.
  - apply within_bind_tame; [apply within_print_tame|intros _].
    apply within_bind_tame; [apply within_api_call|intros _].
    apply within_bind_tame; [apply within_generate_totp|intros totp].
    apply within_bind_tame; [apply within_api_call|intros result].
    apply within_bind_tame; [apply within_lift, getitem_proper|intros token].
    apply within_bind_tame; [apply within_lift, slice_to_proper|intros shown].
    apply within_bind_tame; [apply within_print_tame|intros _].
    apply within_ret.
  - cbn; lia.
  - cbn; lia.
  - auto.
Qed.

Lemma within_create_tenant base token name : within 1 0 tame (create_tenant base token name).
Proof.
  unfold create_tenant. budget.
  - apply within_bind_tame; [apply within_print_tame|intros _].
    apply within_bind_tame; [apply within_api_call|intros result].
    apply within_bind_tame; [apply within_lift, getitem_proper|intros tid].
    apply within_bind_tame; [apply within_print_tame|intros _].
    apply within_bind_tame; [apply within_lift, get_proper|intros status].
    apply within_bind_tame; [apply within_print_tame|intros _].
    apply within_ret.
  - cbn; lia.
  - cbn; lia.
  - auto.
Qed.

Lemma within_poll_once base token tid i last :
  within 1 10 tame (poll_once base token tid 10 i last).
Proof.
  unfold poll_once. budget.
  - apply within_bind_tame; [apply (within_sleep 10)|intros _].
    apply within_bind_tame; [apply within_api_call|intros t].
    apply within_bind_tame; [apply within_lift, get_proper|intros status].
    apply (within_bind_tame 0 0 0 0).
    + destruct (eq_str status "provisioning"); [|apply within_print_tame].
      apply (within_bind_tame 0 0 0 0); [apply within_lift, get_proper|intros step].
      apply (within_bind_tame 0 0 0 0); [apply within_lift, get_proper|intros progress].
      apply (within_bind_tame 0 0 0 0); [apply within_lift, get_proper|intros msg].
      apply within_print_tame.
    + intros _. destruct (eq_str status "active").
      * apply (within_bind_tame 0 0 0 0); [apply within_print_tame|intros _; apply within_ret].
      * destruct (eq_str status "failed"); [|apply within_ret].
        apply (within_bind_tame 0 0 0 0); [apply within_lift, get_proper|intros reason].
        apply (within_bind_tame 0 0 0 0); [apply within_print_tame|intros _; apply within_ret].
  - cbn; lia.
  - cbn; lia.
  - auto.
Qed.

Lemma within_poll_provisioning base token tid timeout :
  within (Z.to_nat (timeout / 10)) (10 * Z.to_nat (timeout / 10)) tame
         (poll_provisioning base token tid timeout).
Proof.
  unfold poll_provisioning. budget.
  - apply within_bind_tame; [apply within_print_tame|intros _].
    apply within_bind_tame.
    + apply within_for_range. intros i a. apply within_poll_once.
    + intros [t|last]; [apply within_ret|].
      apply (within_bind_tame 0 0 0 0); [apply within_print_tame|intros _].
      destruct last; [apply within_ret|apply within_raise; reflexivity].
  - cbn; lia.
  - cbn; lia.
  - auto.
Qed.

Lemma within_docker_check tenant : within 0 0 tame (docker_check tenant).
Proof.
  unfold docker_check.
  apply (within_try_except 0 0 0 0); [|intros e; apply within_print_tame].
  apply (within_bind_tame 0 0 0 0).
  - intros w r w' E. unfold docker_ps in E.
    destruct (docker w) eqn:Hd; injection E as <- <-;
      framed ltac:(intros _; exact I || reflexivity).
  - intros output.
    apply (within_bind_tame 0 0 0 0); [apply within_lift, getitem_proper|intros tid].
    apply (within_bind_tame 0 0 0 0); [apply within_lift, slice_to_proper|intros prefix].
    apply (within_bind_tame 0 0 0 0); [apply within_lift, first_match_proper|intros found].
    destruct found; apply within_print_tame.
Qed.

Lemma within_http_check v : within 0 0 tame (http_check v).
Proof.
  unfold http_check.
  apply (within_try_except 0 0 0 0).
  - apply (within_bind_tame 0 0 0 0); [apply within_lift, add_slash_proper|intros url].
    apply (within_try_except_HTTPError 0 0 0 0).
    + apply (within_bind_tame 0 0 0 0).
      * intros w r w' E. unfold urlopen_probe in E.
        destruct (probe w) as [s|reason] eqn:Hp.
        -- destruct (_ && _)%bool; injection E as <- <-;
             framed ltac:(intros _; exact I || reflexivity).
        -- injection E as <- <-. framed ltac:(intros _; reflexivity).
      * intros status.
        apply (within_bind_tame 0 0 0 0); [apply within_print_tame|intros _; apply within_ret].
    + intros c b. destruct (_ || _)%bool;
        (apply (within_bind_tame 0 0 0 0); [apply within_print_tame|intros _; apply within_ret]).
  - intros e.
    apply (within_bind_tame 0 0 0 0); [apply within_print_tame|intros _; apply within_ret].
Qed.

Lemma within_verify_container tenant : within 0 0 tame (verify_container tenant).
Proof.
  unfold verify_container.
  apply (within_bind_tame 0 0 0 0); [apply within_print_tame|intros _].
  apply (within_bind_tame 0 0 0 0); [apply within_lift, get_proper|intros config].
  apply (within_bind_tame 0 0 0 0); [apply within_lift, get_proper|intros url].
  destruct (negb (truthy url)).
  - apply (within_bind_tame 0 0 0 0); [apply within_print_tame|intros _; apply within_ret].
  - apply (within_bind_tame 0 0 0 0); [apply within_print_tame|intros _].
    apply (within_bind_tame 0 0 0 0); [apply within_docker_check|intros _].
    apply (within_bind_tame 0 0 0 0); [apply within_http_check|intros r].
    destruct r; apply within_ret.
Qed.

Lemma within_verify_health_monitor base token tid :
  within 1 35 tame (verify_health_monitor base token tid).
Proof.
  unfold verify_health_monitor. budget.
  - apply within_bind_tame; [apply within_print_tame|intros _].
    apply within_bind_tame; [apply (within_sleep 35)|intros _].
    apply within_bind_tame; [apply within_api_call|intros t].
    apply within_bind_tame; [apply within_lift, get_proper|intros health].
    apply (within_bind_tame 0 0 0 0).
    + apply within_lift. destruct health; try exact I. apply get_proper.
    + intros h_status.
      apply (within_bind_tame 0 0 0 0); [apply within_print_tame|intros _].
      destruct (eq_str h_status "healthy");
        (apply (within_bind_tame 0 0 0 0); [apply within_print_tame|intros _; apply within_ret]).
  - cbn; lia.
  - cbn; lia.
  - auto.
Qed.

(** ** What the orchestrator stays within *)

Lemma tame_stopped {A} (r : res A) w : tame r w -> stopped r w.
Proof. destruct r; [intros _; exact I|intros H; left; exact H]. Qed.

Lemma stopped_concluded e w :
  stopped (@Raise unit e) w -> concluded (Raise e) w.
Proof. intros H. split; [exact H|discriminate]. Qed.

Lemma within_exit_if (b : bool) verdict :
  failure_line verdict ->
  within 0 0 stopped (if b then print verdict ;; sys_exit 1 else ret tt).
Proof.
  intros Hv w r w' E. destruct b.
  - unfold bind, print, sys_exit, raise in E. injection E as <- <-.
    framed ltac:(intros _; right; split; [reflexivity|];
                 exists verdict, (trace w); split; [reflexivity|exact Hv]).
  - injection E as <- <-. framed ltac:(intros _; exact I).
Qed.

Lemma within_health_step a token tid :
  within 1 35 tame
    (if negb (skip_health_wait a) then
       health_ok <- verify_health_monitor (base_url a) token tid ;;
       if negb health_ok then print health_warning else ret tt
     else ret tt).
Proof.
  destruct (negb (skip_health_wait a)).
  - apply (within_bind_tame 1 35 0 0); [apply within_verify_health_monitor|].
    intros ok. destruct (negb ok); [apply within_print_tame|apply within_ret].
  - apply (within_weaken 0 0 _ _ tame tame); [lia|lia|auto|apply within_ret].
Qed.

Lemma within_closing_report tid tenant :
  within 0 0 concluded
    (print [Lit nl; Lit rule] ;;
     print [Lit "ALL CHECKS PASSED"] ;;
     print [Lit "Tenant ID:     "; Val tid] ;;
     config <- lift (get tenant "config" (JDict [])) ;;
     endpoint <- lift (get config "containerEndpoint" (JStr "?")) ;;
     print [Lit "Container URL: "; Val endpoint] ;;
     print [Lit rule; Lit nl]).
Proof.
  intros w r w' E. unfold bind, print, lift, record in E.
  cbn [clock backend docker probe sent trace] in E.
  destruct (get tenant "config" (JDict [])) as [config|e] eqn:Hc.
  - destruct (get config "containerEndpoint" (JStr "?")) as [endpoint|e] eqn:Hu.
    + injection E as <- <-.
      framed ltac:(intros _; split; [exact I|]; intros _ _;
                   exists tid, endpoint, (trace w); reflexivity).
    + injection E as <- <-.
      framed ltac:(intros _; apply stopped_concluded; left;
                   exact (get_raises _ _ _ _ Hu)).
  - injection E as <- <-.
    framed ltac:(intros _; apply stopped_concluded; left;
                 exact (get_raises _ _ _ _ Hc)).
Qed.

Lemma within_conclude a token tid tenant :
  within 1 35 concluded (conclude a token tid tenant).
Proof.
  unfold conclude.
  apply (within_bind 0 0 1 35 tame);
    [apply within_lift, get_proper| |intros e w H; apply stopped_concluded, tame_stopped, H].
  intros status.
  apply (within_bind 0 0 1 35 stopped);
    [apply within_exit_if; left; reflexivity| |intros e w H; apply stopped_concluded, H].
  intros _.
  apply (within_bind 0 0 1 35 tame);
    [apply within_verify_container| |intros e w H; apply stopped_concluded, tame_stopped, H].
  intros container_ok.
  apply (within_bind 0 0 1 35 stopped);
    [apply within_exit_if; right; left; reflexivity| |intros e w H; apply stopped_concluded, H].
  intros _.
  apply (within_bind 1 35 0 0 tame);
    [apply within_health_step| |intros e w H; apply stopped_concluded, tame_stopped, H].
  intros _. apply within_closing_report.
Qed.

Lemma within_guarded N T (body : M unit) :
  within N T concluded body -> within N T reported (try_except body fatal).
Proof.
  intros Hb w r w' E. unfold try_except in E.
  destruct (body w) as [[u|e] w1] eqn:Eb;
    destruct (Hb _ _ _ Eb) as (H1 & H2 & H3 & H4 & H5 & H6).
  - injection E as <- <-.
    framed ltac:(intros C; destruct (H6 C) as [_ H]; left; destruct u;
                 split; [reflexivity|apply (H tt eq_refl)]).
  - destruct (is_Exception e) eqn:He.
    + unfold fatal, bind, print, sys_exit, raise in E. injection E as <- <-.
      framed ltac:(intros _; right; split; [reflexivity|];
                   exists (fatal_line e), (trace w1); split; [reflexivity|];
                   right; right; exists e; split; [exact He|reflexivity]).
    + injection E as <- <-.
      framed ltac:(intros C;
                   destruct (H6 C) as [[H|(-> & line & rest & Ht & Hl)] _];
                   [congruence|];
                   right; split; [reflexivity|]; exists line, rest; split; assumption).
Qed.

Lemma within_main a : within 28 275 reported (main a).
Proof.
  unfold main.
  do 5 (apply (within_bind 0 0 28 275 (fun r _ => r = Ok tt));
        [apply within_print| |intros e w H; discriminate H]; intros _).
  apply within_guarded.
  apply (within_bind 2 0 26 275 tame);
    [apply within_authenticate| |intros e w H; apply stopped_concluded, tame_stopped, H].
  intros token.
  apply (within_bind 1 0 25 275 tame);
    [apply within_create_tenant| |intros e w H; apply stopped_concluded, tame_stopped, H].
  intros tenant_id.
  apply (within_bind 24 240 1 35 tame);
    [exact (within_poll_provisioning _ _ _ 240)|
    |intros e w H; apply stopped_concluded, tame_stopped, H].
  intros tenant. apply within_conclude.
Qed.



(** X20: whatever the backend, docker and the container answer, a run of
    [main] makes at most 28 requests (2 to log in, 1 to create, 24 polls,
    1 health re-fetch) and sleeps at most 275 seconds (24 intervals of 10
    and the 35-second wait for the health monitor). *)
Theorem main_is_bounded a w :
  (sent (snd (main a w)) <= sent w + 28)%nat /\
  clock w <= clock (snd (main a w)) <= clock w + 275.
Proof.
  destruct (main a w) as [r w'] eqn:E.
  destruct (within_main a w r w' E) as (_ & _ & _ & Hs & Hc & _).
  cbn [snd]. split; [lia|]. change (Z.of_nat 275) with 275 in Hc. exact Hc.
Qed.
